(* Shallow embedding of the zeropod shim: the annotation decoder
   (zeropod/config.go), the lifecycle wrapper and exit reconciler of the
   task service (runc/task/service_zeropod.go), the restore path of the
   checkpoint/restore engine (zeropod/restore.go), and the earlier
   wrapper with its own scaleDown/restore (runc/task/zeropod.go and
   runc/task/service_zeropod.go of the first release). *)

From Stdlib Require Import String Ascii List Bool ZArith NArith Lia Wellfounded.
From stdpp Require Import base gmap strings list.

Import ListNotations.
Open Scope string_scope.
Open Scope list_scope.

(* ===================================================================== *)
(* Go standard library pieces used by the code                          *)
(* ===================================================================== *)

Module GoStrings.

(** [strings.Split(s, sep)] for a one-byte separator: every occurrence
    of [sep] cuts; the empty string yields [[""]]. *)
Fixpoint Split (sep : ascii) (s : string) : list string :=
  match s with
  | EmptyString => [EmptyString]
  | String a s' =>
      let rest := Split sep s' in
      if Ascii.eqb a sep then EmptyString :: rest
      else match rest with
           | r :: rs => String a r :: rs
           | [] => [String a EmptyString]
           end
  end.

(** [strings.Join(elems, sep)] for a one-byte separator. *)
Fixpoint JoinSep (sep : ascii) (l : list string) : string :=
  match l with
  | [] => EmptyString
  | [x] => x
  | x :: xs => String.append x (String sep (JoinSep sep xs))
  end.

(** [strings.HasPrefix] / [strings.TrimPrefix]. *)
Definition TrimPrefix (s pre : string) : string :=
  if String.prefix pre s
  then substring (String.length pre) (String.length s - String.length pre) s
  else s.

(** [strings.HasSuffix] / [strings.TrimSuffix]: [s[:len(s)-len(suf)]]
    when [s] ends with [suf]. *)
Definition HasSuffix (s suf : string) : bool :=
  (String.length suf <=? String.length s)%nat &&
  String.eqb (substring (String.length s - String.length suf)
                        (String.length suf) s) suf.

Definition TrimSuffix (s suf : string) : string :=
  if HasSuffix s suf
  then substring 0 (String.length s - String.length suf) s
  else s.

End GoStrings.

Module GoPath.
Import GoStrings.

Definition slash : ascii := "/"%char.

(** The lexical processing of [path.Clean], element by element: empty
    and "." elements vanish, ".." removes the last kept element unless
    that is itself ".." (or nothing is left); a rooted path drops a ".."
    that cannot be removed, an unrooted one keeps it.  The stack holds
    the kept elements, last one first. *)
Fixpoint clean_stack (rooted : bool) (st : list string) (elems : list string)
  : list string :=
  match elems with
  | [] => st
  | e :: es =>
      if String.eqb e "" || String.eqb e "." then clean_stack rooted st es
      else if String.eqb e ".." then
        match st with
        | x :: st' =>
            if String.eqb x ".." then
              clean_stack rooted (if rooted then st else e :: st) es
            else clean_stack rooted st' es
        | [] => clean_stack rooted (if rooted then st else e :: st) es
        end
      else clean_stack rooted (e :: st) es
  end.

Definition is_rooted (p : string) : bool :=
  match p with
  | String c _ => Ascii.eqb c slash
  | EmptyString => false
  end.

(** [path.Clean]. *)
Definition Clean (p : string) : string :=
  if String.eqb p "" then "." else
  let rooted := is_rooted p in
  let body := JoinSep slash (rev (clean_stack rooted [] (Split slash p))) in
  if rooted then String slash body
  else if String.eqb body "" then "." else body.

(** The buffer of [path.Join]: empty leading elements are skipped, every
    later element is preceded by a '/'. *)
Fixpoint join_buf (buf : string) (elems : list string) : string :=
  match elems with
  | [] => buf
  | e :: es =>
      if negb (String.eqb buf "") || negb (String.eqb e "") then
        join_buf (if String.eqb buf "" then e
                  else String.append buf (String slash e)) es
      else join_buf buf es
  end.

(** [path.Join(elem...)]. *)
Definition Join (elems : list string) : string :=
  Clean (join_buf "" elems).

(** A path element that [Clean] keeps as it is. *)
Definition plain_segment (x : string) : bool :=
  negb (String.eqb x "") && negb (String.eqb x ".") && negb (String.eqb x "..")
  && negb (existsb (Ascii.eqb slash) (list_ascii_of_string x)).

(** An absolute path in clean form with at least one element, such as a
    containerd bundle directory. *)
Definition clean_abs_path (p : string) : bool :=
  match p with
  | String c rest => Ascii.eqb c slash && forallb plain_segment (Split slash rest)
  | EmptyString => false
  end.

End GoPath.

(** Results of fallible Go calls: a value or a non-nil error. *)
Inductive result (A : Type) : Type :=
| Ok (a : A)
| Err (e : string).
Arguments Ok {A} a.
Arguments Err {A} e.

Definition is_err {A} (r : result A) : bool :=
  match r with Ok _ => false | Err _ => true end.

(* ===================================================================== *)
(* zeropod/config.go                                                     *)
(* ===================================================================== *)

Module ZConfig.
Import GoStrings.

Definition PortsAnnotationKey := "zeropod.ctrox.dev/ports-map".
Definition ContainerNamesAnnotationKey := "zeropod.ctrox.dev/container-names".
Definition ScaleDownDurationAnnotationKey := "zeropod.ctrox.dev/scaledown-duration".
Definition DisableCheckpoiningAnnotationKey := "zeropod.ctrox.dev/disable-checkpointing".
Definition PreDumpAnnotationKey := "zeropod.ctrox.dev/pre-dump".
Definition CRIContainerNameAnnotation := "io.kubernetes.cri.container-name".
Definition CRIContainerTypeAnnotation := "io.kubernetes.cri.container-type".
Definition CRISandboxNameAnnotation := "io.kubernetes.cri.sandbox-name".
Definition CRISandboxNamespaceAnnotation := "io.kubernetes.cri.sandbox-namespace".
Definition CRISandboxUIDAnnotation := "io.kubernetes.cri.sandbox-uid".
Definition VClusterNameAnnotationKey := "vcluster.loft.sh/name".
Definition VClusterNamespaceAnnotationKey := "vcluster.loft.sh/namespace".

(** One minute, in nanoseconds ([time.Duration]). *)
Definition defaultScaleDownDuration : Z := 60000000000.
Definition containersDelim : ascii := ",".
Definition portsDelim : ascii := containersDelim.
Definition mappingDelim : ascii := ";".
Definition mapDelim : ascii := "=".
Definition defaultContainerdNS := "k8s.io".

(** The OCI spec's annotations, a Go [map[string]string]. *)
Abbreviation annotations := (gmap string string).

(** [annotationConfig], filled by [mapstructure.Decode]: every field is
    the annotation under its tag (see [decodeField]), "" when there is
    none.  Decoding a [map[string]string] into string fields cannot
    fail. *)
Record annotationConfig := {
  a_PortMap : string;
  a_ZeropodContainerNames : string;
  a_ScaledownDuration : string;
  a_DisableCheckpointing : string;
  a_PreDump : string;
  a_ContainerName : string;
  a_ContainerType : string;
  a_PodName : string;
  a_PodNamespace : string;
  a_PodUID : string;
  a_VClusterPodName : string;
  a_VClusterPodNamespace : string
}.

Definition annot (m : annotations) (k : string) : string :=
  default "" (m !! k).

(** ASCII [unicode.ToLower]. *)
Definition lower (c : ascii) : ascii :=
  let n := nat_of_ascii c in
  if (65 <=? n)%nat && (n <=? 90)%nat then ascii_of_nat (n + 32) else c.

(** [strings.EqualFold s t] for an ASCII [t], as every field tag is.
    [s] is read as UTF-8, one rune at a time: an ASCII rune matches the
    byte of [t] up to case; the only other runes whose simple case
    folding reaches an ASCII letter are the Kelvin sign U+212A (bytes
    E2 84 AA), which matches k and K, and the long s U+017F (bytes C5
    BF), which matches s and S; any other rune, and any invalid byte,
    matches no ASCII byte. *)
Fixpoint EqualFold (s t : string) {struct s} : bool :=
  match s, t with
  | EmptyString, EmptyString => true
  | String a s', String b t' =>
      if (nat_of_ascii a <? 128)%nat then Ascii.eqb (lower a) (lower b) && EqualFold s' t'
      else if (nat_of_ascii a =? 226)%nat then
        match s' with
        | String a1 (String a2 s'') =>
            (nat_of_ascii a1 =? 132)%nat && (nat_of_ascii a2 =? 170)%nat &&
            Ascii.eqb (lower b) "k" && EqualFold s'' t'
        | _ => false
        end
      else if (nat_of_ascii a =? 197)%nat then
        match s' with
        | String a1 s'' =>
            (nat_of_ascii a1 =? 191)%nat && Ascii.eqb (lower b) "s" && EqualFold s'' t'
        | _ => false
        end
      else false
  | _, _ => false
  end.

Definition isKey (m : annotations) (k : string) : bool :=
  match m !! k with Some _ => true | None => false end.

Section Decode.
(** The order in which the fallback loop of [mapstructure.Decode] visits
    the keys of the annotations while looking for one field.  Go
    randomises the iteration order of a map, afresh for every field: the
    keys listed by [keyOrder m field] are visited first, the others
    follow in the map's own order, so every order of the keys is one
    value of [keyOrder]. *)
Variable keyOrder : annotations -> string -> list string.

Definition visitOrder (m : annotations) (field : string) : list string :=
  keyOrder m field ++ map fst (map_to_list m).

(** How [mapstructure.Decode] fills one field of [annotationConfig]:
    the value under the field's tag; when the tag is not a key, the
    value under the first key the loop meets that matches the tag by
    [MatchName], by default [strings.EqualFold]; "" when no key
    matches. *)
Definition decodeField (m : annotations) (field : string) : string :=
  match m !! field with
  | Some v => v
  | None =>
      match List.find (fun k => isKey m k && EqualFold k field) (visitOrder m field) with
      | Some k => annot m k
      | None => ""
      end
  end.

Definition decode (m : annotations) : annotationConfig := {|
  a_PortMap := decodeField m PortsAnnotationKey;
  a_ZeropodContainerNames := decodeField m ContainerNamesAnnotationKey;
  a_ScaledownDuration := decodeField m ScaleDownDurationAnnotationKey;
  a_DisableCheckpointing := decodeField m DisableCheckpoiningAnnotationKey;
  a_PreDump := decodeField m PreDumpAnnotationKey;
  a_ContainerName := decodeField m CRIContainerNameAnnotation;
  a_ContainerType := decodeField m CRIContainerTypeAnnotation;
  a_PodName := decodeField m CRISandboxNameAnnotation;
  a_PodNamespace := decodeField m CRISandboxNamespaceAnnotation;
  a_PodUID := decodeField m CRISandboxUIDAnnotation;
  a_VClusterPodName := decodeField m VClusterNameAnnotationKey;
  a_VClusterPodNamespace := decodeField m VClusterNamespaceAnnotationKey
|}.
End Decode.

Record Config := {
  ZeropodContainerNames : list string;
  Ports : list N;
  ScaleDownDuration : Z;
  DisableCheckpointing : bool;
  PreDump : bool;
  ContainerName : string;
  ContainerType : string;
  podName : string;
  podNamespace : string;
  podUID : string;
  ContainerdNamespace : string;
  spec : annotations;
  vclusterPodName : string;
  vclusterPodNamespace : string
}.

(** [strconv.ParseUint(s, 10, 16)]: decimal digits only (no sign, no
    underscore with an explicit base), at least one digit, value below
    2^16.  Go stops at the first overflow; since appending a digit never
    decreases the value, failing at the end is the same outcome. *)
Fixpoint decimal_value (s : string) (acc : N) : option N :=
  match s with
  | EmptyString => Some acc
  | String c s' =>
      let d := N.of_nat (nat_of_ascii c) in
      if ((48 <=? d) && (d <=? 57))%N
      then decimal_value s' (acc * 10 + (d - 48))%N
      else None
  end.

Definition ParseUint16 (s : string) : result N :=
  if String.eqb s "" then Err "strconv.ParseUint: invalid syntax" else
  match decimal_value s 0 with
  | None => Err "strconv.ParseUint: invalid syntax"
  | Some n =>
      if (n <? 65536)%N then Ok n
      else Err "strconv.ParseUint: value out of range"
  end.

(** [strconv.ParseBool]. *)
Definition ParseBool (s : string) : result bool :=
  if existsb (String.eqb s) ["1"; "t"; "T"; "TRUE"; "true"; "True"] then Ok true
  else if existsb (String.eqb s) ["0"; "f"; "F"; "FALSE"; "false"; "False"]
  then Ok false
  else Err "strconv.ParseBool: invalid syntax".

(** The inner loop over the ports of one mapping. *)
Fixpoint parse_ports (ports : list string) (acc : list N) : result (list N) :=
  match ports with
  | [] => Ok acc
  | port :: rest =>
      match ParseUint16 port with
      | Err e => Err e
      | Ok p => parse_ports rest (acc ++ [p])
      end
  end.

(** The loop over the ';'-separated mappings of the ports map. *)
Fixpoint parse_mappings (containerName : string) (mappings : list string)
    (acc : list N) : result (list N) :=
  match mappings with
  | [] => Ok acc
  | mapping :: rest =>
      match Split mapDelim mapping with
      | [name; ports] =>
          if negb (String.eqb name containerName)
          then parse_mappings containerName rest acc
          else match parse_ports (Split portsDelim ports) acc with
               | Err e => Err e
               | Ok acc' => parse_mappings containerName rest acc'
               end
      | _ => Err "invalid port map, the format needs to be name=port"
      end
  end.

Definition containerPorts (cfg : annotationConfig) : result (list N) :=
  if negb (String.eqb cfg.(a_PortMap) "")
  then parse_mappings cfg.(a_ContainerName) (Split mappingDelim cfg.(a_PortMap)) []
  else Ok [].

(** A mapping of the ports map that the loop of [NewConfig] rejects for
    the container [containerName]: it does not split into exactly a name
    and a port list around '=', or it names the container and one of its
    ','-separated ports does not parse. *)
Definition mapping_rejected (containerName mapping : string) : Prop :=
  length (Split mapDelim mapping) <> 2%nat \/
  exists ports port, Split mapDelim mapping = [containerName; ports] /\
    In port (Split portsDelim ports) /\ is_err (ParseUint16 port) = true.

Section NewConfig.
(** [time.ParseDuration] (nanoseconds) and [runtime.GOARCH]. *)
Variable ParseDuration : string -> result Z.
Variable GOARCH : string.
Variable keyOrder : annotations -> string -> list string.

(** [NewConfig(ctx, spec)]; [ctxNamespace] is [namespaces.Namespace(ctx)]. *)
Definition NewConfig (ctxNamespace : option string) (m : annotations)
  : result Config :=
  let cfg := decode keyOrder m in
  match containerPorts cfg with
  | Err e => Err e
  | Ok ports =>
  match (if negb (String.eqb cfg.(a_ScaledownDuration) "")
         then ParseDuration cfg.(a_ScaledownDuration)
         else Ok defaultScaleDownDuration) with
  | Err e => Err e
  | Ok dur =>
  match (if negb (String.eqb cfg.(a_DisableCheckpointing) "")
         then ParseBool cfg.(a_DisableCheckpointing) else Ok false) with
  | Err e => Err e
  | Ok disableCheckpointing =>
  match (if negb (String.eqb cfg.(a_PreDump) "")
         then match ParseBool cfg.(a_PreDump) with
              | Ok pd => Ok (pd && negb (String.eqb GOARCH "arm64"))
              | Err e => Err e
              end
         else Ok false) with
  | Err e => Err e
  | Ok preDump =>
  let containerNames :=
    if negb (String.eqb cfg.(a_ZeropodContainerNames) "")
    then Split containersDelim cfg.(a_ZeropodContainerNames) else [] in
  let ns := match ctxNamespace with Some n => n | None => defaultContainerdNS end in
  Ok {|
    Ports := ports;
    ScaleDownDuration := dur;
    DisableCheckpointing := disableCheckpointing;
    PreDump := preDump;
    ZeropodContainerNames := containerNames;
    ContainerName := cfg.(a_ContainerName);
    ContainerType := cfg.(a_ContainerType);
    ContainerdNamespace := ns;
    podName := cfg.(a_PodName);
    podNamespace := cfg.(a_PodNamespace);
    podUID := cfg.(a_PodUID);
    spec := m;
    vclusterPodName := cfg.(a_VClusterPodName);
    vclusterPodNamespace := cfg.(a_VClusterPodNamespace)
  |}
  end end end end.
End NewConfig.

Definition IsZeropodContainer (cfg : Config) : bool :=
  existsb (fun n => String.eqb n cfg.(ContainerName)) cfg.(ZeropodContainerNames)
  || (length cfg.(ZeropodContainerNames) =? 0)%nat.

Definition HostPodName (cfg : Config) : string := cfg.(podName).
Definition HostPodNamespace (cfg : Config) : string := cfg.(podNamespace).
Definition HostPodUID (cfg : Config) : string := cfg.(podUID).

Definition PodName (cfg : Config) : string :=
  if negb (String.eqb cfg.(vclusterPodName) "") then cfg.(vclusterPodName)
  else cfg.(podName).

Definition PodNamespace (cfg : Config) : string :=
  if negb (String.eqb cfg.(vclusterPodNamespace) "") then cfg.(vclusterPodNamespace)
  else cfg.(podNamespace).

End ZConfig.

(* ===================================================================== *)
(* The lifecycle wrapper of the task service, zeropod/restore.go         *)
(* ===================================================================== *)

Module Task.
Import GoStrings.

(** A shim process: its id, its PID and whether its dynamic type is
    [*process.Init] (the container's init) rather than an exec. *)
Record proc := { p_id : string; p_pid : Z; p_init : bool }.

(** [*runc.Container]: the fields the wrapper reads.  Containers are
    identified by their ID (the maps of the service are keyed by the
    pointer; one pointer per ID at a time). *)
Record container := { c_ID : string; c_Bundle : string }.

Record containerProcess := { cp_Container : string; cp_Process : proc }.

(** [runcC.Exit]: an exit event of the reaper. *)
Record exit := { e_Pid : Z; e_Status : Z }.

(** [*zeropod.Container], as far as the wrapper and Restore observe it. *)
Record ZContainer := {
  zc_ID : string;
  zc_Bundle : string;
  zc_ScaledDown : bool;
  zc_Process : proc;
  zc_InitialProcess : option proc;
  zc_DisableCheckpointing : bool;
  zc_preRestore : bool;     (* a pre-restore callback is registered *)
  zc_postRestore : bool     (* a post-restore callback is registered *)
}.

Record KillRequest := { kr_ID : string; kr_ExecID : string; kr_Signal : Z; kr_All : bool }.
Record StartRequest := { sr_ID : string; sr_ExecID : string }.
Record StartResponse := { resp_Pid : Z }.
Record ExecProcessRequest := { er_ID : string; er_ExecID : string }.

(** The observable actions of the wrapper, in program order. *)
Inductive effect :=
| LockCheckpointRestore
| UnlockCheckpointRestore
| SetExited (p : proc) (status : Z)
| NilDereference                       (* method call on a nil process *)
| StopActivator (id : string)          (* zeropodContainer.Stop *)
| ProcessKill (p : proc) (signal : Z) (all : bool)
| DelegateKill (r : KillRequest)
| DelegateStart (r : StartRequest)
| DelegateExec (r : ExecProcessRequest)
| HandleProcessExit (e : exit) (cp : containerProcess)
| NotifySubscribers (e : exit)
| ZeropodNew (id : string)
| RegisterPreRestore (id : string)
| RegisterPostRestore (id : string)
| RegisterShutdown (id : string)
| ScheduleScaleDown (id : string)
| CancelScaleDown (id : string)
| SetScaledDown (id : string) (b : bool)
| RestoreLoggers (id : string)
| NewContainer (id bundle : string) (fromCheckpoint : bool)
| CgroupSet (id : string)
| CallPreRestore (id : string)
| StartProcess (id : string)
| ReadFile (path : string)
| LogError (msg : string)
| ReplaceContainer (id : string)       (* the post-restore callback *)
| DisableRedirects (id : string)
| LogFatal (msg : string)
| OsExit (code : Z).

(** The wrapper's state: the managed containers and the maps of the
    embedded service that the exit loop reads and writes. *)
Record wstate := {
  zeropodContainers : gmap string ZContainer;
  running : gmap Z (list containerProcess);
  pendingExecs : gmap string nat;
  exitSubscribers : list (gmap Z (list exit))
}.

Definition set_running (w : wstate) (r : gmap Z (list containerProcess)) : wstate :=
  {| zeropodContainers := w.(zeropodContainers); running := r;
     pendingExecs := w.(pendingExecs); exitSubscribers := w.(exitSubscribers) |}.

Definition set_subscribers (w : wstate) (s : list (gmap Z (list exit))) : wstate :=
  {| zeropodContainers := w.(zeropodContainers); running := w.(running);
     pendingExecs := w.(pendingExecs); exitSubscribers := s |}.

Definition set_zeropodContainers (w : wstate) (m : gmap string ZContainer) : wstate :=
  {| zeropodContainers := m; running := w.(running);
     pendingExecs := w.(pendingExecs); exitSubscribers := w.(exitSubscribers) |}.

(** [zeropodContainer.InitialProcess().SetExited(0)]. *)
Definition set_initial_exited (zc : ZContainer) : list effect :=
  match zc.(zc_InitialProcess) with
  | Some ip => [SetExited ip 0]
  | None => [NilDereference]
  end.

(** [wrapper.Kill]; [procKill] is the outcome of
    [zeropodContainer.Process().Kill] and [delegate] the one of
    [w.service.Kill].  The deferred unlock runs last. *)
Definition Kill (w : wstate) (r : KillRequest) (procKill delegate : result unit)
  : list effect * result unit :=
  match w.(zeropodContainers) !! r.(kr_ID) with
  | None =>
      ([LockCheckpointRestore; DelegateKill r; UnlockCheckpointRestore], delegate)
  | Some zc =>
      if String.eqb r.(kr_ExecID) "" && zc.(zc_ScaledDown) then
        ([LockCheckpointRestore; SetExited zc.(zc_Process) 0]
           ++ set_initial_exited zc
           ++ [StopActivator r.(kr_ID); DelegateKill r; UnlockCheckpointRestore],
         delegate)
      else if String.eqb r.(kr_ExecID) "" then
        let pre := [LockCheckpointRestore; StopActivator r.(kr_ID);
                    ProcessKill zc.(zc_Process) r.(kr_Signal) r.(kr_All)] in
        match procKill with
        | Err e => (pre ++ [UnlockCheckpointRestore], Err e)
        | Ok _ =>
            (pre ++ set_initial_exited zc
                 ++ [DelegateKill r; UnlockCheckpointRestore], delegate)
        end
      else ([LockCheckpointRestore; DelegateKill r; UnlockCheckpointRestore], delegate)
  end.

(** [wrapper.preventExit]. *)
Definition preventExit (w : wstate) (cp : containerProcess) : list effect * bool :=
  match w.(zeropodContainers) !! cp.(cp_Container) with
  | None => ([], false)
  | Some zc =>
      if zc.(zc_ScaledDown) then ([], true)
      else if match zc.(zc_InitialProcess) with
              | Some ip => String.eqb cp.(cp_Process).(p_id) ip.(p_id)
              | None => false
              end
              || String.eqb cp.(cp_Process).(p_id) zc.(zc_Process).(p_id)
      then (set_initial_exited zc, false)
      else ([], false)
  end.

(** The first loop of [processExits]: every pair is asked, the flag is
    set if any of them prevents the exit. *)
Fixpoint preventExits (w : wstate) (cps : list containerProcess) : list effect * bool :=
  match cps with
  | [] => ([], false)
  | cp :: rest =>
      let '(e1, b1) := preventExit w cp in
      let '(e2, b2) := preventExits w rest in
      (e1 ++ e2, b1 || b2)
  end.

(** The second loop of [processExits]: inits of containers with pending
    execs go to [skipped], the others are appended to [cps]. *)
Fixpoint split_exits (pending : gmap string nat) (l : list containerProcess)
    (skipped cps : list containerProcess) : list containerProcess * list containerProcess :=
  match l with
  | [] => (skipped, cps)
  | cp :: rest =>
      if cp.(cp_Process).(p_init)
         && negb (Nat.eqb (default 0%nat (pending !! cp.(cp_Container))) 0)
      then split_exits pending rest (skipped ++ [cp]) cps
      else split_exits pending rest skipped (cps ++ [cp])
  end.

Definition notify (e : exit) (s : gmap Z (list exit)) : gmap Z (list exit) :=
  <[e.(e_Pid) := default [] (s !! e.(e_Pid)) ++ [e]]> s.

(** One iteration of [wrapper.processExits] for the event [e].  Note
    that [cps] is the variable that already holds [w.running[e.Pid]]
    from the first loop when the second loop appends to it. *)
Definition processExit (w : wstate) (e : exit) : list effect * wstate :=
  let cps := default [] (w.(running) !! e.(e_Pid)) in
  let '(eff, prevent) := preventExits w cps in
  if prevent then (eff, w) else
  let w1 := set_subscribers w (map (notify e) w.(exitSubscribers)) in
  let '(skipped, cps') :=
    split_exits w1.(pendingExecs) (default [] (w1.(running) !! e.(e_Pid))) [] cps in
  let running' :=
    match skipped with
    | [] => delete e.(e_Pid) w1.(running)
    | _ => <[e.(e_Pid) := skipped]> w1.(running)
    end in
  (eff ++ [NotifySubscribers e] ++ map (fun cp => HandleProcessExit e cp) cps',
   set_running w1 running').

(** The loop [for e := range w.ec]. *)
Fixpoint processExits (w : wstate) (es : list exit) : list effect * wstate :=
  match es with
  | [] => ([], w)
  | e :: rest =>
      let '(eff1, w1) := processExit w e in
      let '(eff2, w2) := processExits w1 rest in
      (eff1 ++ eff2, w2)
  end.

(** The outcomes of the external calls made by [Container.Restore]. *)
Record RestoreEnv := {
  re_newContainer : result unit;    (* runc.NewContainer *)
  re_process : result proc;         (* container.Process("") *)
  re_start : result unit;           (* p.Start(ctx) *)
  re_restoreLog : result string;    (* os.ReadFile(.../work/restore.log) *)
  re_disableRedirects : result unit (* c.activator.DisableRedirects() *)
}.

(** [Container.Restore] (zeropod/restore.go).  The new container takes
    its Bundle from the create request, i.e. [c.Bundle].  In the start
    failure branch [err] is redeclared by [b, err := os.ReadFile(..)],
    so the returned error wraps the read error, [nil] when the log was
    read; [fmt.Errorf] with a nil [%w] still returns an error. *)
Definition Restore (zc : ZContainer) (env : RestoreEnv)
  : list effect * result (container * proc) * ZContainer :=
  let id := zc.(zc_ID) in
  let pre := [LockCheckpointRestore; RestoreLoggers id;
              NewContainer id zc.(zc_Bundle) (negb zc.(zc_DisableCheckpointing))] in
  match env.(re_newContainer) with
  | Err e => (pre ++ [UnlockCheckpointRestore], Err e, zc)
  | Ok _ =>
  let c := {| c_ID := id; c_Bundle := zc.(zc_Bundle) |} in
  let pre := pre ++ [CgroupSet id]
                 ++ (if zc.(zc_preRestore) then [CallPreRestore id] else []) in
  match env.(re_process) with
  | Err e => (pre ++ [UnlockCheckpointRestore], Err e, zc)
  | Ok p =>
  let pre := pre ++ [StartProcess id] in
  match env.(re_start) with
  | Err _ =>
      let logPath := GoPath.Join [c.(c_Bundle); "work"; "restore.log"] in
      let '(logs, b, werr) :=
        match env.(re_restoreLog) with
        | Ok b => ([], b, "%!w(<nil>)")
        | Err e2 => ([LogError (String.append "error reading restore.log: " e2)], "", e2)
        end in
      (pre ++ [ReadFile logPath] ++ logs ++ [LogError (String.append "restore.log: " b);
                                            UnlockCheckpointRestore],
       Err (String.append "start failed during restore: " werr), zc)
  | Ok _ =>
      let zc' := {| zc_ID := id; zc_Bundle := zc.(zc_Bundle);
                    zc_ScaledDown := zc.(zc_ScaledDown); zc_Process := p;
                    zc_InitialProcess := zc.(zc_InitialProcess);
                    zc_DisableCheckpointing := zc.(zc_DisableCheckpointing);
                    zc_preRestore := zc.(zc_preRestore);
                    zc_postRestore := zc.(zc_postRestore) |} in
      let pre := pre ++ (if zc.(zc_postRestore) then [ReplaceContainer id] else [])
                     ++ [DisableRedirects id] in
      match env.(re_disableRedirects) with
      | Err e => (pre ++ [UnlockCheckpointRestore],
                  Err (String.append "could not disable redirects: " e), zc')
      | Ok _ => (pre ++ [UnlockCheckpointRestore], Ok (c, p), zc')
      end
  end end end.

(** How a call of the wrapper ends: it returns, or the shim exits. *)
Inductive outcome (A : Type) :=
| Returned (r : result A)
| ShimExit (code : Z).
Arguments Returned {A} r.
Arguments ShimExit {A} code.

(** [wrapper.Exec]; [delegate] is the outcome of [w.service.Exec].
    [log.Fatalf] exits the process with status 1. *)
Definition Exec (w : wstate) (r : ExecProcessRequest) (renv : RestoreEnv)
    (delegate : result unit) : list effect * outcome unit * wstate :=
  match w.(zeropodContainers) !! r.(er_ID) with
  | None => ([DelegateExec r], Returned delegate, w)
  | Some zc =>
      let pre := [CancelScaleDown r.(er_ID)] in
      if zc.(zc_ScaledDown) then
        let '(reff, res, zc') := Restore zc renv in
        match res with
        | Err e =>
            (pre ++ reff ++ [LogFatal (String.append "error restoring container, exiting shim: " e);
                             OsExit 1], ShimExit 1, w)
        | Ok _ =>
            let zc'' := {| zc_ID := zc'.(zc_ID); zc_Bundle := zc'.(zc_Bundle);
                           zc_ScaledDown := false; zc_Process := zc'.(zc_Process);
                           zc_InitialProcess := zc'.(zc_InitialProcess);
                           zc_DisableCheckpointing := zc'.(zc_DisableCheckpointing);
                           zc_preRestore := zc'.(zc_preRestore);
                           zc_postRestore := zc'.(zc_postRestore) |} in
            (pre ++ reff ++ [SetScaledDown r.(er_ID) false; DelegateExec r],
             Returned delegate,
             set_zeropodContainers w (<[r.(er_ID) := zc'']> w.(zeropodContainers)))
        end
      else (pre ++ [DelegateExec r], Returned delegate, w)
  end.

(** The outcomes of the calls made by [wrapper.Start]. *)
Record StartEnv := {
  se_delegate : result StartResponse;   (* w.service.Start *)
  se_container : result container;     (* w.getContainer(r.ID) *)
  se_spec : result ZConfig.annotations; (* zeropod.GetSpec(container.Bundle) *)
  se_namespace : option string;         (* namespaces.Namespace(ctx) *)
  se_new : result ZContainer;           (* zeropod.New(...) *)
  se_schedule : result unit             (* zeropodContainer.ScheduleScaleDown() *)
}.

Definition containerTypeSandbox := "sandbox".

Section Start.
Variable ParseDuration : string -> result Z.
Variable GOARCH : string.
(** The key order of [mapstructure.Decode]'s fallback loop. *)
Variable keyOrder : ZConfig.annotations -> string -> list string.

(** [wrapper.Start]. *)
Definition Start (w : wstate) (r : StartRequest) (env : StartEnv)
  : list effect * result StartResponse * wstate :=
  let pre := [DelegateStart r] in
  match env.(se_delegate) with
  | Err e => (pre, Err e, w)
  | Ok resp =>
  match env.(se_container) with
  | Err e => (pre, Err e, w)
  | Ok c =>
  match env.(se_spec) with
  | Err e => (pre, Err e, w)
  | Ok spec =>
  match ZConfig.NewConfig ParseDuration GOARCH keyOrder env.(se_namespace) spec with
  | Err e => (pre, Err e, w)
  | Ok cfg =>
  if String.eqb cfg.(ZConfig.ContainerType) containerTypeSandbox
     || negb (String.eqb r.(sr_ExecID) "")
     || negb (ZConfig.IsZeropodContainer cfg)
  then (pre, Ok resp, w)
  else
  match env.(se_new) with
  | Err e => (pre ++ [ZeropodNew r.(sr_ID)],
              Err (String.append "error creating scaled container: " e), w)
  | Ok zc =>
      let zc' := {| zc_ID := zc.(zc_ID); zc_Bundle := zc.(zc_Bundle);
                    zc_ScaledDown := zc.(zc_ScaledDown); zc_Process := zc.(zc_Process);
                    zc_InitialProcess := zc.(zc_InitialProcess);
                    zc_DisableCheckpointing := zc.(zc_DisableCheckpointing);
                    zc_preRestore := true; zc_postRestore := true |} in
      let w' := set_zeropodContainers w (<[r.(sr_ID) := zc']> w.(zeropodContainers)) in
      let eff := pre ++ [ZeropodNew r.(sr_ID); RegisterPreRestore r.(sr_ID);
                         RegisterPostRestore r.(sr_ID); RegisterShutdown r.(sr_ID);
                         ScheduleScaleDown r.(sr_ID)] in
      match env.(se_schedule) with
      | Err e => (eff, Err e, w')
      | Ok _ => (eff, Ok resp, w')
      end
  end end end end end.
End Start.

End Task.

(* ===================================================================== *)
(* removeCriuIPTablesRules: the caller and its writer goroutine          *)
(* ===================================================================== *)

Module IPTables.

(** Where the calling goroutine is: before [cmd.StdinPipe()], in
    [netNS.Do], at [close(errors)] after a failed [Do], at the final
    [<-errors], or returned (with a nil or non-nil error). *)
Inductive mpc := MPipe | MDo | MClose (e : string) | MRecv | MDone (ret : option string).

(** Where the writer goroutine is: not started, at [io.WriteString], at
    [errors <- err], at [close(errors)], or finished. *)
Inductive gpc := GIdle | GWrite | GSend (e : string) | GClose | GDone.

(** The unbuffered channel [errors] is open or closed; a panic of either
    goroutine ends the process. *)
Record ipt := { i_main : mpc; i_gor : gpc; i_closed : bool; i_panicked : bool }.

(** The outcomes of [cmd.StdinPipe()], of [io.WriteString] and of
    [netNS.Do] (running [iptables-restore]). *)
Record IPEnv := { ip_pipe : result unit; ip_write : result unit; ip_do : result unit }.

Definition ipt_init : ipt := {| i_main := MPipe; i_gor := GIdle; i_closed := false; i_panicked := false |}.

Definition with_main (st : ipt) (m : mpc) : ipt :=
  {| i_main := m; i_gor := st.(i_gor); i_closed := st.(i_closed); i_panicked := st.(i_panicked) |}.
Definition with_gor (st : ipt) (g : gpc) : ipt :=
  {| i_main := st.(i_main); i_gor := g; i_closed := st.(i_closed); i_panicked := st.(i_panicked) |}.
Definition close_chan (st : ipt) : ipt :=
  {| i_main := st.(i_main); i_gor := st.(i_gor); i_closed := true; i_panicked := st.(i_panicked) |}.
Definition panic (st : ipt) : ipt :=
  {| i_main := st.(i_main); i_gor := st.(i_gor); i_closed := st.(i_closed); i_panicked := true |}.

(** A step of the calling goroutine.  Closing a closed channel panics;
    a receive from a closed channel yields the nil error; a receive
    meets a pending send. *)
Definition main_step (env : IPEnv) (st : ipt) : list ipt :=
  match st.(i_main) with
  | MPipe =>
      match env.(ip_pipe) with
      | Err e => [with_main st (MDone (Some e))]
      | Ok _ => [with_gor (with_main st MDo) GWrite]     (* go func() {...}() *)
      end
  | MDo =>
      match env.(ip_do) with
      | Err e => [with_main st (MClose e)]
      | Ok _ => [with_main st MRecv]
      end
  | MClose e =>
      if st.(i_closed) then [panic st] else [close_chan (with_main st (MDone (Some e)))]
  | MRecv =>
      if st.(i_closed) then [with_main st (MDone None)]
      else match st.(i_gor) with
           | GSend e => [with_gor (with_main st (MDone (Some e))) GClose]
           | _ => []
           end
  | MDone _ => []
  end.

(** A step of the writer goroutine.  Sending on a closed channel panics;
    an unbuffered send waits for the receive. *)
Definition gor_step (env : IPEnv) (st : ipt) : list ipt :=
  match st.(i_gor) with
  | GIdle | GDone => []
  | GWrite =>
      match env.(ip_write) with
      | Err e => [with_gor st (GSend e)]
      | Ok _ => [with_gor st GClose]
      end
  | GSend e =>
      if st.(i_closed) then [panic st]
      else match st.(i_main) with
           | MRecv => [with_gor (with_main st (MDone (Some e))) GClose]
           | _ => []
           end
  | GClose =>
      if st.(i_closed) then [panic st] else [close_chan (with_gor st GDone)]
  end.

(** [removeCriuIPTablesRules] as an interleaving of its two goroutines:
    every step of either one that can move. *)
Definition removeCriuIPTablesRules_step (env : IPEnv) (st : ipt) : list ipt :=
  if st.(i_panicked) then [] else main_step env st ++ gor_step env st.

Inductive reachable (env : IPEnv) : ipt -> Prop :=
| reach_init : reachable env ipt_init
| reach_step st st' :
    reachable env st -> In st' (removeCriuIPTablesRules_step env st) -> reachable env st'.

End IPTables.

(* ===================================================================== *)
(* The first release: runc/task/zeropod.go (service.restore) and the    *)
(* wrapper of runc/task/service_zeropod.go with its own scaleDown        *)
(* ===================================================================== *)

Module Legacy.
Import GoStrings.
Import Task.

(** [stdio.Stdio]. *)
Record Stdio := { Stdin : string; Stdout : string; Stderr : string; Terminal : bool }.

(** The stdio rewriting of [service.restore]: the service's stdio is
    updated in place, then the stdio of the new process is built from
    it.  Returns the service's new stdio and the process's stdio. *)
Definition restore_stdio (s : Stdio) : Stdio * Stdio :=
  let out1 := TrimPrefix s.(Stdout) "file://" in
  let out2 := TrimSuffix out1 "-1" in
  let err1 := TrimPrefix out2 "file://" in
  let err2 := TrimSuffix out2 "-1" in
  let _ := err1 in
  let s' := {| Stdin := s.(Stdin); Stdout := out2; Stderr := err2;
               Terminal := s.(Terminal) |} in
  (s', {| Stdin := ""; Stdout := String.append "file://" (String.append s'.(Stdout) "-1");
          Stderr := String.append "file://" (String.append s'.(Stderr) "-1");
          Terminal := false |}).

(** [snapshotDir] and [containerDir]. *)
Definition snapshotDir (bundle : string) : string := GoPath.Join [bundle; "snapshots"].
Definition containerDir (bundle : string) : string :=
  GoPath.Join [snapshotDir bundle; "container"].

(** [process.CheckpointConfig]. *)
Record CheckpointConfig := {
  ck_Path : string;
  ck_WorkDir : string;
  ck_Exit : bool;
  ck_AllowOpenTCP : bool;
  ck_AllowExternalUnixSockets : bool;
  ck_AllowTerminal : bool;
  ck_FileLocks : bool;
  ck_EmptyNamespaces : list string
}.

Inductive leffect :=
| LDelegateStart (r : StartRequest)
| LSleep (seconds : Z)
| LRemoveAll (dir : string)
| LCheckpoint (p : proc) (opts : CheckpointConfig)
| LLogError (msg : string)
| LReadFile (path : string)
| LSend (event : string) (id : string)
| LStartZeropod (id : string)          (* starts the activator *)
| LGetNS (path : string)
| LIPTablesRestore
| LNewServer (netNS : string)          (* activator.NewServer(ctx, cfg.Port, s.netNSPath) *)
| LRegisterShutdown                    (* s.shutdown.RegisterCallback *)
| LPanic (msg : string).

(** The wrapper's own fields. *)
Record lstate := {
  originalProcess : option proc;
  scaledDown : bool;
  netNSPath : string
}.

Definition set_scaledDown (s : lstate) (b : bool) : lstate :=
  {| originalProcess := s.(originalProcess); scaledDown := b; netNSPath := s.(netNSPath) |}.

Definition set_originalProcess (s : lstate) (p : proc) : lstate :=
  {| originalProcess := Some p; scaledDown := s.(scaledDown); netNSPath := s.(netNSPath) |}.

Definition set_netNSPath (s : lstate) (path : string) : lstate :=
  {| originalProcess := s.(originalProcess); scaledDown := s.(scaledDown); netNSPath := path |}.

(** The outcomes of the calls made by [wrapper.StartZeropod]. *)
Record StartZeropodEnv := {
  sz_getSpec : result unit;          (* runc.GetSpec(container.Bundle) *)
  sz_getNetworkNS : result string;   (* runc.GetNetworkNS(spec) *)
  sz_newConfig : result unit;        (* NewConfig(spec) *)
  sz_newServer : result unit;        (* activator.NewServer *)
  sz_srvStart : result unit          (* srv.Start *)
}.

(** [wrapper.StartZeropod]: the network namespace path is looked up and
    stored only while [s.netNSPath] is empty, and stays stored when a
    later step fails. *)
Definition StartZeropod (s : lstate) (c : container) (env : StartZeropodEnv)
  : list leffect * lstate * result unit :=
  match env.(sz_getSpec) with
  | Err e => ([], s, Err e)
  | Ok _ =>
  let s1 :=
    if String.eqb s.(netNSPath) "" then
      match env.(sz_getNetworkNS) with
      | Err e => inr e
      | Ok path => inl (set_netNSPath s path)
      end
    else inl s in
  match s1 with
  | inr e => ([], s, Err e)
  | inl s1 =>
  match env.(sz_newConfig) with
  | Err e => ([], s1, Err e)
  | Ok _ =>
  let pre := [LNewServer s1.(netNSPath)] in
  match env.(sz_newServer) with
  | Err e => (pre, s1, Err e)
  | Ok _ =>
  let pre := pre ++ [LRegisterShutdown] in
  match env.(sz_srvStart) with
  | Err e => (pre ++ [LLogError (String.append "failed to start server: " e)], s1, Err e)
  | Ok _ => (pre, s1, Ok tt)
  end end end end end.

(** How a Go call ends: a nil error, an error, or a panic. *)
Inductive goret := RNil | RErr (e : string) | RPanic (msg : string).

(** How [removeCriuIPTablesRules] ends, as a function of the outcomes of
    its calls (the runs of [IPTables.removeCriuIPTablesRules_step] all
    end this way).  When [netNS.Do] fails, [errors] is closed twice, or
    sent on after it was closed, by one of the two goroutines: the
    process panics. *)
Definition removeCriuIPTablesRules (env : IPTables.IPEnv) : goret :=
  match env.(IPTables.ip_pipe) with
  | Err e => RErr e
  | Ok _ =>
  match env.(IPTables.ip_do) with
  | Err _ => RPanic "close of closed channel"
  | Ok _ =>
  match env.(IPTables.ip_write) with
  | Err e => RErr e
  | Ok _ => RNil
  end end end.

(** The outcomes of the calls made by [scaleDown]. *)
Record ScaleDownEnv := {
  sd_removeAll : result unit;             (* os.RemoveAll(snapshotDir) *)
  sd_checkpoint : result unit;            (* Checkpoint of the init process *)
  sd_dumpLog : result string;             (* os.ReadFile(workDir/dump.log) *)
  sd_startZeropod : StartZeropodEnv;      (* s.StartZeropod *)
  sd_getNS : result unit;                 (* ns.GetNS(s.netNSPath) *)
  sd_iptables : IPTables.IPEnv            (* removeCriuIPTablesRules *)
}.

(** [wrapper.scaleDown].  In the checkpoint failure branch [err] is
    redeclared by [b, err := os.ReadFile(..)], so what is returned is
    the read error ([nil] when dump.log was read). *)
Definition scaleDown (s : lstate) (c : container) (p : proc) (env : ScaleDownEnv)
  : list leffect * lstate * goret :=
  let sdir := snapshotDir c.(c_Bundle) in
  match env.(sd_removeAll) with
  | Err e => ([LRemoveAll sdir], s,
              RErr (String.append "unable to prepare snapshot dir: " e))
  | Ok _ =>
  let workDir := GoPath.Join [sdir; "work"] in
  let s1 := set_scaledDown s true in
  if negb p.(p_init) then
    ([LRemoveAll sdir; LPanic "interface conversion: not *process.Init"], s1,
     RPanic "interface conversion")
  else
  let opts := {| ck_Path := containerDir c.(c_Bundle); ck_WorkDir := workDir;
                 ck_Exit := true; ck_AllowOpenTCP := true;
                 ck_AllowExternalUnixSockets := true; ck_AllowTerminal := false;
                 ck_FileLocks := false; ck_EmptyNamespaces := [] |} in
  let pre := [LRemoveAll sdir; LCheckpoint p opts] in
  match env.(sd_checkpoint) with
  | Err e =>
      let s2 := set_scaledDown s1 false in
      let logPath := GoPath.Join [workDir; "dump.log"] in
      let '(logs, b, ret) :=
        match env.(sd_dumpLog) with
        | Ok b => ([], b, RNil)
        | Err e2 => ([LLogError (String.append "error reading dump.log: " e2)], "", RErr e2)
        end in
      (pre ++ [LLogError (String.append "error checkpointing container: " e);
               LReadFile logPath] ++ logs
           ++ [LLogError (String.append "dump.log: " b)], s2, ret)
  | Ok _ =>
      let pre := pre ++ [LSend "TaskCheckpointed" c.(c_ID); LStartZeropod c.(c_ID)] in
      let '(zeff, s2, zret) := StartZeropod s1 c env.(sd_startZeropod) in
      let pre := pre ++ zeff in
      match zret with
      | Err e => (pre ++ [LLogError (String.append "unable to start zeropod: " e)], s2, RErr e)
      | Ok _ =>
      let pre := pre ++ [LGetNS s2.(netNSPath)] in
      match env.(sd_getNS) with
      | Err e => (pre, s2, RErr e)
      | Ok _ =>
      let pre := pre ++ [LIPTablesRestore] in
      match removeCriuIPTablesRules env.(sd_iptables) with
      | RErr e => (pre ++ [LLogError (String.append "unable to restore iptables: " e)], s2, RErr e)
      | RNil => (pre, s2, RNil)
      | RPanic m => (pre ++ [LPanic m], s2, RPanic m)
      end end end
  end end.

(** The outcomes of the calls made by [wrapper.Start]. *)
Record LStartEnv := {
  ls_delegate : result StartResponse;   (* s.service.Start *)
  ls_container : result container;     (* s.getContainer(r.ID) *)
  ls_process : result proc;            (* container.Process(r.ExecID) *)
  ls_sandbox : result bool;            (* runc.IsSandboxContainer *)
  ls_scaleDown : ScaleDownEnv
}.

(** How [Start] ends: it returns, or a panic unwinds it. *)
Inductive lreturn := LReturned (r : result StartResponse) | LPanicked (msg : string).

(** [wrapper.Start] of the first release. *)
Definition Start (s : lstate) (r : StartRequest) (env : LStartEnv)
  : list leffect * lstate * lreturn :=
  let pre := [LDelegateStart r] in
  match env.(ls_delegate) with
  | Err e => (pre, s, LReturned (Err e))
  | Ok resp =>
  match env.(ls_container) with
  | Err e => (pre, s, LReturned (Err e))
  | Ok c =>
  match env.(ls_process) with
  | Err e => (pre, s, LReturned (Err e))
  | Ok p =>
  match env.(ls_sandbox) with
  | Err e => (pre, s, LReturned (Err e))
  | Ok sandbox =>
  if negb sandbox && String.eqb r.(sr_ExecID) "" then
    let s1 := set_originalProcess s p in
    let '(eff, s2, ret) := scaleDown s1 c p env.(ls_scaleDown) in
    let eff := pre ++ [LSleep 2] ++ eff in
    match ret with
    | RNil => (eff, s2, LReturned (Ok resp))
    | RErr _ => (eff, s2, LReturned (Ok {| resp_Pid := p.(p_pid) |}))
    | RPanic m => (eff, s2, LPanicked m)
    end
  else (pre, s, LReturned (Ok resp))
  end end end end.

End Legacy.

(* ===================================================================== *)
(* The lifecycle wrapper's Delete                                        *)
(* ===================================================================== *)

Module TaskDelete.
Import Task.

Record DeleteRequest := { dr_ID : string; dr_ExecID : string }.

Inductive deffect :=
| DScheduleScaleDown (id : string)    (* zeropodContainer.ScheduleScaleDown *)
| DDelegateDelete (r : DeleteRequest). (* w.service.Delete *)

(** [wrapper.Delete]; [schedule] is the outcome of
    [zeropodContainer.ScheduleScaleDown()] and [delegate] the one of
    [w.service.Delete]. *)
Definition Delete {R : Type} (w : wstate) (r : DeleteRequest) (schedule : result unit)
    (delegate : result R) : list deffect * result R :=
  match w.(zeropodContainers) !! r.(dr_ID) with
  | None => ([DDelegateDelete r], delegate)
  | Some _ =>
      if negb (String.eqb r.(dr_ExecID) "") then
        match schedule with
        | Err e => ([DScheduleScaleDown r.(dr_ID)], Err e)
        | Ok _ => ([DScheduleScaleDown r.(dr_ID); DDelegateDelete r], delegate)
        end
      else ([DDelegateDelete r], delegate)
  end.

End TaskDelete.

(* ===================================================================== *)
(* The first release: Kill, checkProcesses and the two restore paths     *)
(* ===================================================================== *)

Module LegacyWrapper.
Import GoStrings.
Import Task.
Import Legacy.

Inductive xeffect :=
| XSetExited (p : proc) (status : Z)
| XDelegateKill (r : KillRequest)
| XKillAll (p : proc)                          (* ip.KillAll *)
| XTaskExit (containerID processID : string) (pid status : Z)
| XNewProcess (id : string) (stdio : Stdio)    (* process.New *)
| XCreate (id bundle checkpoint : string)      (* p.Create *)
| XStart (id : string)                         (* p.Start *)
| XSetMainProcess (id : string)
| XTaskStart (containerID : string) (pid : Z)
| XTaskResumed (containerID : string)
| XPanic (msg : string).

(** The outcomes of the calls made by [wrapper.Kill]. *)
Record LKillEnv := {
  lk_container : result container;  (* s.getContainer(r.ID) *)
  lk_process : result proc;         (* container.Process("") *)
  lk_delegate : result unit         (* s.service.Kill *)
}.

(** How a call ends: it returns, or a panic unwinds it. *)
Inductive xreturn (A : Type) := XReturned (r : result A) | XPanicked (msg : string).
Arguments XReturned {A} r.
Arguments XPanicked {A} msg.

Definition nil_deref := "invalid memory address or nil pointer dereference".

(** [wrapper.Kill] of the first release.  [s.originalProcess] is an
    interface value; a method call on it panics while it is nil. *)
Definition Kill (s : lstate) (r : KillRequest) (env : LKillEnv)
  : list xeffect * xreturn unit :=
  if String.eqb r.(kr_ExecID) "" && s.(scaledDown) then
    match env.(lk_container) with
    | Err e => ([], XReturned (Err e))
    | Ok _ =>
    match env.(lk_process) with
    | Err e => ([], XReturned (Err e))
    | Ok p =>
    match s.(originalProcess) with
    | None => ([XPanic nil_deref], XPanicked nil_deref)
    | Some op =>
        ([XSetExited op 0; XSetExited p 0; XDelegateKill r], XReturned env.(lk_delegate))
    end end end
  else ([XDelegateKill r], XReturned env.(lk_delegate)).

(** A container of [s.containers] as the exit loop reads it: [lc_All] is
    [container.All()], its exec processes and its init; [HasPid] holds
    when one of them has the PID (the two methods of [runc.Container]
    look at the same processes). *)
Record lcontainer := { lc_ID : string; lc_Bundle : string; lc_All : list proc }.

Definition HasPid (c : lcontainer) (pid : Z) : bool :=
  existsb (fun p => Z.eqb p.(p_pid) pid) c.(lc_All).

(** The inner loop of [checkProcesses] over [container.All()]. *)
Fixpoint check_all (s : lstate) (shouldKillAll : string -> bool) (c : lcontainer)
    (e : exit) (ps : list proc) : list xeffect :=
  match ps with
  | [] => []
  | p :: rest =>
      if negb (Z.eqb p.(p_pid) e.(e_Pid)) then check_all s shouldKillAll c e rest
      else
      let kill := if p.(p_init) && shouldKillAll c.(lc_Bundle) then [XKillAll p] else [] in
      if s.(scaledDown) then kill ++ check_all s shouldKillAll c e rest
      else match s.(originalProcess) with
           | None => kill ++ [XPanic nil_deref]
           | Some op =>
               kill ++ (if String.eqb p.(p_id) op.(p_id) then [XSetExited op 0] else [])
                    ++ [XSetExited p e.(e_Status);
                        XTaskExit c.(lc_ID) p.(p_id) e.(e_Pid) e.(e_Status)]
           end
  end.

(** [wrapper.checkProcesses]; [cs] lists [s.containers] in the order the
    map is ranged over and [shouldKillAll] is [runc.ShouldKillAllOnExit]
    of a bundle.  The first container that has the PID ends the call. *)
Fixpoint checkProcesses (s : lstate) (shouldKillAll : string -> bool)
    (cs : list lcontainer) (e : exit) : list xeffect :=
  match cs with
  | [] => []
  | c :: rest =>
      if negb (HasPid c e.(e_Pid)) then checkProcesses s shouldKillAll rest e
      else check_all s shouldKillAll c e c.(lc_All)
  end.

(** The outcomes of the calls made by the two restore functions. *)
Record RestoreEnv := {
  lr_create : result unit;   (* p.Create *)
  lr_start : result unit;    (* p.Start *)
  lr_pid : Z                 (* p.Pid() of the started process *)
}.

(** [wrapper.restore]; [stdio_of] is the [Stdio()] method of a process. *)
Definition restore (s : lstate) (stdio_of : proc -> Stdio) (c : container)
    (env : RestoreEnv) : list xeffect * xreturn proc :=
  match s.(originalProcess) with
  | None => ([XPanic nil_deref], XPanicked nil_deref)
  | Some op =>
  let pst := {| Stdin := "";
                Stdout := String.append "file://" (String.append (stdio_of op).(Stdout) "-1");
                Stderr := String.append "file://" (String.append (stdio_of op).(Stderr) "-1");
                Terminal := false |} in
  let pre := [XNewProcess c.(c_ID) pst; XCreate c.(c_ID) c.(c_Bundle) (containerDir c.(c_Bundle))] in
  match env.(lr_create) with
  | Err e => (pre, XReturned (Err (String.append "creation failed during restore: " e)))
  | Ok _ =>
  let pre := pre ++ [XStart c.(c_ID)] in
  match env.(lr_start) with
  | Err e => (pre, XReturned (Err (String.append "start failed during restore: " e)))
  | Ok _ =>
      (pre ++ [XSetMainProcess c.(c_ID); XTaskStart c.(c_ID) env.(lr_pid)],
       XReturned (Ok {| p_id := c.(c_ID); p_pid := env.(lr_pid); p_init := true |}))
  end end end.

(** [service.restore]: the container gets the fresh ID [newID] (the
    hash of the current time), the service's stdio is rewritten by
    [restore_stdio].  Returns the effects, the service's new stdio, the
    renamed container and the restored process. *)
Definition service_restore (svc : Stdio) (newID : string) (c : container)
    (env : RestoreEnv) : list xeffect * Stdio * container * result proc :=
  let c' := {| c_ID := newID; c_Bundle := c.(c_Bundle) |} in
  let '(svc', pst) := restore_stdio svc in
  let pre := [XNewProcess newID pst; XCreate newID c.(c_Bundle) (containerDir c.(c_Bundle))] in
  match env.(lr_create) with
  | Err e => (pre, svc', c', Err (String.append "creation failed during restore: " e))
  | Ok _ =>
  let pre := pre ++ [XStart newID] in
  match env.(lr_start) with
  | Err e => (pre, svc', c', Err (String.append "start failed during restore: " e))
  | Ok _ =>
      (pre ++ [XTaskResumed newID], svc', c',
       Ok {| p_id := newID; p_pid := env.(lr_pid); p_init := true |})
  end end.

End LegacyWrapper.

(* ===================================================================== *)
(* Theorems                                                              *)
(* ===================================================================== *)

Module StringFacts.
Import GoStrings.
Import GoPath.

(* stdpp makes [String.append] opaque to [simpl]; its defining equation
   is used as a rewrite rule instead. *)
Lemma append_String (x : ascii) (a b : string) :
  String.append (String x a) b = String x (String.append a b).
Proof. reflexivity. Qed.

Lemma append_assoc_str (a b c : string) :
  String.append (String.append a b) c = String.append a (String.append b c).
Proof.
  induction a as [|x a IH]; [reflexivity|].
  rewrite !append_String, IH. reflexivity.
Qed.

Lemma append_empty_r (a : string) : String.append a "" = a.
Proof. induction a as [|x a IH]; [reflexivity|]. rewrite append_String, IH. reflexivity. Qed.

Lemma Split_not_nil (c : ascii) (s : string) : Split c s <> [].
Proof.
  destruct s as [|a s]; simpl; [discriminate|].
  destruct (Ascii.eqb a c); [discriminate|].
  destruct (Split c s); discriminate.
Qed.

Lemma Split_app_sep (c : ascii) (s1 s2 : string) :
  Split c (String.append s1 (String c s2)) = Split c s1 ++ Split c s2.
Proof.
  induction s1 as [|a s1 IH].
  - simpl. rewrite Ascii.eqb_refl. reflexivity.
  - rewrite append_String. simpl. rewrite IH. destruct (Ascii.eqb a c); [reflexivity|].
    destruct (Split c s1) eqn:E; [exfalso; exact (Split_not_nil c s1 E)|].
    reflexivity.
Qed.

Lemma JoinSep_cons2 (c : ascii) (x : string) (l : list string) :
  l <> [] -> JoinSep c (x :: l) = String.append x (String c (JoinSep c l)).
Proof. destruct l; [congruence | reflexivity]. Qed.

Lemma JoinSep_Split (c : ascii) (s : string) : JoinSep c (Split c s) = s.
Proof.
  induction s as [|a s IH]; simpl; [reflexivity|].
  destruct (Ascii.eqb a c) eqn:E.
  - apply Ascii.eqb_eq in E. subst.
    rewrite JoinSep_cons2 by apply Split_not_nil. simpl. now rewrite IH.
  - destruct (Split c s) as [|r rs] eqn:S; [exfalso; exact (Split_not_nil c s S)|].
    destruct rs as [|r' rs].
    + simpl in IH. now subst.
    + rewrite JoinSep_cons2 in IH by discriminate.
      rewrite JoinSep_cons2 by discriminate.
      rewrite append_String, IH. reflexivity.
Qed.

Lemma JoinSep_snoc (c : ascii) (l : list string) (x : string) :
  l <> [] -> JoinSep c (l ++ [x]) = String.append (JoinSep c l) (String c x).
Proof.
  induction l as [|y l IH]; intros H; [congruence|].
  destruct l as [|z l]; [reflexivity|].
  change ((y :: z :: l) ++ [x]) with (y :: ((z :: l) ++ [x])).
  rewrite (JoinSep_cons2 c y ((z :: l) ++ [x])) by (destruct l; discriminate).
  rewrite IH by discriminate.
  rewrite (JoinSep_cons2 c y (z :: l)) by discriminate.
  rewrite append_assoc_str, append_String. reflexivity.
Qed.

Lemma clean_stack_plain (r : bool) (st l : list string) :
  forallb plain_segment l = true -> clean_stack r st l = rev l ++ st.
Proof.
  revert st. induction l as [|x l IH]; intros st H; [reflexivity|].
  simpl in H. apply andb_prop in H as [Hx Hl].
  unfold plain_segment in Hx.
  destruct (String.eqb x "") eqn:E1; [discriminate|].
  destruct (String.eqb x ".") eqn:E2; [discriminate|].
  destruct (String.eqb x "..") eqn:E3; [discriminate|].
  simpl. rewrite E1, E2, E3. simpl. rewrite IH by exact Hl.
  rewrite <- app_assoc. reflexivity.
Qed.

Lemma Split_plain (x : string) :
  existsb (Ascii.eqb slash) (list_ascii_of_string x) = false -> Split slash x = [x].
Proof.
  induction x as [|a x IH]; intros H; [reflexivity|].
  cbn -[Ascii.eqb slash] in H |- *. apply orb_false_iff in H as [Ha Hx].
  rewrite Ascii.eqb_sym, Ha, IH by exact Hx. reflexivity.
Qed.

(** Joining a plain element to a clean absolute path appends it. *)
Lemma Join_clean_abs (b x : string) :
  clean_abs_path b = true -> plain_segment x = true ->
  Join [b; x] = String.append b (String slash x)
  /\ clean_abs_path (String.append b (String slash x)) = true.
Proof.
  intros Hb Hx.
  destruct b as [|c rest]; [discriminate|].
  simpl in Hb. apply andb_prop in Hb as [Hc Hrest].
  apply Ascii.eqb_eq in Hc. subst c.
  assert (Hxs : Split slash x = [x]).
  { apply Split_plain. unfold plain_segment in Hx.
    apply andb_prop in Hx as [_ Hx]. now apply negb_true_iff in Hx. }
  assert (Hsplit : Split slash (String.append rest (String slash x))
                   = Split slash rest ++ [x]).
  { now rewrite Split_app_sep, Hxs. }
  split.
  - unfold Join. simpl.
    unfold Clean. simpl.
    rewrite Hsplit, clean_stack_plain.
    + rewrite app_nil_r, rev_app_distr. simpl. rewrite rev_involutive.
      rewrite JoinSep_snoc by apply Split_not_nil.
      rewrite JoinSep_Split. reflexivity.
    + rewrite forallb_app, Hrest. simpl. now rewrite Hx.
  - simpl. rewrite Hsplit, forallb_app, Hrest. simpl. now rewrite Hx.
Qed.

End StringFacts.

Module LegacyFacts.
Import GoStrings.
Import GoPath.
Import Task.
Import Legacy.
Import StringFacts.

(** Membership in a concrete list of effects. *)
Ltac in_list := simpl; repeat (first [left; reflexivity | right]).
(** Non-membership of a constructor in a concrete list of effects. *)
Ltac not_in_list := let H := fresh in
  intros H; simpl in H; repeat destruct H as [H|H]; try discriminate; try contradiction.

Lemma containerDir_clean (b : string) :
  clean_abs_path b = true ->
  containerDir b = String.append b "/snapshots/container"
  /\ Join [snapshotDir b; "work"] = String.append b "/snapshots/work".
Proof.
  intros Hb. unfold containerDir, snapshotDir.
  destruct (Join_clean_abs b "snapshots" Hb eq_refl) as [-> Hs].
  destruct (Join_clean_abs _ "container" Hs eq_refl) as [-> _].
  destruct (Join_clean_abs _ "work" Hs eq_refl) as [-> _].
  rewrite !append_assoc_str. split; reflexivity.
Qed.

(** [StartZeropod] only creates the activator, registers its shutdown
    and logs. *)
Lemma StartZeropod_effects (s : lstate) (c : container) (env : StartZeropodEnv) (x : leffect) :
  In x (fst (fst (StartZeropod s c env))) ->
  (exists path, x = LNewServer path) \/ x = LRegisterShutdown \/ (exists msg, x = LLogError msg).
Proof.
  unfold StartZeropod.
  destruct (sz_getSpec env); simpl; [|contradiction].
  destruct (String.eqb (netNSPath s) "");
    [destruct (sz_getNetworkNS env); simpl; [|contradiction]|simpl];
    (destruct (sz_newConfig env); simpl; [|contradiction]);
    (destruct (sz_newServer env); simpl;
     [destruct (sz_srvStart env); simpl|]);
    intros H; repeat destruct H as [H|H]; subst; try contradiction; eauto.
Qed.

(** [StartZeropod] keeps the original process and the flag, and stores
    the path of the network namespace when none was stored and the spec
    and the namespace were read, whatever happens next. *)
Lemma StartZeropod_state (s : lstate) (c : container) (env : StartZeropodEnv) :
  let s' := snd (fst (StartZeropod s c env)) in
  s'.(originalProcess) = s.(originalProcess) /\ s'.(scaledDown) = s.(scaledDown) /\
  s'.(netNSPath) =
    (if String.eqb s.(netNSPath) "" then
       match env.(sz_getSpec), env.(sz_getNetworkNS) with
       | Ok _, Ok path => path
       | _, _ => ""
       end
     else s.(netNSPath)).
Proof.
  unfold StartZeropod. cbv zeta.
  destruct (String.eqb (netNSPath s) "") eqn:Hn.
  - apply String.eqb_eq in Hn.
    destruct (sz_getSpec env); simpl; [|auto].
    destruct (sz_getNetworkNS env); simpl; [|auto].
    destruct (sz_newConfig env); [|auto]; destruct (sz_newServer env); [|auto];
      destruct (sz_srvStart env); auto.
  - destruct (sz_getSpec env); simpl; [|auto].
    destruct (sz_newConfig env); [|auto]; destruct (sz_newServer env); [|auto];
      destruct (sz_srvStart env); auto.
Qed.

(** [StartZeropod] changes the stored path of the network namespace
    only from empty, to the path [GetNetworkNS] returned. *)
Lemma StartZeropod_netNS (s : lstate) (c : container) (env : StartZeropodEnv) :
  let s' := snd (fst (StartZeropod s c env)) in
  s'.(netNSPath) = s.(netNSPath) \/
  (s.(netNSPath) = "" /\ env.(sz_getNetworkNS) = Ok s'.(netNSPath)).
Proof.
  pose proof (StartZeropod_state s c env) as H. cbv zeta in H |- *.
  destruct H as [_ [_ ->]].
  destruct (String.eqb (netNSPath s) "") eqn:He; [|left; reflexivity].
  apply String.eqb_eq in He.
  destruct (sz_getSpec env), (sz_getNetworkNS env);
    first [right; split; [exact He|reflexivity] | left; rewrite He; reflexivity].
Qed.

(** Splits a hypothesis [In x L], [L] built from concrete effects and
    the effects of [StartZeropod] ([Hz] classifies those). *)
Ltac split_in H Hz :=
  simpl in H; rewrite ?in_app_iff in H; simpl in H;
  repeat destruct H as [H|H]; try discriminate; try contradiction;
  try (destruct (Hz _ H) as [[? ?]|[?|[? ?]]]; discriminate).

(** C6: every checkpoint that [scaleDown] invokes is of the process it
    was given, with dump target [containerDir bundle] (that is
    [bundle/snapshots/container]), work directory [bundle/snapshots/work],
    exit-after-dump, open TCP and external unix sockets allowed, no
    terminal, no file locks and no empty namespaces. *)
Theorem scaleDown_checkpoint_options (s : lstate) (c : container) (p : proc)
    (env : ScaleDownEnv) (q : proc) (opts : CheckpointConfig) :
  In (LCheckpoint q opts) (fst (fst (scaleDown s c p env))) ->
  q = p /\
  opts = {| ck_Path := containerDir c.(c_Bundle);
            ck_WorkDir := Join [snapshotDir c.(c_Bundle); "work"];
            ck_Exit := true; ck_AllowOpenTCP := true;
            ck_AllowExternalUnixSockets := true; ck_AllowTerminal := false;
            ck_FileLocks := false; ck_EmptyNamespaces := [] |} /\
  (clean_abs_path c.(c_Bundle) = true ->
   opts.(ck_Path) = String.append c.(c_Bundle) "/snapshots/container" /\
   opts.(ck_WorkDir) = String.append c.(c_Bundle) "/snapshots/work").
Proof.
  intros H.
  assert (Hopt : q = p /\
    opts = {| ck_Path := containerDir c.(c_Bundle);
              ck_WorkDir := Join [snapshotDir c.(c_Bundle); "work"];
              ck_Exit := true; ck_AllowOpenTCP := true;
              ck_AllowExternalUnixSockets := true; ck_AllowTerminal := false;
              ck_FileLocks := false; ck_EmptyNamespaces := [] |}).
  { unfold scaleDown in H.
    destruct env as [rm ck dl sz gn ipt]; simpl in H.
    destruct rm; simpl in H; [|destruct H as [H|H]; [discriminate|contradiction]].
    destruct (p_init p); simpl in H;
      [|repeat destruct H as [H|H]; try discriminate; contradiction].
    destruct ck.
    - pose proof (fun x => StartZeropod_effects (set_scaledDown s true) c sz x) as Hz.
      destruct (StartZeropod (set_scaledDown s true) c sz) as [[zeff s2] zret]; simpl in Hz.
      destruct zret; [destruct gn; [destruct (removeCriuIPTablesRules ipt)|]|];
        simpl in H; (destruct H as [H|[H|H]];
                     [discriminate|inversion H; subst; split; reflexivity|]);
        exfalso; split_in H Hz.
    - destruct dl; simpl in H; destruct H as [H|[H|H]];
        try discriminate; try (inversion H; subst; split; reflexivity);
        repeat destruct H as [H|H]; try discriminate; contradiction. }
  destruct Hopt as [Hq Ho]. split; [exact Hq|]. split; [exact Ho|].
  intros Hb. subst opts. simpl. now apply containerDir_clean.
Qed.

(** C4: when the checkpoint that [Start] triggers fails, the scaled-down
    flag ends reset, dump.log of the work directory is read and its
    contents logged, the activator is not started, and [Start] still
    returns a response without error. *)
Theorem Start_checkpoint_failure_recovered (s : lstate) (r : StartRequest)
    (env : LStartEnv) (resp : StartResponse) (c : container) (p : proc) (e : string) :
  env.(ls_delegate) = Ok resp -> env.(ls_container) = Ok c ->
  env.(ls_process) = Ok p -> p.(p_init) = true -> env.(ls_sandbox) = Ok false ->
  r.(sr_ExecID) = "" ->
  env.(ls_scaleDown).(sd_removeAll) = Ok tt ->
  env.(ls_scaleDown).(sd_checkpoint) = Err e ->
  let '(eff, s', ret) := Start s r env in
  (exists resp', ret = LReturned (Ok resp')) /\
  s'.(scaledDown) = false /\
  In (LReadFile (Join [Join [snapshotDir c.(c_Bundle); "work"]; "dump.log"])) eff /\
  In (LLogError (String.append "dump.log: "
        (match env.(ls_scaleDown).(sd_dumpLog) with Ok b => b | Err _ => "" end))) eff /\
  (forall id, ~ In (LStartZeropod id) eff).
Proof.
  intros Hd Hc Hp Hi Hs Hx Hrm Hck.
  unfold Start. rewrite Hd, Hc, Hp, Hs, Hx. simpl.
  unfold scaleDown. rewrite Hrm. simpl. rewrite Hi, Hck. simpl.
  destruct (sd_dumpLog (ls_scaleDown env)) as [b|e2]; simpl.
  - repeat split.
    + eexists; reflexivity.
    + in_list.
    + in_list.
    + intros id. not_in_list.
  - repeat split.
    + eexists; reflexivity.
    + in_list.
    + in_list.
    + intros id. not_in_list.
Qed.

End LegacyFacts.

Module StdioFacts.
Import GoStrings.
Import Legacy.
Import StringFacts.

Lemma length_append_str (a b : string) :
  String.length (String.append a b) = (String.length a + String.length b)%nat.
Proof. induction a as [|x a IH]; [reflexivity|]. rewrite append_String. simpl. now rewrite IH. Qed.

Lemma length_substring0 (m : nat) (s : string) :
  String.length (substring 0 m s) = Nat.min m (String.length s).
Proof.
  revert m. induction s as [|x s IH]; intros [|m]; simpl; try reflexivity.
  now rewrite IH.
Qed.

Lemma TrimSuffix_length (s suf : string) :
  HasSuffix s suf = true ->
  String.length (TrimSuffix s suf) = (String.length s - String.length suf)%nat.
Proof.
  intros H. unfold TrimSuffix. rewrite H, length_substring0. lia.
Qed.

(** C9: the stderr path of the restored process is derived from the
    rewritten stdout string, with one more "-1" suffix stripped: the
    process's stdout is [file://out-1] and its stderr
    [file://TrimSuffix(out,"-1")-1], where [out] is the service's stdout
    without its "file://" prefix and its "-1" suffix; the original
    stderr plays no part, and the two paths are equal exactly when
    [out] does not itself end in "-1". *)
Theorem restore_stdio_stderr_from_stdout (s : Stdio) :
  let out := TrimSuffix (TrimPrefix s.(Stdout) "file://") "-1" in
  let ps := snd (restore_stdio s) in
  ps.(Stdout) = String.append "file://" (String.append out "-1") /\
  ps.(Stderr) = String.append "file://" (String.append (TrimSuffix out "-1") "-1") /\
  (ps.(Stderr) = ps.(Stdout) <-> HasSuffix out "-1" = false).
Proof.
  cbv zeta. simpl. split; [reflexivity|]. split; [reflexivity|].
  set (out := TrimSuffix (TrimPrefix (Stdout s) "file://") "-1").
  split.
  - intros Heq. destruct (HasSuffix out "-1") eqn:Hs; [|reflexivity].
    exfalso. apply (f_equal String.length) in Heq.
    rewrite !length_append_str, TrimSuffix_length in Heq by exact Hs.
    unfold HasSuffix in Hs. apply andb_prop in Hs as [Hl _].
    apply Nat.leb_le in Hl. simpl in Hl, Heq. lia.
  - intros Hs. unfold TrimSuffix at 1. rewrite Hs. reflexivity.
Qed.

(** C9, as stated, fails: with stdout [file:///var/log/app-1-1] the
    restored process writes stdout to [file:///var/log/app-1-1] and
    stderr to [file:///var/log/app-1]. *)
Lemma restore_stdio_paths_differ :
  ~ (forall s : Stdio, (snd (restore_stdio s)).(Stderr) = (snd (restore_stdio s)).(Stdout)).
Proof.
  intros H.
  specialize (H {| Stdin := ""; Stdout := "file:///var/log/app-1-1";
                   Stderr := "file:///var/log/app-err-1"; Terminal := false |}).
  vm_compute in H. discriminate H.
Qed.

End StdioFacts.

Module ConfigFacts.
Import GoStrings.
Import ZConfig.

(** C10: [PodName] is the vcluster pod name when it is non-empty and the
    host pod name otherwise; [PodNamespace] likewise with the vcluster
    namespace and the host pod namespace. *)
Theorem PodName_PodNamespace_vcluster (cfg : Config) :
  PodName cfg = (if String.eqb cfg.(vclusterPodName) "" then HostPodName cfg
                 else cfg.(vclusterPodName)) /\
  PodNamespace cfg = (if String.eqb cfg.(vclusterPodNamespace) "" then HostPodNamespace cfg
                      else cfg.(vclusterPodNamespace)).
Proof.
  unfold PodName, PodNamespace, HostPodName, HostPodNamespace.
  split; destruct (String.eqb _ ""); reflexivity.
Qed.

End ConfigFacts.

Module PortsFacts.
Import GoStrings.
Import ZConfig.

Lemma parse_ports_err (ports : list string) (acc : list N) :
  is_err (parse_ports ports acc) = true <->
  exists port, In port ports /\ is_err (ParseUint16 port) = true.
Proof.
  revert acc. induction ports as [|q ports IH]; intros acc; simpl.
  - split; [discriminate | intros (? & [] & _)].
  - destruct (ParseUint16 q) as [n|e] eqn:Hq.
    + rewrite IH. split.
      * intros (port & Hin & He). eauto.
      * intros (port & [<-|Hin] & He); [rewrite Hq in He; discriminate | eauto].
    + split; [intros _; exists q; rewrite Hq; auto | reflexivity].
Qed.

Lemma parse_mappings_err (name : string) (ms : list string) (acc : list N) :
  is_err (parse_mappings name ms acc) = true <->
  exists mapping, In mapping ms /\ mapping_rejected name mapping.
Proof.
  revert acc. induction ms as [|m ms IH]; intros acc; simpl.
  - split; [discriminate | intros (? & [] & _)].
  - destruct (Split mapDelim m) as [|n [|ps [|x rest]]] eqn:Hs.
    + split; [intros _; exists m; split; [left; reflexivity | left; rewrite Hs; discriminate]
             | reflexivity].
    + split; [intros _; exists m; split; [left; reflexivity | left; rewrite Hs; discriminate]
             | reflexivity].
    + destruct (String.eqb n name) eqn:Hn; simpl.
      * apply String.eqb_eq in Hn. subst n.
        destruct (parse_ports (Split portsDelim ps) acc) as [acc'|e] eqn:Hp.
        -- rewrite IH. split.
           ++ intros (mp & Hin & Hr). eauto.
           ++ intros (mp & [<-|Hin] & Hr); [|eauto].
              exfalso. unfold mapping_rejected in Hr. rewrite Hs in Hr.
              destruct Hr as [Hl | (ports & port & Heq & Hin & He)]; [apply Hl; reflexivity|].
              injection Heq as <-.
              assert (Hb : is_err (parse_ports (Split portsDelim ps) acc) = true)
                by (apply parse_ports_err; eauto).
              rewrite Hp in Hb. discriminate.
        -- split; [intros _ | reflexivity].
           assert (Hb : is_err (parse_ports (Split portsDelim ps) acc) = true)
             by (rewrite Hp; reflexivity).
           apply parse_ports_err in Hb as (port & Hin & He).
           exists m. split; [left; reflexivity|].
           right. rewrite Hs. eauto.
      * rewrite IH. split.
        -- intros (mp & Hin & Hr). eauto.
        -- intros (mp & [<-|Hin] & Hr); [|eauto].
           exfalso. unfold mapping_rejected in Hr. rewrite Hs in Hr.
           destruct Hr as [Hl | (ports & port & Heq & _)]; [apply Hl; reflexivity|].
           injection Heq as -> _. rewrite String.eqb_refl in Hn. discriminate.
    + split; [intros _; exists m; split; [left; reflexivity | left; rewrite Hs; discriminate]
             | reflexivity].
Qed.

(** C8 (amended): the ports-map stage of [NewConfig] fails exactly when
    the decoded ports map is non-empty and one of its ';'-separated
    mappings is not of the form name=ports, or names this container and
    has a port that does not parse as a decimal 16-bit unsigned integer.
    Such a failure makes [NewConfig] return an error, and the wrapper's
    [Start] that decodes these annotations returns that error (after its
    delegate has started the task).  Ports of mappings for other
    containers are not parsed. *)
Theorem NewConfig_port_map_errors (ParseDuration : string -> result Z) (GOARCH : string)
    (keyOrder : annotations -> string -> list string) (ns : option string) (m : annotations) :
  let cfg := decode keyOrder m in
  let pm := cfg.(a_PortMap) in
  let name := cfg.(a_ContainerName) in
  (is_err (containerPorts cfg) = true <->
   pm <> "" /\ exists mapping, In mapping (Split mappingDelim pm) /\
                               mapping_rejected name mapping) /\
  (is_err (containerPorts cfg) = true ->
   is_err (NewConfig ParseDuration GOARCH keyOrder ns m) = true) /\
  (forall w r env resp c,
     env.(Task.se_delegate) = Ok resp -> env.(Task.se_container) = Ok c ->
     env.(Task.se_spec) = Ok m -> is_err (containerPorts cfg) = true ->
     exists e, NewConfig ParseDuration GOARCH keyOrder env.(Task.se_namespace) m = Err e /\
       Task.Start ParseDuration GOARCH keyOrder w r env = ([Task.DelegateStart r], Err e, w)).
Proof.
  cbv zeta. split; [|split].
  - unfold containerPorts.
    destruct (String.eqb (a_PortMap (decode keyOrder m)) "") eqn:He; cbn [negb].
    + apply String.eqb_eq in He. split; [discriminate | intros [H _]; contradiction].
    + apply String.eqb_neq in He. rewrite parse_mappings_err. tauto.
  - intros H. unfold NewConfig.
    destruct (containerPorts (decode keyOrder m)); [discriminate | reflexivity].
  - intros w r env resp c Hd Hc Hs H.
    destruct (containerPorts (decode keyOrder m)) as [ps|e] eqn:Hp; [discriminate|].
    assert (HN : NewConfig ParseDuration GOARCH keyOrder env.(Task.se_namespace) m = Err e)
      by (unfold NewConfig; rewrite Hp; reflexivity).
    exists e. split; [exact HN|].
    unfold Task.Start. rewrite Hd, Hc, Hs, HN. reflexivity.
Qed.

(** C8, as stated, fails: a port that does not parse in the mapping of
    another container is not an error. *)
Lemma NewConfig_other_container_port_unchecked :
  ~ (forall (ParseDuration : string -> result Z) (GOARCH : string)
            (keyOrder : annotations -> string -> list string) (ns : option string)
            (m : annotations) (mapping name ports port : string),
       In mapping (Split mappingDelim (decode keyOrder m).(a_PortMap)) ->
       Split mapDelim mapping = [name; ports] ->
       In port (Split portsDelim ports) ->
       is_err (ParseUint16 port) = true ->
       is_err (NewConfig ParseDuration GOARCH keyOrder ns m) = true).
Proof.
  intros H.
  specialize (H (fun _ => Ok 0%Z) "amd64" (fun _ _ => []) None
                (<[PortsAnnotationKey := "other=abc"]>
                  (<[CRIContainerNameAnnotation := "web"]> ∅))
                "other=abc" "other" "abc" "abc").
  vm_compute in H.
  assert (false = true) by (apply H; auto). discriminate.
Qed.

End PortsFacts.

Module TaskFacts.
Import GoStrings.
Import Task.

Ltac in_list := simpl; repeat (first [left; reflexivity | right]).
Ltac not_in_list := let H := fresh in
  intros H; simpl in H; repeat destruct H as [H|H]; try discriminate; try contradiction.

(** C1: a Kill of the init (empty exec id) of a managed container that
    is scaled down, under the checkpoint/restore lock, marks the current
    and then the initial process exited with status 0, stops the
    activator and delegates the Kill; no signal is sent to a process,
    the wrapper adds no error of its own and answers what the delegate
    answers. *)
Theorem Kill_scaled_down_synthesizes_exit (w : wstate) (r : KillRequest)
    (zc : ZContainer) (ip : proc) (procKill delegate : result unit) :
  w.(zeropodContainers) !! r.(kr_ID) = Some zc ->
  r.(kr_ExecID) = "" -> zc.(zc_ScaledDown) = true ->
  zc.(zc_InitialProcess) = Some ip ->
  Kill w r procKill delegate =
    ([LockCheckpointRestore; SetExited zc.(zc_Process) 0; SetExited ip 0;
      StopActivator r.(kr_ID); DelegateKill r; UnlockCheckpointRestore], delegate).
Proof.
  intros Hz He Hs Hi. unfold Kill. rewrite Hz, He, Hs. simpl.
  unfold set_initial_exited. rewrite Hi. reflexivity.
Qed.

Lemma preventExit_effects (w : wstate) (cp : containerProcess) (e : exit)
    (cp' : containerProcess) :
  ~ In (HandleProcessExit e cp') (fst (preventExit w cp)).
Proof.
  unfold preventExit.
  destruct (zeropodContainers w !! cp_Container cp) as [zc|]; [|not_in_list].
  destruct (zc_ScaledDown zc); [not_in_list|].
  destruct (_ || _); [|not_in_list].
  unfold set_initial_exited. destruct (zc_InitialProcess zc); not_in_list.
Qed.

Lemma preventExits_effects (w : wstate) (cps : list containerProcess) (e : exit)
    (cp' : containerProcess) :
  ~ In (HandleProcessExit e cp') (fst (preventExits w cps)).
Proof.
  induction cps as [|cp cps IH]; simpl; [tauto|].
  destruct (preventExit w cp) as [e1 b1] eqn:H1.
  destruct (preventExits w cps) as [e2 b2] eqn:H2. simpl in *.
  rewrite in_app_iff. intros [H|H]; [|exact (IH H)].
  pose proof (preventExit_effects w cp e cp') as Hn. rewrite H1 in Hn. exact (Hn H).
Qed.

Lemma preventExits_scaled_down (w : wstate) (cps : list containerProcess)
    (cp : containerProcess) (zc : ZContainer) :
  In cp cps -> w.(zeropodContainers) !! cp.(cp_Container) = Some zc ->
  zc.(zc_ScaledDown) = true -> snd (preventExits w cps) = true.
Proof.
  intros Hin Hz Hs. induction cps as [|c cps IH]; [contradiction|].
  simpl. destruct (preventExit w c) as [e1 b1] eqn:H1.
  destruct (preventExits w cps) as [e2 b2] eqn:H2. simpl.
  destruct Hin as [<-|Hin].
  - unfold preventExit in H1. rewrite Hz, Hs in H1. injection H1 as _ <-. reflexivity.
  - simpl in IH. rewrite (IH Hin). apply orb_true_r.
Qed.

(** C2: an exit event whose PID maps to a pair of a managed container
    that is scaled down is dropped whole: no pair of it reaches
    [handleProcessExit] and the wrapper's maps are left unchanged. *)
Theorem processExit_scaled_down_suppressed (w : wstate) (e : exit)
    (cp : containerProcess) (zc : ZContainer) :
  In cp (default [] (w.(running) !! e.(e_Pid))) ->
  w.(zeropodContainers) !! cp.(cp_Container) = Some zc ->
  zc.(zc_ScaledDown) = true ->
  snd (processExit w e) = w /\
  (forall cp', ~ In (HandleProcessExit e cp') (fst (processExit w e))).
Proof.
  intros Hin Hz Hs.
  pose proof (preventExits_scaled_down w _ cp zc Hin Hz Hs) as Hb.
  pose proof (preventExits_effects w (default [] (w.(running) !! e.(e_Pid))) e) as Hn.
  unfold processExit.
  destruct (preventExits w (default [] (running w !! e_Pid e))) as [eff b] eqn:Hp.
  simpl in Hb. subst b. simpl. split; [reflexivity|].
  intros cp'. specialize (Hn cp'). simpl in Hn. exact Hn.
Qed.

Lemma split_exits_spec (pending : gmap string nat) (l skipped cps : list containerProcess) :
  let deferred cp := cp.(cp_Process).(p_init)
                     && negb (Nat.eqb (default 0%nat (pending !! cp.(cp_Container))) 0) in
  split_exits pending l skipped cps =
    (skipped ++ List.filter deferred l, cps ++ List.filter (fun cp => negb (deferred cp)) l).
Proof.
  cbv zeta. revert skipped cps. induction l as [|cp l IH]; intros skipped cps; simpl.
  - now rewrite !app_nil_r.
  - destruct (p_init (cp_Process cp) && _); simpl; rewrite IH, <- app_assoc; reflexivity.
Qed.

(** What one iteration hands to [handleProcessExit] when no pair
    prevents the exit: every pair of the PID (those of deferred inits
    included), then once more every pair that is not deferred. *)
Lemma processExit_handled (w : wstate) (e : exit) :
  let cps := default [] (w.(running) !! e.(e_Pid)) in
  let deferred cp := cp.(cp_Process).(p_init)
     && negb (Nat.eqb (default 0%nat (w.(pendingExecs) !! cp.(cp_Container))) 0) in
  snd (preventExits w cps) = false ->
  fst (processExit w e) =
    fst (preventExits w cps) ++ [NotifySubscribers e] ++
    map (fun cp => HandleProcessExit e cp)
        (cps ++ List.filter (fun cp => negb (deferred cp)) cps).
Proof.
  cbv zeta. intros Hb. unfold processExit.
  destruct (preventExits w (default [] (running w !! e_Pid e))) as [eff b] eqn:Hp.
  simpl in Hb. subst b. simpl.
  rewrite split_exits_spec. reflexivity.
Qed.

End TaskFacts.

Module TaskFacts2.
Import GoStrings.
Import Task.
Import TaskFacts.

(** C3 (code defect): with an init of container "c1" exiting on PID 10
    while "c1" has a pending exec, and an exec of "c2" exiting on PID 11,
    the exit loop hands the deferred init to [handleProcessExit] in the
    same pass (while also keeping it in [running] for the exec's
    handle-started closure), and hands the exec's pair to it twice. *)
Theorem processExit_pending_init_not_deferred :
  let cpI := {| cp_Container := "c1";
                cp_Process := {| p_id := "c1"; p_pid := 10; p_init := true |} |} in
  let cpE := {| cp_Container := "c2";
                cp_Process := {| p_id := "exec-1"; p_pid := 11; p_init := false |} |} in
  let w := {| zeropodContainers := ∅;
              running := <[10%Z := [cpI]]> (<[11%Z := [cpE]]> ∅);
              pendingExecs := <["c1" := 1%nat]> ∅;
              exitSubscribers := [] |} in
  let e10 := {| e_Pid := 10; e_Status := 0 |} in
  let e11 := {| e_Pid := 11; e_Status := 0 |} in
  fst (processExit w e10) = [NotifySubscribers e10; HandleProcessExit e10 cpI] /\
  (snd (processExit w e10)).(running) !! 10%Z = Some [cpI] /\
  fst (processExit w e11) =
    [NotifySubscribers e11; HandleProcessExit e11 cpE; HandleProcessExit e11 cpE].
Proof. vm_compute. repeat split; reflexivity. Qed.

(** C5: when starting the restored process fails, [Restore] reads
    [<bundle>/work/restore.log], logs its contents and returns an error,
    and [Exec] on the scaled-down container then exits the shim with
    status 1 instead of delegating the exec. *)
Theorem Exec_restore_start_failure_exits (w : wstate) (r : ExecProcessRequest)
    (zc : ZContainer) (renv : RestoreEnv) (delegate : result unit) (p : proc) (e : string) :
  w.(zeropodContainers) !! r.(er_ID) = Some zc -> zc.(zc_ScaledDown) = true ->
  renv.(re_newContainer) = Ok tt -> renv.(re_process) = Ok p -> renv.(re_start) = Err e ->
  (let '(reff, rres, _) := Restore zc renv in
   is_err rres = true /\
   In (ReadFile (GoPath.Join [zc.(zc_Bundle); "work"; "restore.log"])) reff /\
   In (LogError (String.append "restore.log: "
        (match renv.(re_restoreLog) with Ok b => b | Err _ => "" end))) reff) /\
  (let '(eff, out, _) := Exec w r renv delegate in
   out = ShimExit 1 /\ ~ In (DelegateExec r) eff).
Proof.
  intros Hz Hs Hn Hp Hst.
  assert (HR : let '(reff, rres, _) := Restore zc renv in
     is_err rres = true /\
     In (ReadFile (GoPath.Join [zc.(zc_Bundle); "work"; "restore.log"])) reff /\
     In (LogError (String.append "restore.log: "
          (match renv.(re_restoreLog) with Ok b => b | Err _ => "" end))) reff).
  { unfold Restore. rewrite Hn, Hp, Hst. simpl.
    destruct (re_restoreLog renv); simpl;
      (split; [reflexivity | split; rewrite !in_app_iff; simpl; tauto]). }
  split; [exact HR|].
  unfold Exec. rewrite Hz, Hs.
  destruct (Restore zc renv) as [[reff rres] zc'] eqn:HRe.
  destruct rres as [v|msg]; [destruct HR as [HR _]; discriminate|].
  split; [reflexivity|].
  intros H. simpl in H. destruct H as [H|H]; [discriminate|].
  rewrite in_app_iff in H. destruct H as [H|H]; [|simpl in H; intuition discriminate].
  (* the restore path never delegates an exec *)
  revert H. unfold Restore in HRe. rewrite Hn, Hp, Hst in HRe.
  destruct (re_restoreLog renv); injection HRe as <- _ _;
    destruct (zc_preRestore zc); simpl; intuition discriminate.
Qed.

End TaskFacts2.

Module StartFacts.
Import GoStrings.
Import Task.

(** C7 (amended): the wrapper's [Start] first delegates; a delegate
    error is returned as is.  When the delegate succeeds, the container
    lookup, the spec read and the annotation decode follow, and an error
    of any of them is returned (for exec and sandbox starts too).  When
    all of them succeed and the exec id is non-empty, the container type
    is "sandbox" or the container is not selected, the delegate's
    response is returned unchanged and nothing is registered.  In every
    other Start that succeeds, a managed container is created with its
    pre- and post-restore callbacks, a shutdown hook is registered and
    the first scale-down is scheduled. *)
Theorem Start_ignored_or_managed (ParseDuration : string -> result Z) (GOARCH : string)
    (keyOrder : ZConfig.annotations -> string -> list string) (w : wstate) (r : StartRequest) (env : StartEnv) :
  let res := Start ParseDuration GOARCH keyOrder w r env in
  (forall e, env.(se_delegate) = Err e -> res = ([DelegateStart r], Err e, w)) /\
  (forall resp e, env.(se_delegate) = Ok resp ->
     (env.(se_container) = Err e \/
      (exists c, env.(se_container) = Ok c /\ env.(se_spec) = Err e) \/
      (exists c spec, env.(se_container) = Ok c /\ env.(se_spec) = Ok spec /\
         ZConfig.NewConfig ParseDuration GOARCH keyOrder env.(se_namespace) spec = Err e)) ->
     res = ([DelegateStart r], Err e, w)) /\
  (forall resp c spec cfg,
     env.(se_delegate) = Ok resp -> env.(se_container) = Ok c -> env.(se_spec) = Ok spec ->
     ZConfig.NewConfig ParseDuration GOARCH keyOrder env.(se_namespace) spec = Ok cfg ->
     (r.(sr_ExecID) <> "" \/ cfg.(ZConfig.ContainerType) = "sandbox" \/
      ZConfig.IsZeropodContainer cfg = false) ->
     res = ([DelegateStart r], Ok resp, w)) /\
  (forall resp c spec cfg resp',
     env.(se_delegate) = Ok resp -> env.(se_container) = Ok c -> env.(se_spec) = Ok spec ->
     ZConfig.NewConfig ParseDuration GOARCH keyOrder env.(se_namespace) spec = Ok cfg ->
     r.(sr_ExecID) = "" -> cfg.(ZConfig.ContainerType) <> "sandbox" ->
     ZConfig.IsZeropodContainer cfg = true ->
     snd (fst res) = Ok resp' ->
     resp' = resp /\
     fst (fst res) = [DelegateStart r; ZeropodNew r.(sr_ID); RegisterPreRestore r.(sr_ID);
                      RegisterPostRestore r.(sr_ID); RegisterShutdown r.(sr_ID);
                      ScheduleScaleDown r.(sr_ID)] /\
     exists zc, (snd res).(zeropodContainers) !! r.(sr_ID) = Some zc /\
                zc.(zc_preRestore) = true /\ zc.(zc_postRestore) = true).
Proof.
  cbv zeta. unfold Start. split; [|split; [|split]].
  - intros e He. now rewrite He.
  - intros resp e Hd Hor. rewrite Hd.
    destruct Hor as [Hc | [(c & Hc & Hs) | (c & spec & Hc & Hs & Hn)]].
    + now rewrite Hc.
    + now rewrite Hc, Hs.
    + now rewrite Hc, Hs, Hn.
  - intros resp c spec cfg Hd Hc Hs Hn Hor. rewrite Hd, Hc, Hs, Hn.
    destruct Hor as [Hx | [Ht | Hz]].
    + apply String.eqb_neq in Hx. rewrite Hx. now rewrite orb_true_r.
    + rewrite Ht. reflexivity.
    + rewrite Hz. now rewrite !orb_true_r.
  - intros resp c spec cfg resp' Hd Hc Hs Hn Hx Ht Hz.
    rewrite Hd, Hc, Hs, Hn, Hx, Hz.
    apply String.eqb_neq in Ht. unfold containerTypeSandbox. rewrite Ht. simpl.
    destruct (se_new env) as [zc|e]; [|discriminate].
    destruct (se_schedule env) as [u|e]; [|discriminate].
    simpl. intros Hr. injection Hr as <-.
    split; [reflexivity|]. split; [reflexivity|].
    eexists. split; [apply lookup_insert_eq|]. split; reflexivity.
Qed.

(** C7, as stated, fails: an exec Start whose delegate succeeds returns
    an error, not the delegate's response, when the container's ports
    map annotation is malformed. *)
Lemma Start_exec_config_error :
  ~ (forall (ParseDuration : string -> result Z) (GOARCH : string)
            (keyOrder : ZConfig.annotations -> string -> list string) (w : wstate) (r : StartRequest) (env : StartEnv),
       r.(sr_ExecID) <> "" ->
       snd (fst (Start ParseDuration GOARCH keyOrder w r env)) = env.(se_delegate)).
Proof.
  intros H.
  specialize (H (fun _ => Ok 0%Z) "amd64" (fun _ _ => [])
    {| zeropodContainers := ∅; running := ∅; pendingExecs := ∅; exitSubscribers := [] |}
    {| sr_ID := "app"; sr_ExecID := "exec-1" |}
    {| se_delegate := Ok {| resp_Pid := 42 |};
       se_container := Ok {| c_ID := "app"; c_Bundle := "/run/app" |};
       se_spec := Ok (<[ZConfig.PortsAnnotationKey := "web"]>
                       (<[ZConfig.CRIContainerNameAnnotation := "web"]> ∅));
       se_namespace := None;
       se_new := Err "unused"; se_schedule := Ok tt |}).
  assert (Hx : "exec-1" <> "") by discriminate.
  specialize (H Hx). vm_compute in H. discriminate H.
Qed.

End StartFacts.

(* ===================================================================== *)
(* Witnesses: the theorems applied at concrete inputs                    *)
(* ===================================================================== *)

Module Witnesses.
Import GoStrings.
Import Task.

Lemma Kill_scaled_down_synthesizes_exit_witness :
  let ip := {| p_id := "app"; p_pid := 10; p_init := true |} in
  let zc := {| zc_ID := "app"; zc_Bundle := "/run/app"; zc_ScaledDown := true;
               zc_Process := {| p_id := "app"; p_pid := 42; p_init := true |};
               zc_InitialProcess := Some ip;
               zc_DisableCheckpointing := false;
               zc_preRestore := true; zc_postRestore := true |} in
  let w := {| zeropodContainers := <["app" := zc]> ∅;
              running := ∅; pendingExecs := ∅; exitSubscribers := [] |} in
  let r := {| kr_ID := "app"; kr_ExecID := ""; kr_Signal := 15; kr_All := false |} in
  Kill w r (Ok tt) (Ok tt) =
    ([LockCheckpointRestore; SetExited zc.(zc_Process) 0; SetExited ip 0;
      StopActivator r.(kr_ID); DelegateKill r; UnlockCheckpointRestore], Ok tt).
Proof.
  intros ip zc w r.
  refine (TaskFacts.Kill_scaled_down_synthesizes_exit w r zc ip (Ok tt) (Ok tt) _ _ _ _);
    reflexivity.
Defined.

Lemma processExit_scaled_down_suppressed_witness :
  let cp := {| cp_Container := "app";
               cp_Process := {| p_id := "app"; p_pid := 42; p_init := true |} |} in
  let zc := {| zc_ID := "app"; zc_Bundle := "/run/app"; zc_ScaledDown := true;
               zc_Process := {| p_id := "app"; p_pid := 42; p_init := true |};
               zc_InitialProcess := Some {| p_id := "app"; p_pid := 10; p_init := true |};
               zc_DisableCheckpointing := false;
               zc_preRestore := true; zc_postRestore := true |} in
  let w := {| zeropodContainers := <["app" := zc]> ∅;
              running := <[42%Z := [cp]]> ∅; pendingExecs := ∅; exitSubscribers := [] |} in
  let e := {| e_Pid := 42; e_Status := 137 |} in
  snd (processExit w e) = w /\
  (forall cp', ~ In (HandleProcessExit e cp') (fst (processExit w e))).
Proof.
  intros cp zc w e.
  apply (TaskFacts.processExit_scaled_down_suppressed w e cp zc).
  - vm_compute. left. reflexivity.
  - reflexivity.
  - reflexivity.
Defined.

Lemma Exec_restore_start_failure_exits_witness :
  let zc := {| zc_ID := "app"; zc_Bundle := "/run/app"; zc_ScaledDown := true;
               zc_Process := {| p_id := "app"; p_pid := 42; p_init := true |};
               zc_InitialProcess := Some {| p_id := "app"; p_pid := 10; p_init := true |};
               zc_DisableCheckpointing := false;
               zc_preRestore := true; zc_postRestore := true |} in
  let w := {| zeropodContainers := <["app" := zc]> ∅;
              running := ∅; pendingExecs := ∅; exitSubscribers := [] |} in
  let r := {| er_ID := "app"; er_ExecID := "exec-1" |} in
  let renv := {| re_newContainer := Ok tt;
                 re_process := Ok {| p_id := "app"; p_pid := 0; p_init := true |};
                 re_start := Err "criu failed";
                 re_restoreLog := Ok "Error (criu/cr-restore.c): restore failed";
                 re_disableRedirects := Ok tt |} in
  (let '(reff, rres, _) := Restore zc renv in
   is_err rres = true /\
   In (ReadFile (GoPath.Join [zc.(zc_Bundle); "work"; "restore.log"])) reff /\
   In (LogError (String.append "restore.log: "
        (match renv.(re_restoreLog) with Ok b => b | Err _ => "" end))) reff) /\
  (let '(eff, out, _) := Exec w r renv (Ok tt) in
   out = ShimExit 1 /\ ~ In (DelegateExec r) eff).
Proof.
  intros zc w r renv.
  apply (TaskFacts2.Exec_restore_start_failure_exits w r zc renv (Ok tt)
           {| p_id := "app"; p_pid := 0; p_init := true |} "criu failed");
    reflexivity.
Defined.

Lemma Start_ignored_or_managed_witness :
  Start (fun _ => Ok 0%Z) "amd64" (fun _ _ => [])
    {| zeropodContainers := ∅; running := ∅; pendingExecs := ∅; exitSubscribers := [] |}
    {| sr_ID := "app"; sr_ExecID := "exec-1" |}
    {| se_delegate := Ok {| resp_Pid := 42 |};
       se_container := Ok {| c_ID := "app"; c_Bundle := "/run/app" |};
       se_spec := Ok (<[ZConfig.CRIContainerNameAnnotation := "web"]> ∅);
       se_namespace := None; se_new := Err "unused"; se_schedule := Ok tt |}
  = ([DelegateStart {| sr_ID := "app"; sr_ExecID := "exec-1" |}],
     Ok {| resp_Pid := 42 |},
     {| zeropodContainers := ∅; running := ∅; pendingExecs := ∅; exitSubscribers := [] |}).
Proof.
  eapply (proj1 (proj2 (proj2 (StartFacts.Start_ignored_or_managed
            (fun _ => Ok 0%Z) "amd64" (fun _ _ => [])
            {| zeropodContainers := ∅; running := ∅; pendingExecs := ∅; exitSubscribers := [] |}
            {| sr_ID := "app"; sr_ExecID := "exec-1" |}
            {| se_delegate := Ok {| resp_Pid := 42 |};
               se_container := Ok {| c_ID := "app"; c_Bundle := "/run/app" |};
               se_spec := Ok (<[ZConfig.CRIContainerNameAnnotation := "web"]> ∅);
               se_namespace := None; se_new := Err "unused"; se_schedule := Ok tt |})))).
  - reflexivity.
  - reflexivity.
  - reflexivity.
  - vm_compute. reflexivity.
  - left. discriminate.
Defined.

Lemma NewConfig_port_map_errors_witness :
  let m := <[ZConfig.PortsAnnotationKey := "web=80;web=99999"]>
             (<[ZConfig.CRIContainerNameAnnotation := "web"]> ∅) in
  let w := {| zeropodContainers := ∅; running := ∅; pendingExecs := ∅; exitSubscribers := [] |} in
  let r := {| sr_ID := "app"; sr_ExecID := "" |} in
  let env := {| se_delegate := Ok {| resp_Pid := 42 |};
                se_container := Ok {| c_ID := "app"; c_Bundle := "/run/app" |};
                se_spec := Ok m; se_namespace := None;
                se_new := Err "unused"; se_schedule := Ok tt |} in
  exists e, ZConfig.NewConfig (fun _ => Ok 0%Z) "amd64" (fun _ _ => []) None m = Err e /\
    Start (fun _ => Ok 0%Z) "amd64" (fun _ _ => []) w r env = ([DelegateStart r], Err e, w).
Proof.
  intros m w r env.
  apply (proj2 (proj2 (PortsFacts.NewConfig_port_map_errors (fun _ => Ok 0%Z) "amd64"
                         (fun _ _ => []) None m)) w r env {| resp_Pid := 42 |}
           {| c_ID := "app"; c_Bundle := "/run/app" |});
    [reflexivity|reflexivity|reflexivity|vm_compute; reflexivity].
Defined.

Lemma restore_stdio_stderr_from_stdout_witness :
  let s := {| Legacy.Stdin := ""; Legacy.Stdout := "file:///var/log/app-1";
              Legacy.Stderr := "file:///var/log/app-err-1"; Legacy.Terminal := false |} in
  (snd (Legacy.restore_stdio s)).(Legacy.Stderr) = (snd (Legacy.restore_stdio s)).(Legacy.Stdout).
Proof.
  intros s.
  apply (proj2 (proj2 (proj2 (StdioFacts.restore_stdio_stderr_from_stdout s)))).
  vm_compute. reflexivity.
Defined.

Lemma scaleDown_checkpoint_options_witness :
  let p := {| p_id := "app"; p_pid := 42; p_init := true |} in
  let c := {| c_ID := "app"; c_Bundle := "/run/containerd/k8s.io/app" |} in
  let opts := {| Legacy.ck_Path := "/run/containerd/k8s.io/app/snapshots/container";
                 Legacy.ck_WorkDir := "/run/containerd/k8s.io/app/snapshots/work";
                 Legacy.ck_Exit := true; Legacy.ck_AllowOpenTCP := true;
                 Legacy.ck_AllowExternalUnixSockets := true;
                 Legacy.ck_AllowTerminal := false; Legacy.ck_FileLocks := false;
                 Legacy.ck_EmptyNamespaces := [] |} in
  let env := {| Legacy.sd_removeAll := Ok tt; Legacy.sd_checkpoint := Ok tt;
                Legacy.sd_dumpLog := Ok ""; Legacy.sd_startZeropod :=
                  {| Legacy.sz_getSpec := Ok tt; Legacy.sz_getNetworkNS := Ok "/var/run/netns/cni-1";
                     Legacy.sz_newConfig := Ok tt; Legacy.sz_newServer := Ok tt;
                     Legacy.sz_srvStart := Ok tt |};
                Legacy.sd_getNS := Ok tt; Legacy.sd_iptables :=
                  {| IPTables.ip_pipe := Ok tt; IPTables.ip_write := Ok tt; IPTables.ip_do := Ok tt |} |} in
  let s := {| Legacy.originalProcess := Some p; Legacy.scaledDown := false;
              Legacy.netNSPath := "/proc/42/ns/net" |} in
  p = p /\
  opts = {| Legacy.ck_Path := Legacy.containerDir c.(c_Bundle);
            Legacy.ck_WorkDir := GoPath.Join [Legacy.snapshotDir c.(c_Bundle); "work"];
            Legacy.ck_Exit := true; Legacy.ck_AllowOpenTCP := true;
            Legacy.ck_AllowExternalUnixSockets := true; Legacy.ck_AllowTerminal := false;
            Legacy.ck_FileLocks := false; Legacy.ck_EmptyNamespaces := [] |} /\
  (GoPath.clean_abs_path c.(c_Bundle) = true ->
   opts.(Legacy.ck_Path) = String.append c.(c_Bundle) "/snapshots/container" /\
   opts.(Legacy.ck_WorkDir) = String.append c.(c_Bundle) "/snapshots/work").
Proof.
  intros p c opts env s.
  apply (LegacyFacts.scaleDown_checkpoint_options s c p env p opts).
  vm_compute. right. left. reflexivity.
Defined.

Lemma Start_checkpoint_failure_recovered_witness :
  let p := {| p_id := "app"; p_pid := 42; p_init := true |} in
  let c := {| c_ID := "app"; c_Bundle := "/run/app" |} in
  let r := {| sr_ID := "app"; sr_ExecID := "" |} in
  let env := {| Legacy.ls_delegate := Ok {| resp_Pid := 42 |};
                Legacy.ls_container := Ok c; Legacy.ls_process := Ok p;
                Legacy.ls_sandbox := Ok false;
                Legacy.ls_scaleDown :=
                  {| Legacy.sd_removeAll := Ok tt;
                     Legacy.sd_checkpoint := Err "criu failed";
                     Legacy.sd_dumpLog := Ok "Error (criu/sk-inet.c): unsupported";
                     Legacy.sd_startZeropod :=
                  {| Legacy.sz_getSpec := Ok tt; Legacy.sz_getNetworkNS := Ok "/var/run/netns/cni-1";
                     Legacy.sz_newConfig := Ok tt; Legacy.sz_newServer := Ok tt;
                     Legacy.sz_srvStart := Ok tt |};
                     Legacy.sd_getNS := Ok tt; Legacy.sd_iptables :=
                  {| IPTables.ip_pipe := Ok tt; IPTables.ip_write := Ok tt; IPTables.ip_do := Ok tt |} |} |} in
  let s := {| Legacy.originalProcess := None; Legacy.scaledDown := false;
              Legacy.netNSPath := "" |} in
  let '(eff, s', ret) := Legacy.Start s r env in
  (exists resp', ret = Legacy.LReturned (Ok resp')) /\
  s'.(Legacy.scaledDown) = false /\
  In (Legacy.LReadFile (GoPath.Join [GoPath.Join [Legacy.snapshotDir c.(c_Bundle); "work"];
                                     "dump.log"])) eff /\
  In (Legacy.LLogError (String.append "dump.log: "
        (match env.(Legacy.ls_scaleDown).(Legacy.sd_dumpLog) with
         | Ok b => b | Err _ => "" end))) eff /\
  (forall id, ~ In (Legacy.LStartZeropod id) eff).
Proof.
  intros p c r env s.
  apply (LegacyFacts.Start_checkpoint_failure_recovered s r env {| resp_Pid := 42 |} c p
           "criu failed"); reflexivity.
Defined.

End Witnesses.

(* ===================================================================== *)
(* Further properties of the decoder, the wrapper and the first release *)
(* ===================================================================== *)

Module ConfigMore.
Import GoStrings.
Import ZConfig.
Import StringFacts.

Lemma parse_ports_in (ports : list string) (acc r : list N) (p : N) :
  parse_ports ports acc = Ok r ->
  (In p r <-> In p acc \/ exists port, In port ports /\ ParseUint16 port = Ok p).
Proof.
  revert acc. induction ports as [|port ports IH]; intros acc H; simpl in H.
  - injection H as <-. simpl. split; [tauto|]. intros [H|[? [[] _]]]; exact H.
  - destruct (ParseUint16 port) as [q|e] eqn:Hq; [|discriminate].
    rewrite (IH _ H), in_app_iff. simpl. split.
    + intros [[H1|[<-|[]]]|(x & Hx & Hp)]; [tauto| |].
      * right. exists port. tauto.
      * right. exists x. tauto.
    + intros [H1|(x & [<-|Hx] & Hp)]; [tauto| |].
      * rewrite Hq in Hp. injection Hp as <-. tauto.
      * right. exists x. tauto.
Qed.

Lemma parse_mappings_in (name : string) (ms : list string) (acc r : list N) (p : N) :
  parse_mappings name ms acc = Ok r ->
  (In p r <-> In p acc \/ exists mapping ports port,
     In mapping ms /\ Split mapDelim mapping = [name; ports] /\
     In port (Split portsDelim ports) /\ ParseUint16 port = Ok p).
Proof.
  revert acc. induction ms as [|m ms IH]; intros acc H; simpl in H.
  - injection H as <-. split; [tauto|]. intros [H|(? & ? & ? & [] & _)]; exact H.
  - destruct (Split mapDelim m) as [|n [|ps [|? ?]]] eqn:Hs; try discriminate.
    destruct (String.eqb n name) eqn:Hn; simpl in H.
    + apply String.eqb_eq in Hn. subst n.
      destruct (parse_ports (Split portsDelim ps) acc) as [acc'|e] eqn:Hp; [|discriminate].
      rewrite (IH _ H), (parse_ports_in _ _ _ p Hp). split.
      * intros [[H1|(port & Hin & Hq)]|(m' & ps' & port & Hm & Hs' & Hin & Hq)].
        -- tauto.
        -- right. exists m, ps, port. simpl. tauto.
        -- right. exists m', ps', port. simpl. tauto.
      * intros [H1|(m' & ps' & port & [<-|Hm] & Hs' & Hin & Hq)].
        -- tauto.
        -- rewrite Hs in Hs'. injection Hs' as <-. left. right. exists port. tauto.
        -- right. exists m', ps', port. tauto.
    + rewrite (IH _ H). split.
      * intros [H1|(m' & ps' & port & Hm & Hs' & Hin & Hq)]; [tauto|].
        right. exists m', ps', port. simpl. tauto.
      * intros [H1|(m' & ps' & port & [<-|Hm] & Hs' & Hin & Hq)]; [tauto| |].
        -- rewrite Hs in Hs'. injection Hs' as <- _. rewrite String.eqb_refl in Hn. discriminate.
        -- right. exists m', ps', port. tauto.
Qed.

Lemma ParseUint16_bound (s : string) (p : N) : ParseUint16 s = Ok p -> (p < 65536)%N.
Proof.
  unfold ParseUint16. destruct (String.eqb s ""); [discriminate|].
  destruct (decimal_value s 0); [|discriminate].
  destruct (n <? 65536)%N eqn:Hl; [|discriminate]. intros H. injection H as <-.
  now apply N.ltb_lt.
Qed.

Lemma decodeField_cases (keyOrder : annotations -> string -> list string)
    (m : annotations) (field : string) :
  m !! field = Some (decodeField keyOrder m field) \/
  (m !! field = None /\ exists k, EqualFold k field = true /\
                                  m !! k = Some (decodeField keyOrder m field)) \/
  (m !! field = None /\ decodeField keyOrder m field = "" /\
   forall k v, m !! k = Some v -> EqualFold k field = false).
Proof.
  unfold decodeField. destruct (m !! field) as [v|] eqn:Hf; [left; reflexivity|right].
  destruct (List.find _ _) as [k|] eqn:Hk.
  - left. split; [reflexivity|].
    apply List.find_some in Hk as [_ Hk]. apply andb_prop in Hk as [Hkey Heq].
    exists k. split; [exact Heq|].
    unfold isKey, annot in *. destruct (m !! k); [reflexivity|discriminate].
  - right. split; [reflexivity|split; [reflexivity|]]. intros k v Hkv.
    assert (Hin : In k (visitOrder keyOrder m field)).
    { unfold visitOrder. apply in_or_app. right. apply in_map_iff. exists (k, v).
      split; [reflexivity|]. apply list_elem_of_In, elem_of_map_to_list. exact Hkv. }
    pose proof (List.find_none _ _ Hk k Hin) as Hn.
    unfold isKey in Hn. rewrite Hkv in Hn. exact Hn.
Qed.

Lemma decodeField_annot (keyOrder : annotations -> string -> list string)
    (m : annotations) (field : string) :
  annot m field <> "" -> decodeField keyOrder m field = annot m field.
Proof.
  unfold decodeField, annot. destruct (m !! field); simpl; [reflexivity|contradiction].
Qed.

Lemma decodeField_unset (keyOrder : annotations -> string -> list string)
    (m : annotations) (field : string) :
  EqualFold field field = true ->
  (forall k v, m !! k = Some v -> EqualFold k field = true -> v = "") ->
  decodeField keyOrder m field = "".
Proof.
  intros Hrefl Hu.
  destruct (decodeField_cases keyOrder m field) as [H|[(_ & k & Hk & H)|(_ & H & _)]].
  - exact (Hu _ _ H Hrefl).
  - exact (Hu _ _ H Hk).
  - exact H.
Qed.

Lemma NewConfig_ports_of (PD : string -> result Z) (GOARCH : string) keyOrder ns m cfg :
  NewConfig PD GOARCH keyOrder ns m = Ok cfg ->
  containerPorts (decode keyOrder m) = Ok cfg.(Ports).
Proof.
  unfold NewConfig. destruct (containerPorts (decode keyOrder m)) as [ps|]; [|discriminate].
  destruct (if negb _ then _ else _) as [d|]; [|discriminate].
  destruct (if negb (String.eqb (a_DisableCheckpointing (decode keyOrder m)) "") then _ else _)
    as [dc|]; [|discriminate].
  destruct (if negb (String.eqb (a_PreDump (decode keyOrder m)) "") then _ else _) as [pd|];
    [|discriminate].
  intros H. injection H as <-. reflexivity.
Qed.


(** The ports of a decoded config are exactly the ports, parsed, of the
    mappings of the decoded ports map that name the decoded container
    name, and each is below 2^16. *)
Theorem NewConfig_ports_exact (PD : string -> result Z) (GOARCH : string)
    (keyOrder : annotations -> string -> list string)
    (ns : option string) (m : annotations) (cfg : Config) :
  NewConfig PD GOARCH keyOrder ns m = Ok cfg ->
  let a := decode keyOrder m in
  forall p, (In p cfg.(Ports) <->
     exists mapping ports port,
       In mapping (Split mappingDelim a.(a_PortMap)) /\
       Split mapDelim mapping = [a.(a_ContainerName); ports] /\
       In port (Split portsDelim ports) /\ ParseUint16 port = Ok p) /\
     (In p cfg.(Ports) -> (p < 65536)%N).
Proof.
  intros H a p. apply NewConfig_ports_of in H. unfold containerPorts in H.
  assert (Hiff : In p cfg.(Ports) <->
     exists mapping ports port,
       In mapping (Split mappingDelim a.(a_PortMap)) /\
       Split mapDelim mapping = [a.(a_ContainerName); ports] /\
       In port (Split portsDelim ports) /\ ParseUint16 port = Ok p).
  { unfold a. destruct (String.eqb (a_PortMap (decode keyOrder m)) "") eqn:He;
      cbn [negb] in H.
    - injection H as <-. apply String.eqb_eq in He. rewrite He. simpl.
      split; [tauto|]. intros (mp & ps & port & [<-|[]] & Hs & _). discriminate Hs.
    - rewrite (parse_mappings_in _ _ _ _ p H). simpl. tauto. }
  split; [exact Hiff|]. intros Hin. apply Hiff in Hin as (_ & _ & port & _ & _ & _ & Hq).
  exact (ParseUint16_bound _ _ Hq).
Qed.

(** A config decoded from annotations where no key equal, up to case, to
    the ports map, scale-down duration, disable-checkpointing, pre-dump
    or container-names tag holds a non-empty value always succeeds with
    the defaults: no ports, one minute, checkpointing on, no pre-dump,
    every container selected, and the containerd namespace of the context
    or "k8s.io". *)
Theorem NewConfig_defaults (PD : string -> result Z) (GOARCH : string)
    (keyOrder : annotations -> string -> list string)
    (ns : option string) (m : annotations) :
  (forall tag, In tag [PortsAnnotationKey; ScaleDownDurationAnnotationKey;
                       DisableCheckpoiningAnnotationKey; PreDumpAnnotationKey;
                       ContainerNamesAnnotationKey] ->
   forall k v, m !! k = Some v -> EqualFold k tag = true -> v = "") ->
  exists cfg, NewConfig PD GOARCH keyOrder ns m = Ok cfg /\
    cfg.(Ports) = [] /\ cfg.(ScaleDownDuration) = defaultScaleDownDuration /\
    cfg.(DisableCheckpointing) = false /\ cfg.(PreDump) = false /\
    cfg.(ZeropodContainerNames) = [] /\ IsZeropodContainer cfg = true /\
    cfg.(ContainerdNamespace) = match ns with Some n => n | None => "k8s.io" end.
Proof.
  intros Hu.
  assert (Hz : forall tag, In tag [PortsAnnotationKey; ScaleDownDurationAnnotationKey;
                                   DisableCheckpoiningAnnotationKey; PreDumpAnnotationKey;
                                   ContainerNamesAnnotationKey] ->
               decodeField keyOrder m tag = "").
  { intros tag Ht. apply decodeField_unset; [|exact (Hu tag Ht)].
    simpl in Ht. repeat destruct Ht as [<-|Ht]; try contradiction; vm_compute; reflexivity. }
  assert (Hp : a_PortMap (decode keyOrder m) = "") by (apply Hz; simpl; tauto).
  assert (Hd : a_ScaledownDuration (decode keyOrder m) = "") by (apply Hz; simpl; tauto).
  assert (Hc : a_DisableCheckpointing (decode keyOrder m) = "") by (apply Hz; simpl; tauto).
  assert (Hpd : a_PreDump (decode keyOrder m) = "") by (apply Hz; simpl; tauto).
  assert (Hn : a_ZeropodContainerNames (decode keyOrder m) = "") by (apply Hz; simpl; tauto).
  unfold NewConfig, containerPorts. cbv zeta.
  rewrite Hp, Hd, Hc, Hpd, Hn. simpl.
  eexists. split; [reflexivity|]. repeat split.
Qed.

Lemma disable_stage (v : string) (dc : bool) :
  (if negb (String.eqb v "") then ParseBool v else Ok false) = Ok dc ->
  (dc = true <-> In v ["1"; "t"; "T"; "TRUE"; "true"; "True"]).
Proof.
  destruct (String.eqb v "") eqn:He; simpl.
  - intros H. injection H as <-. apply String.eqb_eq in He. subst v.
    split; [discriminate|]. intros H. simpl in H. intuition discriminate.
  - unfold ParseBool.
    assert (Hin : existsb (String.eqb v) ["1"; "t"; "T"; "TRUE"; "true"; "True"] = true <->
                  In v ["1"; "t"; "T"; "TRUE"; "true"; "True"]).
    { rewrite existsb_exists. split.
      - intros (x & Hx & Hq). apply String.eqb_eq in Hq. now subst.
      - intros Hx. exists v. split; [exact Hx|apply String.eqb_refl]. }
    destruct (existsb (String.eqb v) ["1"; "t"; "T"; "TRUE"; "true"; "True"]) eqn:Ht.
    + intros H. injection H as <-. tauto.
    + destruct (existsb (String.eqb v) ["0"; "f"; "F"; "FALSE"; "false"; "False"]); [|discriminate]. intros H. injection H as <-.
      split; [discriminate|]. intros Hx. apply Hin in Hx. discriminate.
Qed.

Lemma predump_stage (v GOARCH : string) (pd : bool) :
  (if negb (String.eqb v "")
   then match ParseBool v with
        | Ok b => Ok (b && negb (String.eqb GOARCH "arm64"))
        | Err e => Err e
        end
   else Ok false) = Ok pd ->
  (pd = true <-> GOARCH <> "arm64" /\ ParseBool v = Ok true).
Proof.
  destruct (String.eqb v "") eqn:He; simpl.
  - intros H. injection H as <-. apply String.eqb_eq in He. subst v.
    split; [discriminate|]. intros [_ H]. discriminate H.
  - destruct (ParseBool v) as [b|] eqn:Hb; [|discriminate]. intros H. injection H as <-.
    destruct b; simpl.
    + destruct (String.eqb GOARCH "arm64") eqn:Ha; simpl.
      * apply String.eqb_eq in Ha. split; [discriminate|]. tauto.
      * apply String.eqb_neq in Ha. tauto.
    + split; [discriminate|]. intros [_ H]. discriminate H.
Qed.

(** The two switches of a decoded config: checkpointing is disabled
    exactly when the decoded disable-checkpointing value is one of the
    true spellings of [strconv.ParseBool], and pre-dump is on exactly
    when the decoded pre-dump value parses as true and the architecture
    is not arm64. *)
Theorem NewConfig_switches (PD : string -> result Z) (GOARCH : string)
    (keyOrder : annotations -> string -> list string)
    (ns : option string) (m : annotations) (cfg : Config) :
  NewConfig PD GOARCH keyOrder ns m = Ok cfg ->
  let a := decode keyOrder m in
  (cfg.(DisableCheckpointing) = true <->
     In a.(a_DisableCheckpointing) ["1"; "t"; "T"; "TRUE"; "true"; "True"]) /\
  (cfg.(PreDump) = true <->
     GOARCH <> "arm64" /\ ParseBool a.(a_PreDump) = Ok true).
Proof.
  intros H. cbv zeta. revert H. unfold NewConfig.
  destruct (containerPorts (decode keyOrder m)) as [ps|]; [|discriminate].
  destruct (if negb (String.eqb (a_ScaledownDuration (decode keyOrder m)) "") then _ else _)
    as [d|]; [|discriminate].
  destruct (if negb (String.eqb (a_DisableCheckpointing (decode keyOrder m)) "") then _ else _)
    as [dc|] eqn:Hdc; [|discriminate].
  destruct (if negb (String.eqb (a_PreDump (decode keyOrder m)) "") then _ else _)
    as [pd|] eqn:Hpd; [|discriminate].
  intros H. injection H as <-. cbn [DisableCheckpointing PreDump].
  split; [exact (disable_stage _ _ Hdc) | exact (predump_stage _ _ _ Hpd)].
Qed.

(** A scale-down duration, disable-checkpointing or pre-dump annotation
    that is set but does not parse makes [NewConfig] fail. *)
Theorem NewConfig_unparsable_fails (PD : string -> result Z) (GOARCH : string)
    (keyOrder : annotations -> string -> list string)
    (ns : option string) (m : annotations) :
  (annot m ScaleDownDurationAnnotationKey <> "" /\
     is_err (PD (annot m ScaleDownDurationAnnotationKey)) = true) \/
  (annot m DisableCheckpoiningAnnotationKey <> "" /\
     is_err (ParseBool (annot m DisableCheckpoiningAnnotationKey)) = true) \/
  (annot m PreDumpAnnotationKey <> "" /\
     is_err (ParseBool (annot m PreDumpAnnotationKey)) = true) ->
  is_err (NewConfig PD GOARCH keyOrder ns m) = true.
Proof.
  intros H. unfold NewConfig. cbv zeta.
  destruct (containerPorts (decode keyOrder m)) as [ps|]; [|reflexivity].
  destruct H as [[Hn He]|[[Hn He]|[Hn He]]].
  - assert (Hv : a_ScaledownDuration (decode keyOrder m) = annot m ScaleDownDurationAnnotationKey)
      by (apply decodeField_annot; exact Hn).
    rewrite Hv. apply String.eqb_neq in Hn. rewrite Hn. simpl.
    destruct (PD _); [discriminate|reflexivity].
  - destruct (if negb (String.eqb (a_ScaledownDuration (decode keyOrder m)) "") then _ else _);
      [|reflexivity].
    assert (Hv : a_DisableCheckpointing (decode keyOrder m) =
                 annot m DisableCheckpoiningAnnotationKey)
      by (apply decodeField_annot; exact Hn).
    rewrite Hv. apply String.eqb_neq in Hn. rewrite Hn. simpl.
    destruct (ParseBool _); [discriminate|reflexivity].
  - destruct (if negb (String.eqb (a_ScaledownDuration (decode keyOrder m)) "") then _ else _);
      [|reflexivity].
    destruct (if negb (String.eqb (a_DisableCheckpointing (decode keyOrder m)) "") then _ else _);
      [|reflexivity].
    assert (Hv : a_PreDump (decode keyOrder m) = annot m PreDumpAnnotationKey)
      by (apply decodeField_annot; exact Hn).
    rewrite Hv. apply String.eqb_neq in Hn. rewrite Hn. simpl.
    destruct (ParseBool _); [discriminate|reflexivity].
Qed.

(** Which containers a decoded config selects: every one when the decoded
    container-names value is empty, else exactly those whose decoded name
    is one of its ','-separated entries. *)
Theorem NewConfig_selection (PD : string -> result Z) (GOARCH : string)
    (keyOrder : annotations -> string -> list string)
    (ns : option string) (m : annotations) (cfg : Config) :
  NewConfig PD GOARCH keyOrder ns m = Ok cfg ->
  let a := decode keyOrder m in
  (IsZeropodContainer cfg = true <->
     a.(a_ZeropodContainerNames) = "" \/
     In a.(a_ContainerName) (Split containersDelim a.(a_ZeropodContainerNames))).
Proof.
  intros H. cbv zeta. revert H. unfold NewConfig.
  destruct (containerPorts (decode keyOrder m)) as [ps|]; [|discriminate].
  destruct (if negb (String.eqb (a_ScaledownDuration (decode keyOrder m)) "") then _ else _)
    as [d|]; [|discriminate].
  destruct (if negb (String.eqb (a_DisableCheckpointing (decode keyOrder m)) "") then _ else _)
    as [dc|]; [|discriminate].
  destruct (if negb (String.eqb (a_PreDump (decode keyOrder m)) "") then _ else _)
    as [pd|]; [|discriminate].
  intros H. injection H as <-. unfold IsZeropodContainer. simpl.
  destruct (String.eqb (decodeField keyOrder m ContainerNamesAnnotationKey) "") eqn:He; simpl.
  - apply String.eqb_eq in He. rewrite He.
    split; [intros _; left; reflexivity|reflexivity].
  - apply String.eqb_neq in He.
    assert (Hl : Nat.eqb (length (Split containersDelim
                   (decodeField keyOrder m ContainerNamesAnnotationKey))) 0 = false).
    { destruct (Split _ _) eqn:Hs; [exfalso; exact (Split_not_nil _ _ Hs)|reflexivity]. }
    rewrite Hl, orb_false_r, existsb_exists. split.
    + intros (x & Hx & Hq). apply String.eqb_eq in Hq. subst x. tauto.
    + intros [H|H]; [contradiction|]. eexists; split; [exact H|apply String.eqb_refl].
Qed.

(** The pod a decoded config reports: the decoded vcluster pod name and
    namespace when non-empty, else the decoded CRI sandbox name and
    namespace; the host values are always the decoded CRI ones. *)
Theorem NewConfig_pod_identity (PD : string -> result Z) (GOARCH : string)
    (keyOrder : annotations -> string -> list string)
    (ns : option string) (m : annotations) (cfg : Config) :
  NewConfig PD GOARCH keyOrder ns m = Ok cfg ->
  let a := decode keyOrder m in
  PodName cfg = (if String.eqb a.(a_VClusterPodName) "" then a.(a_PodName)
                 else a.(a_VClusterPodName)) /\
  PodNamespace cfg = (if String.eqb a.(a_VClusterPodNamespace) "" then a.(a_PodNamespace)
                      else a.(a_VClusterPodNamespace)) /\
  HostPodName cfg = a.(a_PodName) /\
  HostPodNamespace cfg = a.(a_PodNamespace) /\
  HostPodUID cfg = a.(a_PodUID).
Proof.
  intros H. cbv zeta. revert H. unfold NewConfig.
  destruct (containerPorts (decode keyOrder m)) as [ps|]; [|discriminate].
  destruct (if negb (String.eqb (a_ScaledownDuration (decode keyOrder m)) "") then _ else _)
    as [d|]; [|discriminate].
  destruct (if negb (String.eqb (a_DisableCheckpointing (decode keyOrder m)) "") then _ else _)
    as [dc|]; [|discriminate].
  destruct (if negb (String.eqb (a_PreDump (decode keyOrder m)) "") then _ else _)
    as [pd|]; [|discriminate].
  intros H. injection H as <-. unfold PodName, PodNamespace, HostPodName,
    HostPodNamespace, HostPodUID. simpl.
  split; [destruct (String.eqb (decodeField keyOrder m VClusterNameAnnotationKey) "");
          reflexivity|].
  split; [destruct (String.eqb (decodeField keyOrder m VClusterNamespaceAnnotationKey) "");
          reflexivity|].
  repeat split.
Qed.

End ConfigMore.

Module TaskMore.
Import GoStrings.
Import Task.

Ltac in_list := simpl; repeat (first [left; reflexivity | right]).
Ltac not_in_list := let H := fresh in
  intros H; simpl in H; repeat destruct H as [H|H]; try discriminate; try contradiction.
Ltac bracket := match goal with
  |- exists mid, ?l = _ :: mid ++ [_] /\ _ =>
      exists (removelast (tl l)); split; [reflexivity|split; not_in_list]
  end.
Ltac delegated := match goal with
  |- exists pre, ?l = pre ++ [_; _] /\ _ =>
      exists (removelast (removelast l));
      split; [reflexivity|split; [intros ?; not_in_list|split; [not_in_list|reflexivity]]]
  end.

(** [Kill] holds the checkpoint/restore lock over the whole call: it
    takes it first and releases it last, once, on every path.  It
    delegates the Kill exactly once, as its last step before the unlock,
    and answers what the delegate answers, with no nil dereference on
    the way, unless either it had to kill the running init of a managed
    container itself and that failed (then it returns that error and
    never delegates), or it marks exited the initial process of a
    managed container that has none, a nil dereference. *)
Theorem Kill_locked_and_delegated (w : wstate) (r : KillRequest)
    (procKill delegate : result unit) :
  let '(eff, res) := Kill w r procKill delegate in
  (exists mid, eff = LockCheckpointRestore :: mid ++ [UnlockCheckpointRestore] /\
     ~ In LockCheckpointRestore mid /\ ~ In UnlockCheckpointRestore mid) /\
  ((exists pre, eff = pre ++ [DelegateKill r; UnlockCheckpointRestore] /\
      (forall r', ~ In (DelegateKill r') pre) /\ ~ In NilDereference pre /\ res = delegate) \/
   (exists e zc, procKill = Err e /\ res = Err e /\
      w.(zeropodContainers) !! r.(kr_ID) = Some zc /\ r.(kr_ExecID) = "" /\
      zc.(zc_ScaledDown) = false /\ (forall r', ~ In (DelegateKill r') eff)) \/
   (exists zc, w.(zeropodContainers) !! r.(kr_ID) = Some zc /\ r.(kr_ExecID) = "" /\
      zc.(zc_InitialProcess) = None /\ In NilDereference eff)).
Proof.
  unfold Kill.
  destruct (zeropodContainers w !! kr_ID r) as [zc|] eqn:Hz.
  - destruct (String.eqb (kr_ExecID r) "") eqn:He; simpl.
    + apply String.eqb_eq in He.
      destruct (zc_ScaledDown zc) eqn:Hs; simpl.
      * unfold set_initial_exited. destruct (zc_InitialProcess zc) as [ip|] eqn:Hip; simpl;
          (split; [bracket|]).
        -- left. exists (removelast (removelast
             ([LockCheckpointRestore; SetExited (zc_Process zc) 0; SetExited ip 0;
               StopActivator (kr_ID r); DelegateKill r; UnlockCheckpointRestore]))).
           split; [reflexivity|split; [intros ?; not_in_list|split; [not_in_list|reflexivity]]].
        -- right; right. exists zc. repeat split; auto; in_list.
      * destruct procKill as [u|e]; simpl.
        -- unfold set_initial_exited. destruct (zc_InitialProcess zc) as [ip|] eqn:Hip; simpl;
             (split; [bracket|]).
           ++ left. exists (removelast (removelast
                ([LockCheckpointRestore; StopActivator (kr_ID r);
                  ProcessKill (zc_Process zc) (kr_Signal r) (kr_All r); SetExited ip 0;
                  DelegateKill r; UnlockCheckpointRestore]))).
              split; [reflexivity|split; [intros ?; not_in_list|split; [not_in_list|reflexivity]]].
           ++ right; right. exists zc. repeat split; auto; in_list.
        -- split; [bracket|].
           right; left. exists e, zc.
           repeat split; auto. intros r'. not_in_list.
    + split; [bracket|]. left; delegated.
  - split; [bracket|]. left; delegated.
Qed.


(** What one iteration of the exit loop leaves alone: the managed
    containers, the pending execs and the running entries of every other
    PID. *)
Theorem processExit_frame (w : wstate) (e : exit) :
  let w' := snd (processExit w e) in
  w'.(zeropodContainers) = w.(zeropodContainers) /\
  w'.(pendingExecs) = w.(pendingExecs) /\
  (forall q, q <> e.(e_Pid) -> w'.(running) !! q = w.(running) !! q).
Proof.
  cbv zeta. unfold processExit.
  destruct (preventExits w _) as [eff b]. destruct b; simpl; [auto|].
  destruct (split_exits _ _ _ _) as [skipped cps']. simpl.
  split; [reflexivity|split; [reflexivity|]]. intros q Hq.
  destruct skipped; simpl.
  - apply lookup_delete_ne. congruence.
  - apply lookup_insert_ne. congruence.
Qed.

Lemma preventExits_not_scaled (w : wstate) (cps : list containerProcess) :
  (forall cp zc, In cp cps -> w.(zeropodContainers) !! cp.(cp_Container) = Some zc ->
                 zc.(zc_ScaledDown) = false) ->
  snd (preventExits w cps) = false.
Proof.
  induction cps as [|cp cps IH]; intros H; simpl; [reflexivity|].
  destruct (preventExit w cp) as [e1 b1] eqn:H1.
  destruct (preventExits w cps) as [e2 b2] eqn:H2. simpl in *.
  assert (Hb1 : b1 = false).
  { unfold preventExit in H1.
    destruct (zeropodContainers w !! cp_Container cp) as [zc|] eqn:Hz.
    - rewrite (H cp zc (or_introl eq_refl) Hz) in H1.
      destruct (_ || _); injection H1 as _ <-; reflexivity.
    - injection H1 as _ <-. reflexivity. }
  subst b1. simpl. apply IH. intros cp' zc Hin Hz. exact (H cp' zc (or_intror Hin) Hz).
Qed.

Lemma filter_none {A : Type} (f : A -> bool) (l : list A) :
  (forall x, In x l -> f x = false) -> List.filter f l = [].
Proof.
  induction l as [|x l IH]; intros H; simpl; [reflexivity|].
  rewrite (H x (or_introl eq_refl)). apply IH. intros y Hy. exact (H y (or_intror Hy)).
Qed.

Lemma preventExits_no_nil (w : wstate) (cps : list containerProcess) :
  (forall cp zc, In cp cps -> w.(zeropodContainers) !! cp.(cp_Container) = Some zc ->
                 zc.(zc_InitialProcess) <> None) ->
  ~ In NilDereference (fst (preventExits w cps)).
Proof.
  induction cps as [|cp cps IH]; intros H; simpl; [tauto|].
  destruct (preventExit w cp) as [e1 b1] eqn:H1.
  destruct (preventExits w cps) as [e2 b2] eqn:H2. simpl in *.
  rewrite in_app_iff. intros [Hin|Hin].
  - unfold preventExit in H1.
    destruct (zeropodContainers w !! cp_Container cp) as [zc|] eqn:Hz;
      [|injection H1 as <- _; exact Hin].
    pose proof (H cp zc (or_introl eq_refl) Hz) as Hip.
    destruct (zc_ScaledDown zc); [injection H1 as <- _; exact Hin|].
    destruct (_ || _); injection H1 as <- _; [|exact Hin].
    unfold set_initial_exited in Hin. destruct (zc_InitialProcess zc); [|contradiction].
    destruct Hin as [Hin|[]]. discriminate Hin.
  - apply IH; [|exact Hin]. intros cp' zc Hin' Hz. exact (H cp' zc (or_intror Hin') Hz).
Qed.

(** An exit event none of whose pairs belongs to a scaled-down managed
    container, nor to a managed container without initial process, is
    broadcast with no nil dereference: every exit subscriber gets it
    appended under its PID (other PIDs untouched), and when no pair of
    the PID is the init of a container with pending execs, the PID
    leaves the running map. *)
Theorem processExit_broadcast (w : wstate) (e : exit) :
  let cps := default [] (w.(running) !! e.(e_Pid)) in
  (forall cp zc, In cp cps -> w.(zeropodContainers) !! cp.(cp_Container) = Some zc ->
                 zc.(zc_ScaledDown) = false /\ zc.(zc_InitialProcess) <> None) ->
  let '(eff, w') := processExit w e in
  ~ In NilDereference eff /\
  In (NotifySubscribers e) eff /\
  length w'.(exitSubscribers) = length w.(exitSubscribers) /\
  (forall i sub, nth_error w.(exitSubscribers) i = Some sub ->
     exists sub', nth_error w'.(exitSubscribers) i = Some sub' /\
       sub' !! e.(e_Pid) = Some (default [] (sub !! e.(e_Pid)) ++ [e]) /\
       (forall q, q <> e.(e_Pid) -> sub' !! q = sub !! q)) /\
  ((forall cp, In cp cps -> cp.(cp_Process).(p_init) = true ->
      default 0%nat (w.(pendingExecs) !! cp.(cp_Container)) = 0%nat) ->
   w'.(running) !! e.(e_Pid) = None).
Proof.
  cbv zeta. intros Hn.
  pose proof (preventExits_not_scaled w _ (fun cp zc Hin Hz => proj1 (Hn cp zc Hin Hz))) as Hb.
  pose proof (preventExits_no_nil w _ (fun cp zc Hin Hz => proj2 (Hn cp zc Hin Hz))) as Hnil.
  unfold processExit.
  destruct (preventExits w (default [] (running w !! e_Pid e))) as [eff b] eqn:Hp.
  simpl in Hb, Hnil. subst b. simpl.
  rewrite TaskFacts.split_exits_spec. simpl.
  split.
  { rewrite !in_app_iff. intros [H|[H|H]]; [exact (Hnil H)|discriminate H|].
    apply in_map_iff in H as (cp & H & _). discriminate H. }
  split; [apply in_app_iff; right; left; reflexivity|].
  split; [apply length_map|].
  split.
  - intros i sub Hi. exists (notify e sub).
    split; [rewrite nth_error_map, Hi; reflexivity|].
    unfold notify. split; [apply lookup_insert_eq|].
    intros q Hq. apply lookup_insert_ne. congruence.
  - intros Hd.
    assert (Hf : List.filter (fun cp => p_init (cp_Process cp) &&
                   negb (Nat.eqb (default 0%nat (pendingExecs w !! cp_Container cp)) 0))
                   (default [] (running w !! e_Pid e)) = []).
    { apply filter_none. intros cp Hin.
      destruct (p_init (cp_Process cp)) eqn:Hi; [|reflexivity].
      simpl. rewrite (Hd cp Hin Hi). reflexivity. }
    rewrite Hf. apply lookup_delete_eq.
Qed.


(** [Restore] holds the checkpoint/restore lock over the whole call,
    whatever its outcome: it takes it first and releases it last, once. *)
Theorem Restore_locked (zc : ZContainer) (env : RestoreEnv) :
  let '(eff, _, _) := Restore zc env in
  exists mid, eff = LockCheckpointRestore :: mid ++ [UnlockCheckpointRestore] /\
    ~ In LockCheckpointRestore mid /\ ~ In UnlockCheckpointRestore mid.
Proof.
  unfold Restore.
  destruct (re_newContainer env); simpl; [|bracket].
  destruct (zc_preRestore zc), (re_process env); simpl; try bracket;
    destruct (re_start env); simpl;
    try (destruct (re_restoreLog env); simpl; bracket);
    destruct (zc_postRestore zc), (re_disableRedirects env); simpl; bracket.
Qed.

(** The container's process is replaced exactly when the restored
    process has started: before that [Restore] leaves the container as it
    was; once started, the new process is installed and the post-restore
    callback runs (when registered) even if disabling the activator's
    redirects then fails, which alone makes the result an error. *)
Theorem Restore_replaces_process (zc : ZContainer) (env : RestoreEnv) :
  let '(eff, res, zc') := Restore zc env in
  ((env.(re_newContainer) = Ok tt /\ (exists p, env.(re_process) = Ok p) /\
    env.(re_start) = Ok tt) \/ zc' = zc) /\
  (forall p, env.(re_newContainer) = Ok tt -> env.(re_process) = Ok p ->
     env.(re_start) = Ok tt ->
     zc'.(zc_Process) = p /\ zc'.(zc_ID) = zc.(zc_ID) /\ zc'.(zc_Bundle) = zc.(zc_Bundle) /\
     zc'.(zc_ScaledDown) = zc.(zc_ScaledDown) /\
     zc'.(zc_InitialProcess) = zc.(zc_InitialProcess) /\
     (In (ReplaceContainer zc.(zc_ID)) eff <-> zc.(zc_postRestore) = true) /\
     In (DisableRedirects zc.(zc_ID)) eff /\
     is_err res = is_err env.(re_disableRedirects) /\
     (forall c q, res = Ok (c, q) ->
        q = p /\ c = {| c_ID := zc.(zc_ID); c_Bundle := zc.(zc_Bundle) |})).
Proof.
  unfold Restore.
  destruct (re_newContainer env) as [[]|e1]; simpl; [|split; [right; reflexivity|discriminate]].
  destruct (re_process env) as [p0|e2]; simpl;
    [|split; [right; reflexivity|intros p _ Hp; discriminate Hp]].
  destruct (re_start env) as [[]|e3]; simpl.
  2:{ destruct (re_restoreLog env); simpl;
      (split; [right; reflexivity|intros p _ _ Hs; discriminate Hs]). }
  destruct (re_disableRedirects env) as [[]|e4]; simpl;
    (split; [left; split; [reflexivity|split; [eexists; reflexivity|reflexivity]]|]);
    intros p _ Hp _; injection Hp as <-;
    (split; [reflexivity|]); (split; [reflexivity|]); (split; [reflexivity|]);
    (split; [reflexivity|]); (split; [reflexivity|]);
    rewrite !in_app_iff; simpl.
  - split.
    + destruct (zc_postRestore zc); simpl; split; try tauto; [|discriminate].
      intros H. exfalso. destruct (zc_preRestore zc); simpl in H; intuition discriminate.
    + split; [destruct (zc_postRestore zc); simpl; tauto|].
      split; [reflexivity|]. intros c q Hr. injection Hr as <- <-. split; reflexivity.
  - split.
    + destruct (zc_postRestore zc); simpl; split; try tauto; [|discriminate].
      intros H. exfalso. destruct (zc_preRestore zc); simpl in H; intuition discriminate.
    + split; [destruct (zc_postRestore zc); simpl; tauto|].
      split; [reflexivity|]. intros c q Hr. discriminate Hr.
Qed.


Lemma Restore_ok_process (zc zc' : ZContainer) (env : RestoreEnv) (reff : list effect)
    (c : container) (p : proc) :
  Restore zc env = (reff, Ok (c, p), zc') ->
  zc' = {| zc_ID := zc.(zc_ID); zc_Bundle := zc.(zc_Bundle);
           zc_ScaledDown := zc.(zc_ScaledDown); zc_Process := p;
           zc_InitialProcess := zc.(zc_InitialProcess);
           zc_DisableCheckpointing := zc.(zc_DisableCheckpointing);
           zc_preRestore := zc.(zc_preRestore); zc_postRestore := zc.(zc_postRestore) |}.
Proof.
  unfold Restore.
  destruct (re_newContainer env); [|discriminate].
  destruct (re_process env) as [p0|]; [|discriminate].
  destruct (re_start env).
  2:{ destruct (re_restoreLog env); discriminate. }
  destruct (re_disableRedirects env); [|discriminate].
  intros H. injection H as _ <- <- <-. reflexivity.
Qed.

(** [Exec] on a managed container first cancels its scheduled scale-down.
    A running one is left as it is and the exec delegated.  A scaled-down
    one is restored first; when that succeeds the wrapper records it as
    running with the restored process, changes no other container, and
    then delegates the exec. *)
Theorem Exec_managed (w : wstate) (r : ExecProcessRequest) (zc : ZContainer)
    (renv : RestoreEnv) (delegate : result unit) :
  w.(zeropodContainers) !! r.(er_ID) = Some zc ->
  (zc.(zc_ScaledDown) = false ->
   Exec w r renv delegate = ([CancelScaleDown r.(er_ID); DelegateExec r], Returned delegate, w)) /\
  (forall reff c p zc', zc.(zc_ScaledDown) = true ->
   Restore zc renv = (reff, Ok (c, p), zc') ->
   let '(eff, out, w') := Exec w r renv delegate in
   eff = [CancelScaleDown r.(er_ID)] ++ reff ++ [SetScaledDown r.(er_ID) false; DelegateExec r] /\
   out = Returned delegate /\
   (exists zc'', w'.(zeropodContainers) !! r.(er_ID) = Some zc'' /\
      zc''.(zc_ScaledDown) = false /\ zc''.(zc_Process) = p /\
      zc''.(zc_ID) = zc.(zc_ID) /\ zc''.(zc_InitialProcess) = zc.(zc_InitialProcess)) /\
   (forall id, id <> r.(er_ID) -> w'.(zeropodContainers) !! id = w.(zeropodContainers) !! id) /\
   w'.(running) = w.(running)).
Proof.
  intros Hz. unfold Exec. rewrite Hz. split.
  - intros Hs. rewrite Hs. reflexivity.
  - intros reff c p zc' Hs HR. rewrite Hs, HR.
    pose proof (Restore_ok_process _ _ _ _ _ _ HR) as ->. simpl.
    split; [reflexivity|]. split; [reflexivity|].
    split; [eexists; split; [apply lookup_insert_eq|repeat split]|].
    split; [|reflexivity].
    intros id Hid. apply lookup_insert_ne. congruence.
Qed.

(** A managed Start whose first scale-down cannot be scheduled returns
    that error, but the task was started by the delegate and the managed
    container stays registered, with its restore callbacks. *)
Theorem Start_schedule_failure_keeps_container (ParseDuration : string -> result Z)
    (GOARCH : string)
    (keyOrder : ZConfig.annotations -> string -> list string)
    (w : wstate) (r : StartRequest) (env : StartEnv)
    (resp : StartResponse) (c : container) (spec : ZConfig.annotations)
    (cfg : ZConfig.Config) (zc : ZContainer) (e : string) :
  env.(se_delegate) = Ok resp -> env.(se_container) = Ok c -> env.(se_spec) = Ok spec ->
  ZConfig.NewConfig ParseDuration GOARCH keyOrder env.(se_namespace) spec = Ok cfg ->
  r.(sr_ExecID) = "" -> cfg.(ZConfig.ContainerType) <> "sandbox" ->
  ZConfig.IsZeropodContainer cfg = true ->
  env.(se_new) = Ok zc -> env.(se_schedule) = Err e ->
  let '(eff, res, w') := Start ParseDuration GOARCH keyOrder w r env in
  res = Err e /\ In (DelegateStart r) eff /\
  exists zc', w'.(zeropodContainers) !! r.(sr_ID) = Some zc' /\
    zc'.(zc_Process) = zc.(zc_Process) /\
    zc'.(zc_preRestore) = true /\ zc'.(zc_postRestore) = true.
Proof.
  intros Hd Hc Hs Hn Hx Ht Hz Hnew Hsch. unfold Start.
  rewrite Hd, Hc, Hs, Hn, Hx, Hz. apply String.eqb_neq in Ht.
  unfold containerTypeSandbox. rewrite Ht, Hnew, Hsch. simpl.
  split; [reflexivity|]. split; [left; reflexivity|].
  eexists. split; [apply lookup_insert_eq|]. repeat split.
Qed.

End TaskMore.

Module DeleteMore.
Import Task.
Import TaskDelete.

Ltac not_in_list := let H := fresh in
  intros H; simpl in H; repeat destruct H as [H|H]; try discriminate; try contradiction.

(** [Delete] re-arms the scale-down exactly for execs of managed
    containers, before delegating; it delegates the delete once and
    answers what the delegate answers, unless re-arming fails, in which
    case it returns that error without deleting. *)
Theorem Delete_rearms_exec {R : Type} (w : wstate) (r : DeleteRequest)
    (schedule : result unit) (delegate : result R) :
  let '(eff, res) := Delete w r schedule delegate in
  (In (DScheduleScaleDown r.(dr_ID)) eff <->
     (exists zc, w.(zeropodContainers) !! r.(dr_ID) = Some zc) /\ r.(dr_ExecID) <> "") /\
  ((exists pre, eff = pre ++ [DDelegateDelete r] /\ ~ In (DDelegateDelete r) pre /\
      res = delegate) \/
   (exists e, schedule = Err e /\ res = Err e /\ ~ In (DDelegateDelete r) eff)).
Proof.
  unfold Delete.
  destruct (zeropodContainers w !! dr_ID r) as [zc|] eqn:Hz.
  - destruct (String.eqb (dr_ExecID r) "") eqn:He; simpl.
    + apply String.eqb_eq in He. split.
      * split; [not_in_list|]. intros [_ H]. contradiction.
      * left. exists []. split; [reflexivity|split; [not_in_list|reflexivity]].
    + apply String.eqb_neq in He. destruct schedule as [u|e]; simpl.
      * split; [split; [intros _; split; [eexists; reflexivity|exact He]|intros _; left; reflexivity]|].
        left. exists [DScheduleScaleDown (dr_ID r)].
        split; [reflexivity|split; [not_in_list|reflexivity]].
      * split; [split; [intros _; split; [eexists; reflexivity|exact He]|intros _; left; reflexivity]|].
        right. exists e. split; [reflexivity|split; [reflexivity|not_in_list]].
  - simpl. split.
    + split; [not_in_list|]. intros [[zc H] _]. discriminate H.
    + left. exists []. split; [reflexivity|split; [not_in_list|reflexivity]].
Qed.

End DeleteMore.

Module LegacyMore.
Import GoStrings.
Import Task.
Import Legacy.
Import LegacyWrapper.
Import StringFacts.

Ltac in_list := simpl; repeat (first [left; reflexivity | right]).
Ltac not_in_list := let H := fresh in
  intros H; simpl in H; repeat destruct H as [H|H]; try discriminate; try contradiction.

(** The first release's [Kill] of the init while scaled down marks the
    original and the current init process exited with status 0, in that
    order, before delegating; if the container or its init cannot be
    looked up, the error is returned and nothing is killed or delegated;
    with no original process recorded the call panics.  Every other Kill
    is only delegated. *)
Theorem Kill_scaled_down_marks_exited (s : lstate) (r : KillRequest) (env : LKillEnv) :
  let '(eff, ret) := LegacyWrapper.Kill s r env in
  ((r.(kr_ExecID) <> "" \/ s.(scaledDown) = false) ->
     eff = [XDelegateKill r] /\ ret = XReturned env.(lk_delegate)) /\
  (r.(kr_ExecID) = "" -> s.(scaledDown) = true ->
     (In (XDelegateKill r) eff ->
        exists op p, s.(originalProcess) = Some op /\ env.(lk_process) = Ok p /\
          eff = [XSetExited op 0; XSetExited p 0; XDelegateKill r] /\
          ret = XReturned env.(lk_delegate)) /\
     (forall e, (env.(lk_container) = Err e \/
                 ((exists c, env.(lk_container) = Ok c) /\ env.(lk_process) = Err e)) ->
        eff = [] /\ ret = XReturned (Err e)) /\
     (s.(originalProcess) = None -> (exists c, env.(lk_container) = Ok c) ->
        (exists p, env.(lk_process) = Ok p) -> exists m, ret = XPanicked m)).
Proof.
  unfold LegacyWrapper.Kill.
  destruct (String.eqb (kr_ExecID r) "") eqn:He; destruct (scaledDown s) eqn:Hs;
    destruct (lk_container env) as [c|ec]; destruct (lk_process env) as [p|ep];
    destruct (originalProcess s) as [op|]; simpl;
    first [apply String.eqb_eq in He | apply String.eqb_neq in He].
  all: split; [first [intros [H|H]; [contradiction|discriminate] | intros _; split; reflexivity]|].
  all: intros Hx Hy; try (exfalso; congruence).
  - split; [intros _; exists op, p; auto|].
    split; [intros e [H|[_ H]]; discriminate H|]. intros H. discriminate H.
  - split; [not_in_list|]. split; [intros e [H|[_ H]]; discriminate H|].
    intros _ _ _. eexists; reflexivity.
  - split; [not_in_list|]. split.
    + intros e [H|[_ H]]; [discriminate H|]. injection H as <-. auto.
    + intros _ _ [p' H]. discriminate H.
  - split; [not_in_list|]. split.
    + intros e [H|[_ H]]; [discriminate H|]. injection H as <-. auto.
    + intros _ _ [p' H]. discriminate H.
  - split; [not_in_list|]. split.
    + intros e [H|[[c' H] _]]; [injection H as <-; auto|discriminate H].
    + intros _ [c' H]. discriminate H.
  - split; [not_in_list|]. split.
    + intros e [H|[[c' H] _]]; [injection H as <-; auto|discriminate H].
    + intros _ [c' H]. discriminate H.
  - split; [not_in_list|]. split.
    + intros e [H|[[c' H] _]]; [injection H as <-; auto|discriminate H].
    + intros _ [c' H]. discriminate H.
  - split; [not_in_list|]. split.
    + intros e [H|[[c' H] _]]; [injection H as <-; auto|discriminate H].
    + intros _ [c' H]. discriminate H.
Qed.

(** Splits a hypothesis [In x L], [L] built from concrete effects and
    the effects of [StartZeropod] ([Hz] classifies those). *)
Ltac split_in H Hz :=
  simpl in H; rewrite ?in_app_iff in H; simpl in H;
  repeat destruct H as [H|H]; try discriminate; try contradiction;
  try (destruct (Hz _ H) as [[? ?]|[?|[? ?]]]; discriminate).

(** Settles [ret = RNil <-> ..], [ret = RErr e <-> ..] and
    [(exists m, ret = RPanic m) <-> ..] once every outcome is concrete. *)
Ltac ret_iff :=
  first
  [ split; [intros [? Hm]; (discriminate Hm || intuition congruence)
           |intros Hr; first [eexists; reflexivity | exfalso; intuition congruence]]
  | split; [intros Hm; (discriminate Hm || (injection Hm as <-; intuition congruence)
                        || intuition congruence)
           |intros Hr; intuition congruence] ].

(** What [scaleDown] does to the wrapper's fields and which steps it
    reaches: it first removes the snapshot directory; when that fails
    the state is untouched; otherwise the flag is set and stays set
    unless the checkpoint of an init process fails; the original process
    is kept, and the stored network namespace path changes only from
    empty, to the path [GetNetworkNS] returned to [StartZeropod]; the
    checkpoint is attempted exactly when the removal succeeded and the
    process is an init; and the call panics exactly when the removal
    succeeded and either the process is not an init, or the checkpoint,
    [StartZeropod], [GetNS] and the stdin pipe of iptables-restore
    succeeded and running iptables-restore in the namespace failed. *)
Theorem scaleDown_flag_and_steps (s : lstate) (c : container) (p : proc) (env : ScaleDownEnv) :
  let '(eff, s', ret) := scaleDown s c p env in
  s'.(originalProcess) = s.(originalProcess) /\
  (s'.(netNSPath) = s.(netNSPath) \/
   (s.(netNSPath) = "" /\ env.(sd_startZeropod).(sz_getNetworkNS) = Ok s'.(netNSPath))) /\
  hd_error eff = Some (LRemoveAll (snapshotDir c.(c_Bundle))) /\
  (match env.(sd_removeAll) with
   | Err _ => s' = s
   | Ok _ => s'.(scaledDown) = negb (p.(p_init) && is_err env.(sd_checkpoint))
   end) /\
  ((exists q opts, In (LCheckpoint q opts) eff) <->
     env.(sd_removeAll) = Ok tt /\ p.(p_init) = true) /\
  ((exists m, ret = RPanic m) <->
     env.(sd_removeAll) = Ok tt /\
     (p.(p_init) = false \/
      (env.(sd_checkpoint) = Ok tt /\
       snd (StartZeropod (set_scaledDown s true) c env.(sd_startZeropod)) = Ok tt /\
       env.(sd_getNS) = Ok tt /\
       env.(sd_iptables).(IPTables.ip_pipe) = Ok tt /\
       is_err env.(sd_iptables).(IPTables.ip_do) = true))).
Proof.
  unfold scaleDown.
  destruct env as [rm ck dl sz gn ipt]; simpl.
  destruct rm as [[]|erm]; simpl.
  - destruct (p_init p) eqn:Hi; simpl.
    + destruct ck as [[]|eck]; simpl.
      * pose proof (LegacyFacts.StartZeropod_state (set_scaledDown s true) c sz) as Hst.
        pose proof (LegacyFacts.StartZeropod_netNS (set_scaledDown s true) c sz) as Hns.
        destruct (StartZeropod (set_scaledDown s true) c sz) as [[zeff s2] zret].
        simpl in Hst, Hns |- *. destruct Hst as [Ho [Hf _]].
        unfold removeCriuIPTablesRules.
        destruct zret as [[]|ez]; [destruct gn as [[]|egn];
          [destruct ipt as [pp ww dd]; simpl; destruct pp as [[]|epp];
            [destruct dd as [[]|edd]; [destruct ww as [[]|eww]|]|]|]|]; simpl;
          (split; [exact Ho|]); (split; [exact Hns|]); (split; [reflexivity|]);
          (split; [exact Hf|]);
          (split; [split; [intros _; split; reflexivity|intros _; exists p; eexists; in_list]|]);
          ret_iff.
      * destruct dl as [b|edl]; simpl;
          (split; [reflexivity|]); (split; [left; reflexivity|]); (split; [reflexivity|]);
          (split; [reflexivity|]);
          (split; [split; [intros _; split; reflexivity|intros _; exists p; eexists; in_list]|]);
          ret_iff.
    + (split; [reflexivity|]); (split; [left; reflexivity|]); (split; [reflexivity|]);
        (split; [reflexivity|]).
      split; [split; [intros [q [opts H]]; revert H; not_in_list|intros [_ H]; discriminate H]|].
      ret_iff.
  - destruct s; simpl. (split; [reflexivity|]); (split; [left; reflexivity|]);
      (split; [reflexivity|]).
    split; [reflexivity|].
    split; [split; [intros [q [opts H]]; revert H; not_in_list|intros [H _]; discriminate H]|].
    ret_iff.
Qed.

(** Once the checkpoint of an init process has succeeded, [scaleDown]
    leaves the wrapper as [StartZeropod] left it: the scaled-down flag
    set, the original process kept, and the network namespace path
    looked up and stored if none was stored; it sends TaskCheckpointed
    and starts the activator, enters the namespace at the stored path,
    returns nil exactly when starting the activator, entering the
    namespace, opening the stdin pipe of iptables-restore, running it
    and writing the rules all succeed, returns the error of the first of
    them that failed (a failed write only when iptables-restore ran),
    and panics exactly when iptables-restore itself failed. *)
Theorem scaleDown_after_checkpoint (s : lstate) (c : container) (p : proc) (env : ScaleDownEnv) :
  env.(sd_removeAll) = Ok tt -> p.(p_init) = true -> env.(sd_checkpoint) = Ok tt ->
  let z := StartZeropod (set_scaledDown s true) c env.(sd_startZeropod) in
  let ipt := env.(sd_iptables) in
  let '(eff, s', ret) := scaleDown s c p env in
  s' = snd (fst z) /\ s'.(scaledDown) = true /\ s'.(originalProcess) = s.(originalProcess) /\
  s'.(netNSPath) =
    (if String.eqb s.(netNSPath) "" then
       match env.(sd_startZeropod).(sz_getSpec), env.(sd_startZeropod).(sz_getNetworkNS) with
       | Ok _, Ok path => path
       | _, _ => ""
       end
     else s.(netNSPath)) /\
  In (LSend "TaskCheckpointed" c.(c_ID)) eff /\ In (LStartZeropod c.(c_ID)) eff /\
  (forall path, In (LGetNS path) eff -> path = s'.(netNSPath)) /\
  (ret = RNil <->
     snd z = Ok tt /\ env.(sd_getNS) = Ok tt /\ ipt.(IPTables.ip_pipe) = Ok tt /\
     ipt.(IPTables.ip_do) = Ok tt /\ ipt.(IPTables.ip_write) = Ok tt) /\
  (forall e, ret = RErr e <->
     snd z = Err e \/
     (snd z = Ok tt /\ env.(sd_getNS) = Err e) \/
     (snd z = Ok tt /\ env.(sd_getNS) = Ok tt /\
      (ipt.(IPTables.ip_pipe) = Err e \/
       (ipt.(IPTables.ip_pipe) = Ok tt /\ ipt.(IPTables.ip_do) = Ok tt /\
        ipt.(IPTables.ip_write) = Err e)))) /\
  ((exists m, ret = RPanic m) <->
     snd z = Ok tt /\ env.(sd_getNS) = Ok tt /\ ipt.(IPTables.ip_pipe) = Ok tt /\
     is_err ipt.(IPTables.ip_do) = true).
Proof.
  intros Hrm Hi Hck. cbv zeta. unfold scaleDown. rewrite Hrm, Hck. simpl. rewrite Hi. simpl.
  pose proof (LegacyFacts.StartZeropod_state (set_scaledDown s true) c (sd_startZeropod env))
    as Hst.
  pose proof (fun x => LegacyFacts.StartZeropod_effects (set_scaledDown s true) c
                         (sd_startZeropod env) x) as Hz.
  destruct (StartZeropod (set_scaledDown s true) c (sd_startZeropod env)) as [[zeff s2] zret].
  simpl in Hst, Hz |- *. destruct Hst as [Ho [Hf Hn]].
  unfold removeCriuIPTablesRules.
  destruct zret as [[]|ez]; [destruct (sd_getNS env) as [[]|eg];
    [destruct (IPTables.ip_pipe (sd_iptables env)) as [[]|epp];
      [destruct (IPTables.ip_do (sd_iptables env)) as [[]|edd];
        [destruct (IPTables.ip_write (sd_iptables env)) as [[]|eww]|]|]|]|]; simpl;
    (split; [reflexivity|]); (split; [exact Hf|]); (split; [exact Ho|]);
    (split; [exact Hn|]); (split; [in_list|]); (split; [in_list|]);
    (split; [intros path H; split_in H Hz; injection H as <-; reflexivity|]);
    (split; [ret_iff|]); (split; [intros e; ret_iff|]); ret_iff.
Qed.


Lemma check_all_scaled_down (s : lstate) (k : string -> bool) (c : lcontainer) (e : exit)
    (ps : list proc) :
  s.(scaledDown) = true ->
  forall x, In x (check_all s k c e ps) ->
  exists p, x = XKillAll p /\ In p ps /\ p.(p_init) = true /\ p.(p_pid) = e.(e_Pid).
Proof.
  intros Hs. induction ps as [|q ps IH]; simpl; [contradiction|].
  intros x Hx.
  destruct (Z.eqb (p_pid q) (e_Pid e)) eqn:Hq; simpl in Hx.
  - rewrite Hs in Hx. apply in_app_or in Hx as [Hx|Hx].
    + destruct (p_init q && k (lc_Bundle c)) eqn:Hk; [|contradiction].
      destruct Hx as [<-|[]]. apply andb_true_iff in Hk as [Hk _].
      apply Z.eqb_eq in Hq. exists q; auto.
    + destruct (IH x Hx) as (p & ? & ? & ?). exists p; auto.
  - destruct (IH x Hx) as (p & ? & ? & ?). exists p; auto.
Qed.

Lemma check_all_skip (s : lstate) (k : string -> bool) (c : lcontainer) (e : exit)
    (ps1 ps2 : list proc) :
  Forall (fun q => q.(p_pid) <> e.(e_Pid)) ps1 ->
  check_all s k c e (ps1 ++ ps2) = check_all s k c e ps2.
Proof.
  induction 1 as [|q ps1 Hq _ IH]; [reflexivity|]. simpl.
  apply Z.eqb_neq in Hq. rewrite Hq. exact IH.
Qed.

Lemma checkProcesses_skip (s : lstate) (k : string -> bool) (e : exit)
    (pre cs : list lcontainer) :
  Forall (fun c => HasPid c e.(e_Pid) = false) pre ->
  checkProcesses s k (pre ++ cs) e = checkProcesses s k cs e.
Proof.
  induction 1 as [|c pre Hc _ IH]; [reflexivity|]. simpl. rewrite Hc. exact IH.
Qed.

(** While the wrapper is scaled down, handling an exit does nothing but
    kill the children of the exited init process: no process is marked
    exited and no TaskExit event is sent. *)
Theorem checkProcesses_scaled_down (s : lstate) (k : string -> bool)
    (cs : list lcontainer) (e : exit) :
  s.(scaledDown) = true ->
  forall x, In x (checkProcesses s k cs e) ->
  exists c p, x = XKillAll p /\ In c cs /\ In p c.(lc_All) /\
    p.(p_init) = true /\ p.(p_pid) = e.(e_Pid).
Proof.
  intros Hs. induction cs as [|c cs IH]; simpl; [contradiction|].
  intros x Hx. destruct (HasPid c (e_Pid e)); simpl in Hx.
  - destruct (check_all_scaled_down s k c e _ Hs x Hx) as (p & ? & ? & ? & ?).
    exists c, p; auto.
  - destruct (IH x Hx) as (c' & p & ? & ? & ? & ? & ?). exists c', p; auto 6.
Qed.

(** An exit whose PID no container has is ignored. *)
Theorem checkProcesses_no_owner (s : lstate) (k : string -> bool)
    (cs : list lcontainer) (e : exit) :
  Forall (fun c => HasPid c e.(e_Pid) = false) cs ->
  checkProcesses s k cs e = [].
Proof.
  intros H. rewrite <- (app_nil_r cs). rewrite checkProcesses_skip by exact H. reflexivity.
Qed.

(** When not scaled down, an exit is handled only for the first process
    with its PID in the first container that has it: the init's children
    are killed if the bundle asks for it, the original process is marked
    exited with 0 if it is that process, the process is marked exited
    with the exit status and one TaskExit event is sent for it; with no
    original process recorded the handling panics after the kill. *)
Theorem checkProcesses_first_owner (s : lstate) (k : string -> bool) (e : exit)
    (pre post : list lcontainer) (c : lcontainer) (ps1 ps2 : list proc) (p : proc) :
  s.(scaledDown) = false ->
  Forall (fun c' => HasPid c' e.(e_Pid) = false) pre ->
  c.(lc_All) = ps1 ++ p :: ps2 ->
  Forall (fun q => q.(p_pid) <> e.(e_Pid)) ps1 ->
  p.(p_pid) = e.(e_Pid) ->
  checkProcesses s k (pre ++ c :: post) e =
    (if p.(p_init) && k c.(lc_Bundle) then [XKillAll p] else []) ++
    match s.(originalProcess) with
    | None => [XPanic nil_deref]
    | Some op =>
        (if String.eqb p.(p_id) op.(p_id) then [XSetExited op 0] else []) ++
        [XSetExited p e.(e_Status); XTaskExit c.(lc_ID) p.(p_id) e.(e_Pid) e.(e_Status)]
    end.
Proof.
  intros Hs Hpre Hc Hps1 Hp.
  rewrite checkProcesses_skip by exact Hpre. simpl.
  assert (Hh : HasPid c (e_Pid e) = true).
  { unfold HasPid. apply existsb_exists. exists p. split.
    - rewrite Hc. apply in_or_app. right. left. reflexivity.
    - now apply Z.eqb_eq. }
  rewrite Hh. simpl. rewrite Hc, check_all_skip by exact Hps1. simpl.
  rewrite Hp, Z.eqb_refl. simpl. rewrite Hs. destruct (originalProcess s); reflexivity.
Qed.

Lemma append_inv_l (a b c : string) :
  String.append a b = String.append a c -> b = c.
Proof.
  induction a as [|x a IH]; [auto|]. rewrite !append_String. intros H.
  injection H as H. auto.
Qed.

Lemma append_inv_r (b c t : string) :
  String.append b t = String.append c t -> b = c.
Proof.
  revert c. induction b as [|x b IH]; intros [|y c] H; try reflexivity.
  - exfalso. apply (f_equal String.length) in H.
    rewrite !StdioFacts.length_append_str in H. simpl in H. lia.
  - exfalso. apply (f_equal String.length) in H.
    rewrite !StdioFacts.length_append_str in H. simpl in H. lia.
  - rewrite !append_String in H. injection H as -> H. f_equal. auto.
Qed.

Lemma scaleDown_checkpoint_path (s : lstate) (c : container) (p : proc)
    (env : ScaleDownEnv) (q : proc) (opts : CheckpointConfig) :
  In (LCheckpoint q opts) (fst (fst (scaleDown s c p env))) ->
  q = p /\ opts.(ck_Path) = containerDir c.(c_Bundle).
Proof.
  intros H. unfold scaleDown in H.
  destruct env as [rm ck dl sz gn ipt]; simpl in H.
  destruct rm; simpl in H; [|destruct H as [H|H]; [discriminate|contradiction]].
  destruct (p_init p); simpl in H;
    [|repeat destruct H as [H|H]; try discriminate; contradiction].
  destruct ck.
  - pose proof (fun x => LegacyFacts.StartZeropod_effects (set_scaledDown s true) c sz x) as Hz.
    destruct (StartZeropod (set_scaledDown s true) c sz) as [[zeff s2] zret].
    destruct zret; [destruct gn; [destruct (removeCriuIPTablesRules ipt)|]|];
      simpl in H; (destruct H as [H|[H|H]];
                   [discriminate|inversion H; subst; split; reflexivity|]);
      exfalso; split_in H Hz.
  - destruct dl; simpl in H; destruct H as [H|[H|H]];
      try discriminate; try (inversion H; subst; split; reflexivity);
      repeat destruct H as [H|H]; try discriminate; contradiction.
Qed.

(** Both restore paths create the restored process from the directory
    that [scaleDown] checkpointed the container to: the wrapper's
    [restore] under the container's ID, [service.restore] under the
    fresh ID, both with the container's bundle. *)
Theorem restore_reads_checkpoint (s0 s : lstate) (c : container) (p q : proc)
    (sd : ScaleDownEnv) (opts : CheckpointConfig) (stdio_of : proc -> Stdio)
    (svc : Stdio) (newID : string) (env : LegacyWrapper.RestoreEnv)
    (id b ck : string) :
  In (LCheckpoint q opts) (fst (fst (scaleDown s0 c p sd))) ->
  (In (XCreate id b ck) (fst (LegacyWrapper.restore s stdio_of c env)) ->
     id = c.(c_ID) /\ b = c.(c_Bundle) /\ ck = opts.(ck_Path)) /\
  (In (XCreate id b ck) (fst (fst (fst (service_restore svc newID c env)))) ->
     id = newID /\ b = c.(c_Bundle) /\ ck = opts.(ck_Path)).
Proof.
  intros Hck. destruct (scaleDown_checkpoint_path _ _ _ _ _ _ Hck) as [_ ->].
  split.
  - unfold LegacyWrapper.restore.
    destruct (originalProcess s) as [op|]; simpl; [|not_in_list].
    destruct (lr_create env); [destruct (lr_start env)|]; simpl;
      intros H; repeat destruct H as [H|H]; try discriminate;
      try (injection H as <- <- <-; auto); contradiction.
  - unfold service_restore. destruct (restore_stdio svc) as [svc' pst].
    destruct (lr_create env); [destruct (lr_start env)|]; simpl;
      intros H; repeat destruct H as [H|H]; try discriminate;
      try (injection H as <- <- <-; auto); contradiction.
Qed.

(** The wrapper's [restore] builds the new process's stdout and stderr
    separately from the original process's: [file://] before and [-1]
    after each; the two paths coincide exactly when the original ones
    do.  Without an original process it panics. *)
Theorem restore_stdio_from_original (s : lstate) (stdio_of : proc -> Stdio) (c : container)
    (env : LegacyWrapper.RestoreEnv) :
  let '(eff, ret) := LegacyWrapper.restore s stdio_of c env in
  match s.(originalProcess) with
  | None => eff = [XPanic nil_deref] /\ ret = XPanicked nil_deref
  | Some op =>
      exists pst, hd_error eff = Some (XNewProcess c.(c_ID) pst) /\
        pst.(Stdout) = String.append "file://" (String.append (stdio_of op).(Stdout) "-1") /\
        pst.(Stderr) = String.append "file://" (String.append (stdio_of op).(Stderr) "-1") /\
        (pst.(Stdout) = pst.(Stderr) <-> (stdio_of op).(Stdout) = (stdio_of op).(Stderr))
  end.
Proof.
  unfold LegacyWrapper.restore. destruct (originalProcess s) as [op|]; [|split; reflexivity].
  destruct (lr_create env); [destruct (lr_start env)|]; simpl;
    eexists; (split; [reflexivity|]); simpl; (split; [reflexivity|]); (split; [reflexivity|]);
    (split; [intros H; apply append_inv_l, append_inv_r in H; exact H|intros ->; reflexivity]).
Qed.

(** How the wrapper's [restore] ends: on success it has created and
    started the process, made it the container's main process and sent
    TaskStart with its PID last, and returns an init process under the
    container's ID; a failed create or start is returned wrapped, and
    then the process is neither made main process nor announced. *)
Theorem restore_outcomes (s : lstate) (stdio_of : proc -> Stdio) (c : container)
    (env : LegacyWrapper.RestoreEnv) :
  let '(eff, ret) := LegacyWrapper.restore s stdio_of c env in
  (forall q, ret = XReturned (Ok q) ->
     q = {| p_id := c.(c_ID); p_pid := env.(lr_pid); p_init := true |} /\
     env.(lr_create) = Ok tt /\ env.(lr_start) = Ok tt /\
     In (XSetMainProcess c.(c_ID)) eff /\
     List.last eff (XStart c.(c_ID)) = XTaskStart c.(c_ID) env.(lr_pid)) /\
  (forall m, ret = XReturned (Err m) ->
     ((exists e, env.(lr_create) = Err e /\
        m = String.append "creation failed during restore: " e /\ ~ In (XStart c.(c_ID)) eff) \/
      (env.(lr_create) = Ok tt /\ exists e, env.(lr_start) = Err e /\
        m = String.append "start failed during restore: " e)) /\
     ~ In (XSetMainProcess c.(c_ID)) eff /\ (forall pid, ~ In (XTaskStart c.(c_ID) pid) eff)).
Proof.
  unfold LegacyWrapper.restore. destruct (originalProcess s) as [op|].
  2:{ split; intros ? H; discriminate H. }
  destruct (lr_create env) as [[]|ec]; [destruct (lr_start env) as [[]|es]|]; simpl.
  - split; [|intros ? H; discriminate H].
    intros q H. injection H as <-.
    do 3 (split; [reflexivity|]). split; [in_list|reflexivity].
  - split; [intros ? H; discriminate H|].
    intros m H. injection H as <-. split; [right; split; [reflexivity|eexists; split; reflexivity]|].
    split; [not_in_list|intros pid; not_in_list].
  - split; [intros ? H; discriminate H|].
    intros m H. injection H as <-. split; [left; eexists; split; [reflexivity|split; [reflexivity|not_in_list]]|].
    split; [not_in_list|intros pid; not_in_list].
Qed.

(** [service.restore] renames the container to the fresh ID and, unlike
    the wrapper's [restore], never makes the process the container's
    main process nor sends TaskStart; on success the last event is
    TaskResumed for the fresh ID and the process is an init under it. *)
Theorem service_restore_outcomes (svc : Stdio) (newID : string) (c : container)
    (env : LegacyWrapper.RestoreEnv) :
  let '(eff, svc', c', ret) := service_restore svc newID c env in
  c' = {| c_ID := newID; c_Bundle := c.(c_Bundle) |} /\
  (forall id, ~ In (XSetMainProcess id) eff) /\ (forall id pid, ~ In (XTaskStart id pid) eff) /\
  (forall q, ret = Ok q ->
     q = {| p_id := newID; p_pid := env.(lr_pid); p_init := true |} /\
     List.last eff (XStart newID) = XTaskResumed newID) /\
  (forall m, ret = Err m -> forall id, ~ In (XTaskResumed id) eff).
Proof.
  unfold service_restore. destruct (restore_stdio svc) as [svc' pst].
  destruct (lr_create env) as [[]|ec]; [destruct (lr_start env) as [[]|es]|]; simpl;
    (split; [reflexivity|]); (split; [intros id; not_in_list|]);
    (split; [intros id pid; not_in_list|]).
  - split; [intros q H; injection H as <-; split; reflexivity|intros ? H; discriminate H].
  - split; [intros ? H; discriminate H|intros m _ id; not_in_list].
  - split; [intros ? H; discriminate H|intros m _ id; not_in_list].
Qed.

End LegacyMore.

Module IPTablesMore.
Import IPTables.

Local Abbreviation mk m g c p := (Build_ipt m g c p).

Ltac in_list := simpl; repeat (first [left; reflexivity | right]).

(** Proves [reachable env st -> In st L] for a concrete list [L] of
    states, by following every step. *)
Ltac reach_in_list :=
  let Hr := fresh in let st := fresh in let st' := fresh in
  let IH := fresh in let Hs := fresh in
  intros st Hr; induction Hr as [|st st' Hr IH Hs]; [left; reflexivity|];
  simpl in IH; repeat destruct IH as [<-|IH]; try contradiction;
  unfold removeCriuIPTablesRules_step in Hs; simpl in Hs;
  repeat destruct Hs as [<-|Hs]; try contradiction; in_list.

Lemma reach_pipe_err (e : string) (w d : result unit) (st : ipt) :
  reachable {| ip_pipe := Err e; ip_write := w; ip_do := d |} st ->
  In st [ipt_init; mk (MDone (Some e)) GIdle false false].
Proof. revert st. reach_in_list. Qed.

Lemma reach_do_err_write_ok (d : string) (st : ipt) :
  reachable {| ip_pipe := Ok tt; ip_write := Ok tt; ip_do := Err d |} st ->
  In st [ipt_init; mk MDo GWrite false false; mk (MClose d) GWrite false false;
         mk MDo GClose false false; mk (MDone (Some d)) GWrite true false;
         mk (MClose d) GClose false false; mk MDo GDone true false;
         mk (MDone (Some d)) GClose true false; mk (MDone (Some d)) GClose true true;
         mk (MClose d) GDone true false; mk (MClose d) GDone true true].
Proof. revert st. reach_in_list. Qed.

Lemma reach_do_err_write_err (d w : string) (st : ipt) :
  reachable {| ip_pipe := Ok tt; ip_write := Err w; ip_do := Err d |} st ->
  In st [ipt_init; mk MDo GWrite false false; mk (MClose d) GWrite false false;
         mk MDo (GSend w) false false; mk (MDone (Some d)) GWrite true false;
         mk (MClose d) (GSend w) false false; mk (MDone (Some d)) (GSend w) true false;
         mk (MDone (Some d)) (GSend w) true true].
Proof. revert st. reach_in_list. Qed.

Lemma reach_do_ok_write_ok (st : ipt) :
  reachable {| ip_pipe := Ok tt; ip_write := Ok tt; ip_do := Ok tt |} st ->
  In st [ipt_init; mk MDo GWrite false false; mk MRecv GWrite false false;
         mk MDo GClose false false; mk MRecv GClose false false;
         mk MDo GDone true false; mk MRecv GDone true false;
         mk (MDone None) GDone true false].
Proof. revert st. reach_in_list. Qed.

Lemma reach_do_ok_write_err (w : string) (st : ipt) :
  reachable {| ip_pipe := Ok tt; ip_write := Err w; ip_do := Ok tt |} st ->
  In st [ipt_init; mk MDo GWrite false false; mk MRecv GWrite false false;
         mk MDo (GSend w) false false; mk MRecv (GSend w) false false;
         mk (MDone (Some w)) GClose false false; mk (MDone (Some w)) GDone true false].
Proof. revert st. reach_in_list. Qed.

(** Checks a property of the stuck states among a concrete list. *)
Ltac stuck_cases H :=
  simpl in H; repeat destruct H as [<-|H]; try contradiction;
  intros Hstuck; unfold removeCriuIPTablesRules_step in Hstuck; simpl in Hstuck;
  try discriminate Hstuck.

(** [Legacy.removeCriuIPTablesRules], which [Legacy.scaleDown] calls,
    gives how every run of the two goroutines ends: returned nil or an
    error without a panic, or panicked. *)
Lemma removeCriuIPTablesRules_outcome (env : IPEnv) (st : ipt) :
  reachable env st -> removeCriuIPTablesRules_step env st = [] ->
  match Legacy.removeCriuIPTablesRules env with
  | Legacy.RNil => st.(i_panicked) = false /\ st.(i_main) = MDone None
  | Legacy.RErr e => st.(i_panicked) = false /\ st.(i_main) = MDone (Some e)
  | Legacy.RPanic _ => st.(i_panicked) = true
  end.
Proof.
  destruct env as [pp ww dd]; unfold Legacy.removeCriuIPTablesRules; simpl. intros Hr.
  destruct pp as [[]|e].
  - destruct dd as [[]|d]; destruct ww as [[]|w].
    + apply reach_do_ok_write_ok in Hr. stuck_cases Hr; auto.
    + apply reach_do_ok_write_err in Hr. stuck_cases Hr; auto.
    + apply reach_do_err_write_ok in Hr. stuck_cases Hr; reflexivity.
    + apply reach_do_err_write_err in Hr. stuck_cases Hr; reflexivity.
  - apply reach_pipe_err in Hr. stuck_cases Hr. auto.
Qed.

(** When the stdin pipe of iptables-restore cannot be obtained,
    [removeCriuIPTablesRules] returns that error without starting the
    writer goroutine or touching the channel. *)
Theorem removeCriuIPTablesRules_pipe_failure (env : IPEnv) (e : string) (st : ipt) :
  env.(ip_pipe) = Err e -> reachable env st ->
  removeCriuIPTablesRules_step env st = [] ->
  st = {| i_main := MDone (Some e); i_gor := GIdle; i_closed := false; i_panicked := false |}.
Proof.
  destruct env as [pp ww dd]; simpl. intros -> Hr.
  apply reach_pipe_err in Hr. stuck_cases Hr. reflexivity.
Qed.

(** When running iptables-restore in the namespace fails, every way the
    two goroutines can run ends in a panic: the caller closes the
    channel that the writer goroutine then sends on or closes again
    (or the writer closes it first and the caller closes it again). *)
Theorem removeCriuIPTablesRules_do_failure_panics (env : IPEnv) (d : string) (st : ipt) :
  env.(ip_pipe) = Ok tt -> env.(ip_do) = Err d -> reachable env st ->
  removeCriuIPTablesRules_step env st = [] -> st.(i_panicked) = true.
Proof.
  destruct env as [pp ww dd]; simpl. intros -> -> Hr.
  destruct ww as [[]|w].
  - apply reach_do_err_write_ok in Hr. stuck_cases Hr; reflexivity.
  - apply reach_do_err_write_err in Hr. stuck_cases Hr; reflexivity.
Qed.

(** When iptables-restore runs, nothing panics, and every run ends with
    the writer goroutine finished, the channel closed, and the caller
    returned nil after a successful write or the write error otherwise. *)
Theorem removeCriuIPTablesRules_do_success (env : IPEnv) (st : ipt) :
  env.(ip_pipe) = Ok tt -> env.(ip_do) = Ok tt -> reachable env st ->
  st.(i_panicked) = false /\
  (removeCriuIPTablesRules_step env st = [] ->
   st = {| i_main := MDone (match env.(ip_write) with Ok _ => None | Err w => Some w end);
           i_gor := GDone; i_closed := true; i_panicked := false |}).
Proof.
  destruct env as [pp ww dd]; simpl. intros -> -> Hr.
  destruct ww as [[]|w].
  - apply reach_do_ok_write_ok in Hr.
    simpl in Hr; repeat destruct Hr as [<-|Hr]; try contradiction;
      (split; [reflexivity|]); intros Hstuck; unfold removeCriuIPTablesRules_step in Hstuck;
      simpl in Hstuck; try discriminate Hstuck; reflexivity.
  - apply reach_do_ok_write_err in Hr.
    simpl in Hr; repeat destruct Hr as [<-|Hr]; try contradiction;
      (split; [reflexivity|]); intros Hstuck; unfold removeCriuIPTablesRules_step in Hstuck;
      simpl in Hstuck; try discriminate Hstuck; reflexivity.
Qed.

(** No interleaving of the two goroutines runs forever, whatever the
    outcomes of the pipe, the write and the command. *)
Theorem removeCriuIPTablesRules_terminates (env : IPEnv) :
  well_founded (fun st' st => In st' (removeCriuIPTablesRules_step env st)).
Proof.
  set (mrank := fun m => match m with
    | MPipe => 4 | MDo => 3 | MClose _ => 2 | MRecv => 2 | MDone _ => 0 end).
  set (grank := fun g => match g with
    | GIdle => 0 | GWrite => 3 | GSend _ => 2 | GClose => 1 | GDone => 0 end).
  set (measure := fun st =>
    10 * mrank st.(i_main) + grank st.(i_gor) + (if st.(i_closed) then 0 else 1)
    + (if st.(i_panicked) then 0 else 1)).
  apply (wf_incl _ _ (ltof _ measure)); [|apply well_founded_ltof].
  intros st' [m g c p] Hs. unfold ltof.
  unfold removeCriuIPTablesRules_step in Hs; simpl in Hs.
  destruct p; [contradiction|].
  apply in_app_or in Hs as [Hs|Hs].
  - unfold main_step in Hs; simpl in Hs.
    destruct m; [destruct (ip_pipe env)|destruct (ip_do env)|destruct c|destruct c; [|destruct g]|];
      simpl in Hs; repeat destruct Hs as [<-|Hs]; try contradiction;
      unfold measure; simpl; try destruct c; try destruct g; simpl; lia.
  - unfold gor_step in Hs; simpl in Hs.
    destruct g; [|destruct (ip_write env)|destruct c; [|destruct m]|destruct c|];
      simpl in Hs; repeat destruct Hs as [<-|Hs]; try contradiction;
      unfold measure; simpl; try destruct c; try destruct m; simpl; lia.
Qed.

End IPTablesMore.

(* ===================================================================== *)
(* Witnesses of the further properties                                  *)
(* ===================================================================== *)

Module ExtraWitnesses.
Import GoStrings.
Import Task.

(** Names the config that [NewConfig] computes at a concrete input. *)
Ltac computed_config t cfg :=
  let v := eval vm_compute in t in
  lazymatch v with Ok ?c => pose (cfg := c) end.

(** A state is among the computed successors of another. *)
Ltac step_in := vm_compute; repeat (first [left; reflexivity | right]).

Lemma NewConfig_ports_exact_witness :
  let m := <["zeropod.ctrox.dev/Ports-Map" := "web=80,443;db=5432"]>
             (<[ZConfig.CRIContainerNameAnnotation := "web"]> ∅) in
  match ZConfig.NewConfig (fun _ => Ok 0%Z) "amd64" (fun _ _ => []) None m with
  | Ok cfg => In 443%N cfg.(ZConfig.Ports) /\ (443 < 65536)%N
  | Err _ => False
  end.
Proof.
  intros m.
  destruct (ZConfig.NewConfig (fun _ => Ok 0%Z) "amd64" (fun _ _ => []) None m) as [cfg|e] eqn:Hn;
    [|vm_compute in Hn; discriminate Hn].
  destruct (ConfigMore.NewConfig_ports_exact (fun _ => Ok 0%Z) "amd64" (fun _ _ => []) None m
              cfg Hn 443%N) as [Hiff Hb].
  assert (Hin : In 443%N cfg.(ZConfig.Ports)).
  { apply Hiff. exists "web=80,443", "80,443", "443".
    split; [vm_compute; left; reflexivity|].
    split; [vm_compute; reflexivity|].
    split; [vm_compute; right; left; reflexivity|vm_compute; reflexivity]. }
  split; [exact Hin|exact (Hb Hin)].
Defined.

Lemma NewConfig_defaults_witness :
  let m := <["zeropod.ctrox.dev/Container-Names" := ""]>
             (<[ZConfig.CRIContainerNameAnnotation := "web"]> (∅ : ZConfig.annotations)) in
  exists cfg, ZConfig.NewConfig (fun _ => Ok 0%Z) "amd64" (fun _ _ => []) None m = Ok cfg /\
    cfg.(ZConfig.Ports) = [] /\
    cfg.(ZConfig.ScaleDownDuration) = ZConfig.defaultScaleDownDuration /\
    cfg.(ZConfig.DisableCheckpointing) = false /\ cfg.(ZConfig.PreDump) = false /\
    cfg.(ZConfig.ZeropodContainerNames) = [] /\ ZConfig.IsZeropodContainer cfg = true /\
    cfg.(ZConfig.ContainerdNamespace) = "k8s.io".
Proof.
  intros m.
  apply (ConfigMore.NewConfig_defaults (fun _ => Ok 0%Z) "amd64" (fun _ _ => []) None m).
  intros tag Ht k v Hk He.
  apply lookup_insert_Some in Hk as [[_ <-]|[_ Hk]]; [reflexivity|].
  apply lookup_insert_Some in Hk as [[<- _]|[_ Hk]].
  - simpl in Ht. repeat destruct Ht as [<-|Ht]; try contradiction;
      vm_compute in He; discriminate He.
  - rewrite lookup_empty in Hk. discriminate Hk.
Defined.

Lemma NewConfig_switches_witness :
  let m := <["zeropod.ctrox.dev/Disable-Checkpointing" := "true"]>
             (<[ZConfig.PreDumpAnnotationKey := "1"]> ∅) in
  match ZConfig.NewConfig (fun _ => Ok 0%Z) "arm64" (fun _ _ => []) None m with
  | Ok cfg => cfg.(ZConfig.DisableCheckpointing) = true /\ cfg.(ZConfig.PreDump) = false
  | Err _ => False
  end.
Proof.
  intros m.
  destruct (ZConfig.NewConfig (fun _ => Ok 0%Z) "arm64" (fun _ _ => []) None m) as [cfg|e] eqn:Hn;
    [|vm_compute in Hn; discriminate Hn].
  destruct (ConfigMore.NewConfig_switches (fun _ => Ok 0%Z) "arm64" (fun _ _ => []) None m
              cfg Hn) as [Hd Hp].
  split.
  - apply Hd. vm_compute. right; right; right; right; left. reflexivity.
  - destruct (ZConfig.PreDump cfg); [|reflexivity].
    destruct (proj1 Hp eq_refl) as [Ha _]. exfalso. exact (Ha eq_refl).
Defined.

Lemma NewConfig_unparsable_fails_witness :
  is_err (ZConfig.NewConfig (fun _ => Err "time: invalid duration") "amd64" (fun _ _ => []) None
            (<[ZConfig.ScaleDownDurationAnnotationKey := "soon"]> ∅)) = true.
Proof.
  apply (ConfigMore.NewConfig_unparsable_fails (fun _ => Err "time: invalid duration")
           "amd64" (fun _ _ => []) None (<[ZConfig.ScaleDownDurationAnnotationKey := "soon"]> ∅)).
  left. split; [intros H; vm_compute in H; discriminate H|reflexivity].
Defined.

Lemma NewConfig_selection_witness :
  let m := <["zeropod.ctrox.dev/Container-Names" := "web,sidecar"]>
             (<[ZConfig.CRIContainerNameAnnotation := "sidecar"]> ∅) in
  match ZConfig.NewConfig (fun _ => Ok 0%Z) "amd64" (fun _ _ => []) None m with
  | Ok cfg => ZConfig.IsZeropodContainer cfg = true
  | Err _ => False
  end.
Proof.
  intros m.
  destruct (ZConfig.NewConfig (fun _ => Ok 0%Z) "amd64" (fun _ _ => []) None m) as [cfg|e] eqn:Hn;
    [|vm_compute in Hn; discriminate Hn].
  apply (ConfigMore.NewConfig_selection (fun _ => Ok 0%Z) "amd64" (fun _ _ => []) None m cfg Hn).
  right. vm_compute. right; left. reflexivity.
Defined.

Lemma NewConfig_pod_identity_witness :
  let m := <["vcluster.loft.sh/Name" := "vpod"]>
             (<[ZConfig.CRISandboxNameAnnotation := "vpod-x-default-x-vcluster"]>
               (<[ZConfig.CRISandboxNamespaceAnnotation := "vcluster"]> ∅)) in
  match ZConfig.NewConfig (fun _ => Ok 0%Z) "amd64" (fun _ _ => []) None m with
  | Ok cfg => ZConfig.PodName cfg = "vpod" /\ ZConfig.PodNamespace cfg = "vcluster" /\
              ZConfig.HostPodName cfg = "vpod-x-default-x-vcluster"
  | Err _ => False
  end.
Proof.
  intros m.
  destruct (ZConfig.NewConfig (fun _ => Ok 0%Z) "amd64" (fun _ _ => []) None m) as [cfg|e] eqn:Hn;
    [|vm_compute in Hn; discriminate Hn].
  destruct (ConfigMore.NewConfig_pod_identity (fun _ => Ok 0%Z) "amd64" (fun _ _ => []) None m
              cfg Hn) as (H1 & H2 & H3 & _).
  rewrite H1, H2, H3. vm_compute. split; [reflexivity|split; reflexivity].
Defined.

Lemma processExit_broadcast_witness :
  let ip := {| p_id := "app"; p_pid := 10; p_init := true |} in
  let zc := {| zc_ID := "app"; zc_Bundle := "/run/app"; zc_ScaledDown := false;
               zc_Process := ip; zc_InitialProcess := Some ip;
               zc_DisableCheckpointing := false;
               zc_preRestore := true; zc_postRestore := true |} in
  let w := {| zeropodContainers := <["app" := zc]> ∅;
              running := <[10%Z := [{| cp_Container := "app"; cp_Process := ip |}]]> ∅;
              pendingExecs := ∅; exitSubscribers := [∅] |} in
  let e := {| e_Pid := 10; e_Status := 0 |} in
  In (NotifySubscribers e) (fst (processExit w e)) /\
  (snd (processExit w e)).(running) !! 10%Z = None.
Proof.
  intros ip zc w e.
  assert (Hn : forall cp zc', In cp (default [] (w.(running) !! e.(e_Pid))) ->
                 w.(zeropodContainers) !! cp.(cp_Container) = Some zc' ->
                 zc'.(zc_ScaledDown) = false /\ zc'.(zc_InitialProcess) <> None).
  { intros cp zc' Hin Hz. vm_compute in Hin. destruct Hin as [<-|[]].
    vm_compute in Hz. injection Hz as <-. split; [reflexivity|discriminate]. }
  pose proof (TaskMore.processExit_broadcast w e Hn) as Hb.
  destruct (processExit w e) as [eff w'].
  destruct Hb as (_ & Hin & _ & _ & Hrun). split; [exact Hin|].
  apply Hrun. intros cp Hcp _. vm_compute in Hcp. destruct Hcp as [<-|[]].
  reflexivity.
Defined.

Lemma Exec_managed_witness :
  let zc := {| zc_ID := "app"; zc_Bundle := "/run/app"; zc_ScaledDown := false;
               zc_Process := {| p_id := "app"; p_pid := 42; p_init := true |};
               zc_InitialProcess := Some {| p_id := "app"; p_pid := 42; p_init := true |};
               zc_DisableCheckpointing := false;
               zc_preRestore := true; zc_postRestore := true |} in
  let w := {| zeropodContainers := <["app" := zc]> ∅;
              running := ∅; pendingExecs := ∅; exitSubscribers := [] |} in
  let r := {| er_ID := "app"; er_ExecID := "exec-1" |} in
  let renv := {| re_newContainer := Ok tt;
                 re_process := Ok {| p_id := "app"; p_pid := 0; p_init := true |};
                 re_start := Ok tt; re_restoreLog := Ok ""; re_disableRedirects := Ok tt |} in
  Exec w r renv (Ok tt) = ([CancelScaleDown "app"; DelegateExec r], Returned (Ok tt), w).
Proof.
  intros zc w r renv.
  apply (proj1 (TaskMore.Exec_managed w r zc renv (Ok tt) eq_refl)). reflexivity.
Defined.

Lemma Start_schedule_failure_keeps_container_witness :
  let w := {| zeropodContainers := ∅; running := ∅; pendingExecs := ∅; exitSubscribers := [] |} in
  let r := {| sr_ID := "app"; sr_ExecID := "" |} in
  let m := <[ZConfig.CRIContainerNameAnnotation := "web"]> (∅ : ZConfig.annotations) in
  let zc := {| zc_ID := "app"; zc_Bundle := "/run/app"; zc_ScaledDown := false;
               zc_Process := {| p_id := "app"; p_pid := 42; p_init := true |};
               zc_InitialProcess := Some {| p_id := "app"; p_pid := 42; p_init := true |};
               zc_DisableCheckpointing := false;
               zc_preRestore := false; zc_postRestore := false |} in
  let env := {| se_delegate := Ok {| resp_Pid := 42 |};
                se_container := Ok {| c_ID := "app"; c_Bundle := "/run/app" |};
                se_spec := Ok m; se_namespace := None; se_new := Ok zc;
                se_schedule := Err "timer failed" |} in
  let '(eff, res, w') := Start (fun _ => Ok 0%Z) "amd64" (fun _ _ => []) w r env in
  res = Err "timer failed" /\ In (DelegateStart r) eff /\
  exists zc', w'.(zeropodContainers) !! "app" = Some zc' /\ zc'.(zc_postRestore) = true.
Proof.
  intros w r m zc env.
  computed_config (ZConfig.NewConfig (fun _ => Ok 0%Z) "amd64" (fun _ _ => []) None m) cfg.
  assert (Hn : ZConfig.NewConfig (fun _ => Ok 0%Z) "amd64" (fun _ _ => []) env.(se_namespace) m = Ok cfg)
    by (vm_compute; reflexivity).
  pose proof (TaskMore.Start_schedule_failure_keeps_container (fun _ => Ok 0%Z) "amd64" (fun _ _ => [])
                w r env {| resp_Pid := 42 |} {| c_ID := "app"; c_Bundle := "/run/app" |}
                m cfg zc "timer failed" eq_refl eq_refl eq_refl Hn eq_refl
                ltac:(vm_compute; discriminate) eq_refl eq_refl eq_refl) as H.
  destruct (Start (fun _ => Ok 0%Z) "amd64" (fun _ _ => []) w r env) as [[eff res] w'].
  destruct H as (Hr & Hd & zc' & Hz & _ & _ & Hpost).
  split; [exact Hr|]. split; [exact Hd|]. exists zc'. split; [exact Hz|exact Hpost].
Defined.

Lemma scaleDown_after_checkpoint_witness :
  let p := {| p_id := "app"; p_pid := 42; p_init := true |} in
  let c := {| c_ID := "app"; c_Bundle := "/run/app" |} in
  let s := {| Legacy.originalProcess := Some p; Legacy.scaledDown := false;
              Legacy.netNSPath := "" |} in
  let env := {| Legacy.sd_removeAll := Ok tt; Legacy.sd_checkpoint := Ok tt;
                Legacy.sd_dumpLog := Ok ""; Legacy.sd_startZeropod :=
                  {| Legacy.sz_getSpec := Ok tt; Legacy.sz_getNetworkNS := Ok "/var/run/netns/cni-1";
                     Legacy.sz_newConfig := Ok tt; Legacy.sz_newServer := Ok tt;
                     Legacy.sz_srvStart := Ok tt |};
                Legacy.sd_getNS := Ok tt;
                Legacy.sd_iptables :=
                  {| IPTables.ip_pipe := Ok tt; IPTables.ip_write := Ok tt;
                     IPTables.ip_do := Err "exit status 1" |} |} in
  let '(eff, s', ret) := Legacy.scaleDown s c p env in
  s'.(Legacy.scaledDown) = true /\ s'.(Legacy.netNSPath) = "/var/run/netns/cni-1" /\
  exists m, ret = Legacy.RPanic m.
Proof.
  intros p c s env.
  pose proof (LegacyMore.scaleDown_after_checkpoint s c p env eq_refl eq_refl eq_refl) as H.
  cbv zeta in H.
  destruct (Legacy.scaleDown s c p env) as [[eff s'] ret].
  destruct H as (_ & Hs & _ & Hn & _ & _ & _ & _ & _ & Hpan).
  split; [exact Hs|]. split; [rewrite Hn; reflexivity|].
  apply (proj2 Hpan). split; [reflexivity|]. split; [reflexivity|]. split; reflexivity.
Defined.

Lemma checkProcesses_scaled_down_witness :
  let ip := {| p_id := "app"; p_pid := 10; p_init := true |} in
  let c := {| LegacyWrapper.lc_ID := "app"; LegacyWrapper.lc_Bundle := "/run/app";
              LegacyWrapper.lc_All := [ip] |} in
  let s := {| Legacy.originalProcess := Some ip; Legacy.scaledDown := true;
              Legacy.netNSPath := "" |} in
  let e := {| e_Pid := 10; e_Status := 137 |} in
  exists c' p, LegacyWrapper.XKillAll ip = LegacyWrapper.XKillAll p /\ In c' [c] /\
    In p c'.(LegacyWrapper.lc_All) /\ p.(p_init) = true /\ p.(p_pid) = e.(e_Pid).
Proof.
  intros ip c s e.
  apply (LegacyMore.checkProcesses_scaled_down s (fun _ => true) [c] e eq_refl).
  vm_compute. left. reflexivity.
Defined.

Lemma checkProcesses_no_owner_witness :
  let ip := {| p_id := "app"; p_pid := 10; p_init := true |} in
  let c := {| LegacyWrapper.lc_ID := "app"; LegacyWrapper.lc_Bundle := "/run/app";
              LegacyWrapper.lc_All := [ip] |} in
  let s := {| Legacy.originalProcess := Some ip; Legacy.scaledDown := false;
              Legacy.netNSPath := "" |} in
  LegacyWrapper.checkProcesses s (fun _ => true) [c] {| e_Pid := 99; e_Status := 0 |} = [].
Proof.
  intros ip c s.
  apply LegacyMore.checkProcesses_no_owner. repeat constructor.
Defined.

Lemma checkProcesses_first_owner_witness :
  let ip := {| p_id := "app"; p_pid := 10; p_init := true |} in
  let xp := {| p_id := "exec-1"; p_pid := 11; p_init := false |} in
  let other := {| LegacyWrapper.lc_ID := "db"; LegacyWrapper.lc_Bundle := "/run/db";
                  LegacyWrapper.lc_All := [{| p_id := "db"; p_pid := 20; p_init := true |}] |} in
  let c := {| LegacyWrapper.lc_ID := "app"; LegacyWrapper.lc_Bundle := "/run/app";
              LegacyWrapper.lc_All := [xp; ip] |} in
  let s := {| Legacy.originalProcess := Some ip; Legacy.scaledDown := false;
              Legacy.netNSPath := "" |} in
  let e := {| e_Pid := 10; e_Status := 137 |} in
  LegacyWrapper.checkProcesses s (fun _ => true) ([other] ++ c :: []) e =
    [LegacyWrapper.XKillAll ip; LegacyWrapper.XSetExited ip 0;
     LegacyWrapper.XSetExited ip 137; LegacyWrapper.XTaskExit "app" "app" 10 137].
Proof.
  intros ip xp other c s e.
  rewrite (LegacyMore.checkProcesses_first_owner s (fun _ => true) e [other] [] c [xp] [] ip
             eq_refl ltac:(repeat constructor) eq_refl
             ltac:(repeat constructor; discriminate) eq_refl).
  reflexivity.
Defined.

Lemma restore_reads_checkpoint_witness :
  let p := {| p_id := "app"; p_pid := 42; p_init := true |} in
  let c := {| c_ID := "app"; c_Bundle := "/run/app" |} in
  let s := {| Legacy.originalProcess := Some p; Legacy.scaledDown := true;
              Legacy.netNSPath := "/proc/42/ns/net" |} in
  let sd := {| Legacy.sd_removeAll := Ok tt; Legacy.sd_checkpoint := Ok tt;
               Legacy.sd_dumpLog := Ok ""; Legacy.sd_startZeropod :=
                  {| Legacy.sz_getSpec := Ok tt; Legacy.sz_getNetworkNS := Ok "/var/run/netns/cni-1";
                     Legacy.sz_newConfig := Ok tt; Legacy.sz_newServer := Ok tt;
                     Legacy.sz_srvStart := Ok tt |};
               Legacy.sd_getNS := Ok tt; Legacy.sd_iptables :=
                  {| IPTables.ip_pipe := Ok tt; IPTables.ip_write := Ok tt; IPTables.ip_do := Ok tt |} |} in
  let opts := {| Legacy.ck_Path := Legacy.containerDir "/run/app";
                 Legacy.ck_WorkDir := GoPath.Join [Legacy.snapshotDir "/run/app"; "work"];
                 Legacy.ck_Exit := true; Legacy.ck_AllowOpenTCP := true;
                 Legacy.ck_AllowExternalUnixSockets := true;
                 Legacy.ck_AllowTerminal := false; Legacy.ck_FileLocks := false;
                 Legacy.ck_EmptyNamespaces := [] |} in
  let svc := {| Legacy.Stdin := ""; Legacy.Stdout := "file:///var/log/app-1";
                Legacy.Stderr := "file:///var/log/app-1"; Legacy.Terminal := false |} in
  let env := {| LegacyWrapper.lr_create := Ok tt; LegacyWrapper.lr_start := Ok tt;
                LegacyWrapper.lr_pid := 43 |} in
  "3f2a" = "3f2a" /\ "/run/app" = c.(c_Bundle) /\
  "/run/app/snapshots/container" = opts.(Legacy.ck_Path).
Proof.
  intros p c s sd opts svc env.
  apply (proj2 (LegacyMore.restore_reads_checkpoint s s c p p sd opts (fun _ => svc) svc
                  "3f2a" env "3f2a" "/run/app" "/run/app/snapshots/container"
                  ltac:(vm_compute; right; left; reflexivity))).
  vm_compute. right; left. reflexivity.
Defined.

Lemma removeCriuIPTablesRules_pipe_failure_witness :
  let env := {| IPTables.ip_pipe := Err "too many open files"; IPTables.ip_write := Ok tt;
                IPTables.ip_do := Ok tt |} in
  let st := {| IPTables.i_main := IPTables.MDone (Some "too many open files");
               IPTables.i_gor := IPTables.GIdle; IPTables.i_closed := false;
               IPTables.i_panicked := false |} in
  st = st.
Proof.
  intros env st.
  apply (IPTablesMore.removeCriuIPTablesRules_pipe_failure env "too many open files" st eq_refl).
  - apply (IPTables.reach_step env IPTables.ipt_init); [constructor|step_in].
  - reflexivity.
Defined.

Lemma removeCriuIPTablesRules_do_failure_panics_witness :
  let env := {| IPTables.ip_pipe := Ok tt; IPTables.ip_write := Ok tt;
                IPTables.ip_do := Err "exit status 1" |} in
  let st := {| IPTables.i_main := IPTables.MClose "exit status 1";
               IPTables.i_gor := IPTables.GDone; IPTables.i_closed := true;
               IPTables.i_panicked := true |} in
  st.(IPTables.i_panicked) = true.
Proof.
  intros env st.
  apply (IPTablesMore.removeCriuIPTablesRules_do_failure_panics env "exit status 1" st
           eq_refl eq_refl).
  - apply (IPTables.reach_step env (IPTables.Build_ipt (IPTables.MClose "exit status 1")
             IPTables.GDone true false)); [|step_in].
    apply (IPTables.reach_step env (IPTables.Build_ipt IPTables.MDo
             IPTables.GDone true false)); [|step_in].
    apply (IPTables.reach_step env (IPTables.Build_ipt IPTables.MDo
             IPTables.GClose false false)); [|step_in].
    apply (IPTables.reach_step env (IPTables.Build_ipt IPTables.MDo
             IPTables.GWrite false false)); [|step_in].
    apply (IPTables.reach_step env IPTables.ipt_init); [constructor|step_in].
  - reflexivity.
Defined.

Lemma removeCriuIPTablesRules_do_success_witness :
  let env := {| IPTables.ip_pipe := Ok tt; IPTables.ip_write := Ok tt;
                IPTables.ip_do := Ok tt |} in
  let st := {| IPTables.i_main := IPTables.MDone None; IPTables.i_gor := IPTables.GDone;
               IPTables.i_closed := true; IPTables.i_panicked := false |} in
  st.(IPTables.i_panicked) = false.
Proof.
  intros env st.
  apply (proj1 (IPTablesMore.removeCriuIPTablesRules_do_success env st eq_refl eq_refl
           ltac:(apply (IPTables.reach_step env (IPTables.Build_ipt IPTables.MRecv
                   IPTables.GDone true false)); [|step_in];
                 apply (IPTables.reach_step env (IPTables.Build_ipt IPTables.MRecv
                   IPTables.GClose false false)); [|step_in];
                 apply (IPTables.reach_step env (IPTables.Build_ipt IPTables.MRecv
                   IPTables.GWrite false false)); [|step_in];
                 apply (IPTables.reach_step env (IPTables.Build_ipt IPTables.MDo
                   IPTables.GWrite false false)); [|step_in];
                 apply (IPTables.reach_step env IPTables.ipt_init);
                   [constructor|step_in]))).
Defined.

End ExtraWitnesses.
